(** * cgm-ml: the dataset index and batch generator of [datagenerator.py]

    A shallow embedding of the class [DataGenerator] and a verification of
    the properties its specification states about it.

    Conventions of the embedding.
    - Python [str] values are byte strings (UTF-8).  Byte-wise lexicographic
      order is code-point order and byte-wise containment is code-point
      containment, so [sorted] and [in] keep their meaning.
    - A raised exception is a value of [exn]; every class listed there is a
      subclass of Python's [Exception], so [except Exception] catches it.
    - The disk and the decoding libraries (glob2, json, keras, PIL,
      pyntcloud) are a value of type [World], an explicit argument.
    - The JSON files of a dataset are well formed: a measurement file is an
      object whose [type] and [personId] are objects with a [str] under
      [value], a personal file an object whose [qrcode] is one.  The other
      items of a measurement file are any JSON values.
    - The three caches of an instance live in [Mem], threaded through every
      call, next to the trace of library calls and printed lines.
    - [cache.get(path, [])] followed by [== []]: a miss gives [[]], which
      is equal to [[]]; a hit gives an array, and an array of the shapes
      decoded here is not equal to [[]] (the comparison of numpy of the
      code's time answers false, or an empty array, which is false).  So
      the loaders branch on whether the path is a key of the cache.
    - [random.choice] reads its draws from a tape of naturals. *)

From Stdlib Require Import ZArith Ascii String.
From Stdlib Require Import Floats.SpecFloat.
From stdpp Require Import gmap strings list sorting pretty.

Set Warnings "-clear-no-such-hyp,-register-all".

Open Scope string_scope.
Open Scope list_scope.
Open Scope Z_scope.

(** ** Exceptions and results *)

Inductive exn : Type :=
  | AssertionError (msg : string)        (* a failed [assert] *)
  | NameError (name : string)            (* name 'name' is not defined *)
  | UnboundLocalError (name : string)    (* local read before assignment *)
  | KeyError (key : string)
  | IndexError (msg : string)
  | TypeError (msg : string)
  | Exception_ (msg : string)            (* raise Exception(msg) *)
  | LibraryError (what : string).        (* raised inside a decoding library *)

Inductive result (A : Type) : Type :=
  | Ok (a : A)
  | Raise (e : exn).
Arguments Ok {A} a.
Arguments Raise {A} e.

Definition bind {A B} (r : result A) (k : A -> result B) : result B :=
  match r with
  | Ok a => k a
  | Raise e => Raise e
  end.

Notation "'let*' x ':=' e 'in' k" := (bind e (fun x => k))
  (at level 10, x pattern, e at level 100, k at level 200).

Definition assert_ (b : bool) (msg : string) : result unit :=
  if b then Ok tt else Raise (AssertionError msg).

Definition is_ok {A} (r : result A) : bool :=
  match r with Ok _ => true | Raise _ => false end.

Fixpoint mapM {A B} (f : A -> result B) (l : list A) : result (list B) :=
  match l with
  | [] => Ok []
  | x :: l' =>
      let* y := f x in
      let* ys := mapM f l' in
      Ok (y :: ys)
  end.

(** ** Python string operations *)

(** [needle in hay] on [str]. *)
Fixpoint str_in (needle hay : string) : bool :=
  String.prefix needle hay
  || match hay with
     | EmptyString => false
     | String _ hay' => str_in needle hay'
     end.

Definition startswith (pre s : string) : bool := String.prefix pre s.

Fixpoint endswith_slash (s : string) : bool :=
  match s with
  | EmptyString => false
  | String c EmptyString => Ascii.eqb c "/"%char
  | String _ s' => endswith_slash s'
  end.

(** [os.path.join] of posixpath, two components at a time. *)
Definition join2 (a b : string) : string :=
  if startswith "/" b then b
  else if (String.eqb a "" || endswith_slash a)%bool then a ++ b
  else a ++ "/" ++ b.

Definition os_path_join (a : string) (ps : list string) : string :=
  fold_left join2 ps a.

(** [str(t)] of a tuple of ints. *)
Definition str_tuple (t : list Z) : string :=
  match t with
  | [] => "()"
  | [x] => "(" ++ pretty x ++ ",)"
  | _ => "(" ++ String.concat ", " (pretty <$> t) ++ ")"
  end.

(** ** Data model *)

(** A value as [json.load] returns it: [None], a [bool], an [int], a
    [float], a [str], a [list] or a [dict].  A [dict] is the list of its
    items; for a key listed twice it holds the first. *)
Inductive json : Type :=
  | JNone
  | JBool (b : bool)
  | JInt (z : Z)
  | JFloat (x : spec_float)
  | JStr (s : string)
  | JList (elements : list json)
  | JDict (items : list (string * json)).

(** A measurement record: a [dict] in which [type] and [personId] are
    objects whose [value] is a [str]; [other_fields] are its other items,
    any JSON values. *)
Record MeasurementRecord : Type := {
  type_value : string;
  personId_value : string;
  other_fields : list (string * json);
}.

(** The items of the [dict] a measurement record is. *)
Definition measure_items (r : MeasurementRecord) : list (string * json) :=
  ("type", JDict [("value", JStr (type_value r))])
  :: ("personId", JDict [("value", JStr (personId_value r))])
  :: other_fields r.

(** A personal record: [qrcode.value]. *)
Record PersonalRecord : Type := {
  qrcode_value : string;
}.

(** A numpy array: its shape and its elements' bit patterns, row-major. *)
Record ndarray : Type := {
  shape : list Z;
  buffer : list Z;
}.

(** The [points] data frame of a parsed point cloud: one row per point. *)
Record PointsFrame : Type := {
  columns : list string;
  rows : list (list Z);
}.

(** A PIL image: [size] is (width, height). *)
Record PilImage : Type := {
  im_width : Z;
  im_height : Z;
  im_raster : list Z;
}.

(** The disk and the libraries. *)
Record World : Type := {
  os_path_exists : string -> bool;
  glob2_glob : string -> list string;
  (* json.load(open(path)) of a measurement file and of a personal file *)
  json_load_measure : string -> MeasurementRecord;
  json_load_personal : string -> PersonalRecord;
  (* the picture stored at a path, resampled to (width, height);
     None: the file cannot be decoded *)
  picture : string -> option (Z -> Z -> list Z);
  (* PIL's transposition of a (width, height) raster by 270 degrees *)
  transpose_270 : Z -> Z -> list Z -> list Z;
  (* the point cloud stored at a path; None: the file cannot be parsed *)
  pcd : string -> option PointsFrame;
  (* pyntcloud's density feature of an n_x * n_y * n_z voxel grid;
     None: the grid cannot be built *)
  density : PointsFrame -> Z -> Z -> Z -> option (list Z);
}.

(** A dictionary entry: [targets, jpg_paths, pcd_paths]. *)
Definition entry : Type := list json * list string * list string.

(** The instance once [__init__] has returned, caches apart. *)
Record DataGenerator : Type := {
  dataset_path : string;
  input_type : string;
  output_targets : list string;
  image_target_shape : list Z;
  voxelgrid_target_shape : list Z;
  pointcloud_target_size : Z;
  jpg_paths : list string;
  pcd_paths : list string;
  json_paths_personal : list string;
  json_paths_measures : list string;
  qrcodes : list string;
  qrcodes_dictionary : gmap string entry;
}.

(** ** Construction *)

Section Construction.
Variable w : World.

(** The four path lists of [_get_paths]. *)
Record Paths : Type := {
  p_jpg : list string;
  p_pcd : list string;
  p_personal : list string;
  p_measures : list string;
}.

Definition _get_paths (dataset_path : string) : Paths :=
  let glob_search_path := os_path_join dataset_path ["storage/person"; "**/*.jpg"] in
  let jpg_paths := glob2_glob w glob_search_path in
  let glob_search_path := os_path_join dataset_path ["storage/person"; "**/*.pcd"] in
  let pcd_paths := glob2_glob w glob_search_path in
  let glob_search_path := os_path_join dataset_path ["**/*.json"] in
  let json_paths := glob2_glob w glob_search_path in
  {| p_jpg := jpg_paths;
     p_pcd := pcd_paths;
     p_personal := filter (fun json_path => negb (str_in "measures" json_path)) json_paths;
     p_measures := filter (fun json_path => str_in "measures" json_path) json_paths |}.

Definition _extract_qrcode (json_paths_personal : list string)
    (json_data_measure : MeasurementRecord) : result string :=
  let person_id := personId_value json_data_measure in
  let json_path_personal :=
    filter (fun json_path => str_in person_id json_path) json_paths_personal in
  let* _ := assert_ (length json_path_personal =? 1)%nat "" in
  match json_path_personal with
  | json_path_personal :: _ =>
      let json_data_personal := json_load_personal w json_path_personal in
      Ok (qrcode_value json_data_personal)
  | [] => Raise (IndexError "list index out of range")
  end.

(** [d[key]] on the items of a [dict]. *)
Fixpoint getitem (items : list (string * json)) (key : string) : result json :=
  match items with
  | [] => Raise (KeyError key)
  | (k, v) :: items' => if String.eqb k key then Ok v else getitem items' key
  end.

(** [v[key]] on a JSON value, for a [str] key: only a [dict] can be
    subscripted by one. *)
Definition subscript (v : json) (key : string) : result json :=
  match v with
  | JDict items => getitem items key
  | JList _ => Raise (TypeError "list indices must be integers or slices, not str")
  | JStr _ => Raise (TypeError "string indices must be integers")
  | JInt _ => Raise (TypeError "'int' object is not subscriptable")
  | JFloat _ => Raise (TypeError "'float' object is not subscriptable")
  | JBool _ => Raise (TypeError "'bool' object is not subscriptable")
  | JNone => Raise (TypeError "'NoneType' object is not subscriptable")
  end.

(** [json_data_measure[output_target]["value"]]. *)
Definition value_of (json_data_measure : MeasurementRecord) (output_target : string)
    : result json :=
  let* field := getitem (measure_items json_data_measure) output_target in
  subscript field "value".

Definition _extract_targets (output_targets : list string)
    (json_data_measure : MeasurementRecord) : result (list json) :=
  mapM (fun output_target => value_of json_data_measure output_target) output_targets.

(** [sorted(list(set(qrcodes)))]. *)
Definition sorted_set (qrcodes : list string) : list string :=
  merge_sort String.le (elements (list_to_set qrcodes : gset string)).

Definition _find_qrcodes (json_paths_personal json_paths_measures : list string)
    : result (list string) :=
  let* qrcodes :=
    mapM (fun json_path_measure =>
            let json_data_measure := json_load_measure w json_path_measure in
            _extract_qrcode json_paths_personal json_data_measure)
         json_paths_measures in
  Ok (sorted_set qrcodes).

(** The loop of [_create_qrcodes_dictionary], from a dictionary [d]. *)
Fixpoint dictionary_loop (output_targets jpg_paths pcd_paths json_paths_personal : list string)
    (json_paths_measures : list string) (qrcodes_dictionary : gmap string entry)
    : result (gmap string entry) :=
  match json_paths_measures with
  | [] => Ok qrcodes_dictionary
  | json_path_measure :: rest =>
      let continue_ :=
        dictionary_loop output_targets jpg_paths pcd_paths json_paths_personal rest in
      let json_data_measure := json_load_measure w json_path_measure in
      if negb (String.eqb (type_value json_data_measure) "manual") then
        continue_ qrcodes_dictionary
      else
        let* qrcode := _extract_qrcode json_paths_personal json_data_measure in
        if bool_decide (qrcode ∈ dom qrcodes_dictionary) then
          Raise (Exception_ ("Multiple manual measurements for QR-code: " ++ qrcode))
        else
          let* targets := _extract_targets output_targets json_data_measure in
          let jpg_paths' :=
            filter (fun jpg_path => str_in qrcode jpg_path && str_in "measurements" jpg_path)
                   jpg_paths in
          let pcd_paths' :=
            filter (fun pcd_path => str_in qrcode pcd_path && str_in "measurements" pcd_path)
                   pcd_paths in
          continue_ (<[qrcode := (targets, jpg_paths', pcd_paths')]> qrcodes_dictionary)
  end.

Definition _create_qrcodes_dictionary
    (output_targets jpg_paths pcd_paths json_paths_personal json_paths_measures : list string)
    : result (gmap string entry) :=
  dictionary_loop output_targets jpg_paths pcd_paths json_paths_personal
                  json_paths_measures ∅.

Definition __init__ (dataset_path input_type : string) (output_targets : list string)
    (image_target_shape voxelgrid_target_shape : list Z) (pointcloud_target_size : Z)
    : result DataGenerator :=
  let* _ := assert_ (os_path_exists w dataset_path)
                    ("dataset_path must exist: " ++ dataset_path) in
  let* _ := assert_ (length image_target_shape =? 2)%nat
                    ("image_target_shape must be 2-dimensional: "
                     ++ str_tuple image_target_shape) in
  let* _ := assert_ (length voxelgrid_target_shape =? 3)%nat
                    ("voxelgrid_target_shape must be 3-dimensional: "
                     ++ str_tuple voxelgrid_target_shape) in
  let paths := _get_paths dataset_path in
  let* qrcodes := _find_qrcodes (p_personal paths) (p_measures paths) in
  let* _ := assert_ (negb (bool_decide (qrcodes = []))) "No QR-codes found!" in
  let* qrcodes_dictionary :=
    _create_qrcodes_dictionary output_targets (p_jpg paths) (p_pcd paths)
                               (p_personal paths) (p_measures paths) in
  Ok {| dataset_path := dataset_path;
        input_type := input_type;
        output_targets := output_targets;
        image_target_shape := image_target_shape;
        voxelgrid_target_shape := voxelgrid_target_shape;
        pointcloud_target_size := pointcloud_target_size;
        jpg_paths := p_jpg paths;
        pcd_paths := p_pcd paths;
        json_paths_personal := p_personal paths;
        json_paths_measures := p_measures paths;
        qrcodes := qrcodes;
        qrcodes_dictionary := qrcodes_dictionary |}.

End Construction.

(** ** Caches and effects *)

Inductive event : Type :=
  | LoadImg (path : string)               (* keras' load_img is called *)
  | FromFile (path : string)              (* PyntCloud.from_file is called *)
  | PrintProcessing (qrcode : string)     (* print("Processing:", qrcode) *)
  | PrintNoData (qrcode : string)         (* print("No data for:", qrcode) *)
  | PrintTargets (targets : list json)       (* print(targets) *)
  | PrintExn (e : exn)                    (* print(e) *)
  | PrintError (path : string).           (* print("Error:", pcd_path) *)

Record Mem : Type := {
  image_cache : gmap string ndarray;
  voxelgrid_cache : gmap string ndarray;
  pointcloud_cache : gmap string ndarray;
  trace : list event;
}.

(** The caches as [__init__] creates them. *)
Definition fresh : Mem :=
  {| image_cache := ∅; voxelgrid_cache := ∅; pointcloud_cache := ∅; trace := [] |}.

Definition emit (ev : event) (m : Mem) : Mem :=
  {| image_cache := image_cache m;
     voxelgrid_cache := voxelgrid_cache m;
     pointcloud_cache := pointcloud_cache m;
     trace := trace m ++ [ev] |}.

Definition store_voxelgrid_cache (key : string) (a : ndarray) (m : Mem) : Mem :=
  {| image_cache := image_cache m;
     voxelgrid_cache := <[key := a]> (voxelgrid_cache m);
     pointcloud_cache := pointcloud_cache m;
     trace := trace m |}.

Definition store_pointcloud_cache (key : string) (a : ndarray) (m : Mem) : Mem :=
  {| image_cache := image_cache m;
     voxelgrid_cache := voxelgrid_cache m;
     pointcloud_cache := <[key := a]> (pointcloud_cache m);
     trace := trace m |}.

(** A computation that reads and writes the caches and may raise. *)
Definition M (A : Type) : Type := Mem -> result A * Mem.

(** ** The decoding libraries *)

Section Libraries.
Variable w : World.

(** [image_preprocessing.load_img(path, target_size)]: [target_size] is
    (height, width); the picture is resized to it. *)
Definition load_img (path : string) (target_size : list Z) : result PilImage :=
  match target_size, picture w path with
  | [height; width], Some resample =>
      if (0 <? width) && (0 <? height) then
        Ok {| im_width := width; im_height := height;
              im_raster := resample width height |}
      else Raise (LibraryError "load_img")
  | _, _ => Raise (LibraryError "load_img")
  end.

(** [image.rotate(-90, expand=True)]: a transposition, width and height
    change places. *)
Definition rotate_m90_expand (image : PilImage) : PilImage :=
  {| im_width := im_height image;
     im_height := im_width image;
     im_raster := transpose_270 w (im_width image) (im_height image) (im_raster image) |}.

(** [np.array(image)] of an RGB image. *)
Definition np_array_of_image (image : PilImage) : ndarray :=
  {| shape := [im_height image; im_width image; 3]; buffer := im_raster image |}.

(** [PyntCloud.from_file(path)]. *)
Definition from_file (path : string) : result PointsFrame :=
  match pcd w path with
  | Some points => Ok points
  | None => Raise (LibraryError "from_file")
  end.

(** [points.add_structure("voxelgrid", n_x, n_y, n_z)] followed by
    [get_feature_vector(mode="density")]. *)
Definition voxelgrid_density (points : PointsFrame) (n_x n_y n_z : Z) : result ndarray :=
  match density w points n_x n_y n_z with
  | Some cells => Ok {| shape := [n_x; n_y; n_z]; buffer := cells |}
  | None => Raise (LibraryError "voxelgrid")
  end.

(** [points.values]: the frame as a two-dimensional array. *)
Definition values (points : PointsFrame) : list (list Z) := rows points.

(** [a[:n]] on the first axis. *)
Definition slice_to {A} (a : list A) (n : Z) : list A :=
  if 0 <=? n then take (Z.to_nat n) a
  else take (Z.to_nat (Z.of_nat (length a) + n)) a.

(** [np.array(a)] of the rows of a frame with [ncols] columns. *)
Definition np_array_of_rows (ncols : nat) (a : list (list Z)) : ndarray :=
  {| shape := [Z.of_nat (length a); Z.of_nat ncols]; buffer := concat a |}.

End Libraries.

(** [t[i]] on a tuple. *)
Definition tuple_get (t : list Z) (i : nat) : result Z :=
  match t !! i with
  | Some x => Ok x
  | None => Raise (IndexError "tuple index out of range")
  end.

(** [random.choice(seq)] with the draw [r]. *)
Definition random_choice {A} (r : nat) (seq : list A) : result A :=
  match seq !! (r mod length seq)%nat with
  | Some x => Ok x
  | None => Raise (IndexError "Cannot choose from an empty sequence")
  end.

(** ** Names

    The names [datagenerator.py] binds at module level: its imports, the
    class and the three test functions.  A method that reads a bare name
    which is none of its locals looks it up here (and then among the
    builtins, which have none of the names read below). *)
Definition module_globals : list string :=
  ["os"; "np"; "glob2"; "json"; "random"; "image_preprocessing"; "progressbar";
   "PyntCloud"; "DataGenerator"; "test_generator"; "test_dataset"; "test_parameters"].

(** Reading the bare name [name]: [NameError] unless the module binds it.
    What the module binds are modules, a class and functions; their values
    are not modelled. *)
Definition load_global (name : string) : result unit :=
  if bool_decide (name ∈ module_globals) then Ok tt else Raise (NameError name).

(** [raise Exception("Unknown input_type: " + input_type)], as the three
    methods below write it: the operand [input_type] is a bare name, read
    before the exception is built.  (Were it bound, to a module or a
    function, the concatenation with a [str] would raise [TypeError].) *)
Definition raise_unknown_input_type : exn :=
  match load_global "input_type" with
  | Raise e => e
  | Ok _ => TypeError "must be str"
  end.

(** ** The methods of a constructed instance *)

Section Methods.
Variable w : World.
Variable self : DataGenerator.

Definition _load_image (image_path : string) : M ndarray := fun m =>
  match image_cache m !! image_path with
  | Some image => (Ok image, m)
  | None =>
      let m := emit (LoadImg image_path) m in
      match load_img w image_path (image_target_shape self) with
      | Raise e => (Raise e, m)
      | Ok image =>
          let image := rotate_m90_expand w image in
          let image := np_array_of_image image in
          (Ok image, store_voxelgrid_cache image_path image m)
      end
  end.

Definition _load_voxelgrid (pcd_path : string) : M ndarray := fun m =>
  match voxelgrid_cache m !! pcd_path with
  | Some voxelgrid => (Ok voxelgrid, m)
  | None =>
      let m := emit (FromFile pcd_path) m in
      let r :=
        let* points := from_file w pcd_path in
        let* n_x := tuple_get (voxelgrid_target_shape self) 0 in
        let* n_y := tuple_get (voxelgrid_target_shape self) 1 in
        let* n_z := tuple_get (voxelgrid_target_shape self) 2 in
        voxelgrid_density w points n_x n_y n_z in
      match r with
      | Raise e => (Raise e, m)
      | Ok voxelgrid => (Ok voxelgrid, store_voxelgrid_cache pcd_path voxelgrid m)
      end
  end.

(** The [assert] of [_load_pointcloud] compares the shape with
    [(pointcloud_target_size, 4)], where [pointcloud_target_size] is a
    bare name (not [self.pointcloud_target_size]): it is read first.
    (Were it bound, to a module or a function, the comparison would be
    false.) *)
Definition _load_pointcloud (pcd_path : string) : M ndarray := fun m =>
  match pointcloud_cache m !! pcd_path with
  | Some pointcloud => (Ok pointcloud, m)
  | None =>
      let m := emit (FromFile pcd_path) m in
      match from_file w pcd_path with
      | Raise e => (Raise e, m)
      | Ok points =>
          let pointcloud := values points in
          let pointcloud := slice_to pointcloud (pointcloud_target_size self) in
          let pointcloud := np_array_of_rows (length (columns points)) pointcloud in
          let asserted :=
            let* _ := load_global "pointcloud_target_size" in
            assert_ false (pcd_path ++ " " ++ str_tuple (shape pointcloud)) in
          match asserted with
          | Raise e => (Raise e, m)
          | Ok _ => (Ok pointcloud, store_pointcloud_cache pcd_path pointcloud m)
          end
      end
  end.

Definition get_input_shape : result (list Z) :=
  if String.eqb (input_type self) "image" then Ok [90; 160; 3]
  else if String.eqb (input_type self) "voxelgrid" then Ok [32; 32; 32]
  else if String.eqb (input_type self) "pointcloud" then Ok [32000; 4]
  else Raise raise_unknown_input_type.

Definition get_output_size : nat := length (output_targets self).

(** *** [generate] *)

Inductive outcome : Type :=
  | Yield (x_inputs : list ndarray) (y_outputs : list (list json))
  | Raised (e : exn)
  | Starved.   (* the tape ran out before the batch was complete *)

(** The inner [while] loop, one batch. *)
Fixpoint generate_loop (size : Z) (qrcodes_to_use : list string) (tape : list nat)
    (x_inputs : list ndarray) (y_outputs : list (list json)) (m : Mem) {struct tape}
    : outcome * Mem * list nat :=
  if Z.of_nat (length x_inputs) <? size then
    match tape with
    | [] => (Starved, m, [])
    | r :: tape1 =>
        match random_choice r qrcodes_to_use with
        | Raise e => (Raised e, m, tape1)
        | Ok qrcode =>
            match qrcodes_dictionary self !! qrcode with
            | None => generate_loop size qrcodes_to_use tape1 x_inputs y_outputs m
            | Some (targets, jpg_paths, pcd_paths) =>
                if String.eqb (input_type self) "image" then
                  if (length jpg_paths =? 0)%nat then
                    generate_loop size qrcodes_to_use tape1 x_inputs y_outputs m
                  else
                    match tape1 with
                    | [] => (Starved, m, [])
                    | r' :: tape2 =>
                        match random_choice r' jpg_paths with
                        | Raise e => (Raised e, m, tape2)
                        | Ok jpg_path =>
                            match _load_image jpg_path m with
                            | (Raise e, m') => (Raised e, m', tape2)
                            | (Ok image, m') =>
                                generate_loop size qrcodes_to_use tape2
                                  (x_inputs ++ [image]) (y_outputs ++ [targets]) m'
                            end
                        end
                    end
                else if String.eqb (input_type self) "voxelgrid" then
                  if (length pcd_paths =? 0)%nat then
                    generate_loop size qrcodes_to_use tape1 x_inputs y_outputs m
                  else
                    match tape1 with
                    | [] => (Starved, m, [])
                    | r' :: tape2 =>
                        match random_choice r' pcd_paths with
                        | Raise e => (Raised e, m, tape2)
                        | Ok pcd_path =>
                            match _load_voxelgrid pcd_path m with
                            | (Raise e, m') =>
                                generate_loop size qrcodes_to_use tape2 x_inputs y_outputs m'
                            | (Ok voxelgrid, m') =>
                                generate_loop size qrcodes_to_use tape2
                                  (x_inputs ++ [voxelgrid]) (y_outputs ++ [targets]) m'
                            end
                        end
                    end
                else if String.eqb (input_type self) "pointcloud" then
                  if (length pcd_paths =? 0)%nat then
                    generate_loop size qrcodes_to_use tape1 x_inputs y_outputs m
                  else
                    match tape1 with
                    | [] => (Starved, m, [])
                    | r' :: tape2 =>
                        match random_choice r' pcd_paths with
                        | Raise e => (Raised e, m, tape2)
                        | Ok pcd_path =>
                            match _load_pointcloud pcd_path m with
                            | (Raise e, m') =>
                                generate_loop size qrcodes_to_use tape2 x_inputs y_outputs m'
                            | (Ok pointcloud, m') =>
                                generate_loop size qrcodes_to_use tape2
                                  (x_inputs ++ [pointcloud]) (y_outputs ++ [targets]) m'
                            end
                        end
                    end
                else (Raised raise_unknown_input_type, m, tape1)
            end
        end
    end
  else (Yield x_inputs y_outputs, m, tape).

Definition default_qrcodes (qrcodes_to_use : option (list string)) : list string :=
  match qrcodes_to_use with
  | None => qrcodes self
  | Some l => l
  end.

(** One [next()] on the generator [generate(size, qrcodes_to_use)]: the
    body of the outer [while True] up to its [yield].  What is yielded
    is [np.array] of each of the two lists.  The lists are returned
    here: [np.array] stacks the rows along a new first axis, whose
    dimension is the length of the list; the element type numpy converts
    the values of [y_outputs] to is the library's and is not modelled. *)
Definition generate (size : Z) (qrcodes_to_use : option (list string)) (tape : list nat)
    (m : Mem) : outcome * Mem * list nat :=
  generate_loop size (default_qrcodes qrcodes_to_use) tape [] [] m.

End Methods.

(** *** [generate_dataset] *)

Record Rows : Type := {
  x_qrcodes : list string;
  x_inputs : list ndarray;
  y_outputs : list (list json);
}.

Definition no_rows : Rows := {| x_qrcodes := []; x_inputs := []; y_outputs := [] |}.

Definition append_row (qrcode : string) (x_input : ndarray) (targets : list json)
    (acc : Rows) : Rows :=
  {| x_qrcodes := x_qrcodes acc ++ [qrcode];
     x_inputs := x_inputs acc ++ [x_input];
     y_outputs := y_outputs acc ++ [targets] |}.

Section Materializer.
Variable w : World.
Variable self : DataGenerator.

(** [for jpg_path in jpg_paths]: no [try] around the loader. *)
Fixpoint dataset_images (qrcode : string) (targets : list json) (jpg_paths : list string)
    (acc : Rows) (m : Mem) : result Rows * Mem :=
  match jpg_paths with
  | [] => (Ok acc, m)
  | jpg_path :: rest =>
      match _load_image w self jpg_path m with
      | (Raise e, m') => (Raise e, m')
      | (Ok image, m') =>
          dataset_images qrcode targets rest (append_row qrcode image targets acc) m'
      end
  end.

(** [for pcd_path in pcd_paths], voxel grids.  The handler prints and
    falls through to the appends, which read the local [voxelgrid]: it
    holds the array of the last load that succeeded, in this or an
    earlier subject's loop, and is unbound ([None]) before the first. *)
Fixpoint dataset_voxelgrids (qrcode : string) (targets : list json) (pcd_paths : list string)
    (voxelgrid : option ndarray) (acc : Rows) (m : Mem)
    : result (option ndarray * Rows) * Mem :=
  match pcd_paths with
  | [] => (Ok (voxelgrid, acc), m)
  | pcd_path :: rest =>
      let '(voxelgrid, m) :=
        match _load_voxelgrid w self pcd_path m with
        | (Ok v, m') => (Some v, m')
        | (Raise e, m') => (voxelgrid, emit (PrintError pcd_path) (emit (PrintExn e) m'))
        end in
      match voxelgrid with
      | None => (Raise (UnboundLocalError "voxelgrid"), m)
      | Some v =>
          dataset_voxelgrids qrcode targets rest (Some v)
            (append_row qrcode v targets acc) m
      end
  end.

(** [for pcd_path in pcd_paths], raw point clouds: the handler ends in
    [continue]. *)
Fixpoint dataset_pointclouds (qrcode : string) (targets : list json) (pcd_paths : list string)
    (acc : Rows) (m : Mem) : result Rows * Mem :=
  match pcd_paths with
  | [] => (Ok acc, m)
  | pcd_path :: rest =>
      match _load_pointcloud w self pcd_path m with
      | (Raise e, m') =>
          dataset_pointclouds qrcode targets rest acc
            (emit (PrintError pcd_path) (emit (PrintExn e) m'))
      | (Ok pointcloud, m') =>
          dataset_pointclouds qrcode targets rest
            (append_row qrcode pointcloud targets acc) m'
      end
  end.

(** [for index, qrcode in enumerate(qrcodes_to_use)]. *)
Fixpoint dataset_loop (qrcodes_to_use : list string) (voxelgrid : option ndarray)
    (acc : Rows) (m : Mem) : result Rows * Mem :=
  match qrcodes_to_use with
  | [] => (Ok acc, m)
  | qrcode :: rest =>
      let m := emit (PrintProcessing qrcode) m in
      match qrcodes_dictionary self !! qrcode with
      | None => dataset_loop rest voxelgrid acc (emit (PrintNoData qrcode) m)
      | Some (targets, jpg_paths, pcd_paths) =>
          let m := emit (PrintTargets targets) m in
          if String.eqb (input_type self) "image" then
            match dataset_images qrcode targets jpg_paths acc m with
            | (Raise e, m') => (Raise e, m')
            | (Ok acc', m') => dataset_loop rest voxelgrid acc' m'
            end
          else if String.eqb (input_type self) "voxelgrid" then
            match dataset_voxelgrids qrcode targets pcd_paths voxelgrid acc m with
            | (Raise e, m') => (Raise e, m')
            | (Ok (voxelgrid', acc'), m') => dataset_loop rest voxelgrid' acc' m'
            end
          else if String.eqb (input_type self) "pointcloud" then
            match dataset_pointclouds qrcode targets pcd_paths acc m with
            | (Raise e, m') => (Raise e, m')
            | (Ok acc', m') => dataset_loop rest voxelgrid acc' m'
            end
          else (Raise raise_unknown_input_type, m)
      end
  end.

(** The method returns [np.array] of each of the three lists.  The
    lists are returned here: the first dimension of each array is the
    length of its list; the element type numpy converts the values of
    [y_outputs] to is the library's and is not modelled. *)
Definition generate_dataset (qrcodes_to_use : option (list string)) : M Rows := fun m =>
  dataset_loop (default_qrcodes self qrcodes_to_use) None no_rows m.

(** *** The life of an instance: any sequence of calls on it *)

Inductive call : Type :=
  | Call_load_image (path : string)
  | Call_load_voxelgrid (path : string)
  | Call_load_pointcloud (path : string)
  | Call_generate (size : Z) (qrcodes_to_use : option (list string)) (tape : list nat)
  | Call_generate_dataset (qrcodes_to_use : option (list string)).

Definition after (m : Mem) (c : call) : Mem :=
  match c with
  | Call_load_image path => snd (_load_image w self path m)
  | Call_load_voxelgrid path => snd (_load_voxelgrid w self path m)
  | Call_load_pointcloud path => snd (_load_pointcloud w self path m)
  | Call_generate size qrcodes_to_use tape =>
      snd (fst (generate w self size qrcodes_to_use tape m))
  | Call_generate_dataset qrcodes_to_use => snd (generate_dataset qrcodes_to_use m)
  end.

Definition lifetime (calls : list call) : Mem := fold_left after calls fresh.

End Materializer.


(** * Notions the properties are stated with *)

(** [a] occurs in [b]. *)
Definition substring_of (a b : string) : Prop :=
  ∃ pre post : string, b = pre +:+ a +:+ post.

(** The record at a path is a manual measurement. *)
Definition manual (w : World) (p : string) : Prop :=
  type_value (json_load_measure w p) = "manual".

#[global] Instance manual_dec (w : World) (p : string) : Decision (manual w p).
Proof. unfold manual. apply _. Defined.

(** The subject of the measurement record at a path. *)
Definition subject (w : World) (personal : list string) (p : string) : result string :=
  _extract_qrcode w personal (json_load_measure w p).

(** The entry written for the manual record at a path, of subject [q]. *)
Definition entry_of (w : World) (ots jpg pcd : list string) (p q : string) : result entry :=
  let* targets := _extract_targets ots (json_load_measure w p) in
  Ok (targets,
      filter (λ jpg_path, str_in q jpg_path && str_in "measurements" jpg_path) jpg,
      filter (λ pcd_path, str_in q pcd_path && str_in "measurements" pcd_path) pcd).

(** The shape of what [_load_image] decodes: (height, width) of the target
    change places under the rotation. *)
Definition image_shape (self : DataGenerator) : list Z :=
  match image_target_shape self with
  | [height; width] => [width; height; 3]
  | _ => []
  end.

(** The shape of what [_load_voxelgrid] decodes. *)
Definition voxelgrid_shape (self : DataGenerator) : list Z :=
  take 3 (voxelgrid_target_shape self).

(** What the caches hold during the life of an instance: the image cache
    and the point-cloud cache nothing, the voxel-grid cache arrays decoded
    by [_load_image] or [_load_voxelgrid]. *)
Definition caches_ok (self : DataGenerator) (m : Mem) : Prop :=
  image_cache m = ∅
  ∧ pointcloud_cache m = ∅
  ∧ map_Forall (λ _ a, shape a = image_shape self ∨ shape a = voxelgrid_shape self)
               (voxelgrid_cache m).

(** The shape of a row of a batch, by modality. *)
Definition row_ok (self : DataGenerator) (a : ndarray) : Prop :=
  if String.eqb (input_type self) "image" then shape a = image_shape self
  else if String.eqb (input_type self) "voxelgrid" then
    shape a = image_shape self ∨ shape a = voxelgrid_shape self
  else False.

(** The target shape of the selected modality is the default one. *)
Definition default_target (self : DataGenerator) : Prop :=
  if String.eqb (input_type self) "image" then image_target_shape self = [160; 90]
  else if String.eqb (input_type self) "voxelgrid" then
    voxelgrid_target_shape self = [32; 32; 32]
  else pointcloud_target_size self = 32000.

Definition yields (o : outcome) : bool :=
  match o with Yield _ _ => true | _ => false end.


(** The tape that draws the subject at index [i] and its file at index [j],
    [k] times over. *)
Fixpoint draws (i j : nat) (k : nat) : list nat :=
  match k with
  | O => []
  | S k' => i :: j :: draws i j k'
  end.

(** * A dataset on disk

    One subject, ABC123: a manual measurement record of person P1, the
    personal record of P1, one picture and two scans, the second of which
    cannot be parsed. *)

Definition jpg1 : string := "data/storage/person/ABC123/measurements/1/rgb/ABC123_1.jpg".
Definition pcd1 : string := "data/storage/person/ABC123/measurements/1/pc/ABC123_1.pcd".
Definition pcd2 : string := "data/storage/person/ABC123/measurements/1/pc/ABC123_2.pcd".
Definition personal1 : string := "data/person/P1.json".
Definition measure1 : string := "data/person/P1/measures/M1.json".

Definition cloud1 : PointsFrame :=
  {| columns := ["x"; "y"; "z"; "c"];
     rows := [[1; 2; 3; 4]; [5; 6; 7; 8]; [9; 10; 11; 12]] |}.

Definition disk : World :=
  {| os_path_exists p := String.eqb p "data";
     glob2_glob pattern :=
       if String.eqb pattern "data/storage/person/**/*.jpg" then [jpg1]
       else if String.eqb pattern "data/storage/person/**/*.pcd" then [pcd1; pcd2]
       else if String.eqb pattern "data/**/*.json" then [personal1; measure1]
       else [];
     json_load_measure _ :=
       {| type_value := "manual"; personId_value := "P1";
          other_fields := [("height", JDict [("value", JInt 150)]);
                           ("weight", JDict [("value", JInt 45)])] |};
     json_load_personal _ := {| qrcode_value := "ABC123" |};
     picture p := if String.eqb p jpg1 then Some (λ width height, [width; height]) else None;
     transpose_270 _ _ raster := reverse raster;
     pcd p := if String.eqb p pcd1 then Some cloud1 else None;
     density points n_x n_y n_z := Some [n_x; n_y; n_z] |}.

(** [DataGenerator("data", input_type, ["height", "weight"], ...)]. *)
Definition on_disk (input_type : string) (image_target_shape voxelgrid_target_shape : list Z)
    (pointcloud_target_size : Z) : result DataGenerator :=
  __init__ disk "data" input_type ["height"; "weight"]
           image_target_shape voxelgrid_target_shape pointcloud_target_size.

(** The same disk with a second manual measurement record of P1. *)
Definition measure2 : string := "data/person/P1/measures/M2.json".

Definition disk2 : World :=
  {| os_path_exists := os_path_exists disk;
     glob2_glob pattern :=
       if String.eqb pattern "data/**/*.json" then [personal1; measure1; measure2]
       else glob2_glob disk pattern;
     json_load_measure := json_load_measure disk;
     json_load_personal := json_load_personal disk;
     picture := picture disk;
     transpose_270 := transpose_270 disk;
     pcd := pcd disk;
     density := density disk |}.

(** The disk without the scan that cannot be parsed. *)
Definition clean_disk : World :=
  {| os_path_exists := os_path_exists disk;
     glob2_glob pattern :=
       if String.eqb pattern "data/storage/person/**/*.pcd" then [pcd1]
       else glob2_glob disk pattern;
     json_load_measure := json_load_measure disk;
     json_load_personal := json_load_personal disk;
     picture := picture disk;
     transpose_270 := transpose_270 disk;
     pcd := pcd disk;
     density := density disk |}.

(** A dataset root with no file under it. *)
Definition bare_disk : World :=
  {| os_path_exists := os_path_exists disk;
     glob2_glob _ := [];
     json_load_measure := json_load_measure disk;
     json_load_personal := json_load_personal disk;
     picture := picture disk;
     transpose_270 := transpose_270 disk;
     pcd := pcd disk;
     density := density disk |}.

(** The disk with the two scans listed the other way round: the one that
    cannot be parsed comes first. *)
Definition reversed_disk : World :=
  {| os_path_exists := os_path_exists disk;
     glob2_glob pattern :=
       if String.eqb pattern "data/storage/person/**/*.pcd" then [pcd2; pcd1]
       else glob2_glob disk pattern;
     json_load_measure := json_load_measure disk;
     json_load_personal := json_load_personal disk;
     picture := picture disk;
     transpose_270 := transpose_270 disk;
     pcd := pcd disk;
     density := density disk |}.

(** * Further notions and datasets *)

(** The files of the selected modality in a dictionary entry: the pictures
    for images, the scans otherwise. *)
Definition files_of (self : DataGenerator) (e : entry) : list string :=
  if String.eqb (input_type self) "image" then e.1.2 else e.2.

(** The disk whose only measurement record is not a manual one. *)
Definition scanned_disk : World :=
  {| os_path_exists := os_path_exists disk;
     glob2_glob := glob2_glob disk;
     json_load_measure _ :=
       {| type_value := "scan"; personId_value := "P1";
          other_fields := [("height", JDict [("value", JInt 150)]);
                           ("weight", JDict [("value", JInt 45)])] |};
     json_load_personal := json_load_personal disk;
     picture := picture disk;
     transpose_270 := transpose_270 disk;
     pcd := pcd disk;
     density := density disk |}.

(** The selector is one of the three modalities. *)
Definition known_selector (self : DataGenerator) : Prop :=
  input_type self = "image" ∨ input_type self = "voxelgrid"
  ∨ input_type self = "pointcloud".

(** What [_load_image] computes from the file at a path, past an empty
    entry of the image cache: the picture resized to the target, rotated,
    as an array. *)
Definition decode_image (w : World) (self : DataGenerator) (path : string)
    : result ndarray :=
  let* image := load_img w path (image_target_shape self) in
  Ok (np_array_of_image (rotate_m90_expand w image)).

(** What [_load_voxelgrid] computes from the file at a path, past an empty
    entry of the voxel-grid cache: the density of the voxel grid of the
    target shape. *)
Definition decode_voxelgrid (w : World) (self : DataGenerator) (path : string)
    : result ndarray :=
  let* points := from_file w path in
  let* n_x := tuple_get (voxelgrid_target_shape self) 0 in
  let* n_y := tuple_get (voxelgrid_target_shape self) 1 in
  let* n_z := tuple_get (voxelgrid_target_shape self) 2 in
  voxelgrid_density w points n_x n_y n_z.

(** An input of a batch of images or voxel grids: the array decoded from
    a picture, or from a scan, in the dictionary entry of a subject of the
    subset. *)
Definition from_entry_file (w : World) (self : DataGenerator) (subset : list string)
    (x : ndarray) : Prop :=
  ∃ q targets jpg_paths pcd_paths,
    q ∈ subset
    ∧ qrcodes_dictionary self !! q = Some (targets, jpg_paths, pcd_paths)
    ∧ ((input_type self = "image"
        ∧ ∃ path, path ∈ jpg_paths ∧ decode_image w self path = Ok x)
       ∨ (input_type self = "voxelgrid"
          ∧ ∃ path, path ∈ pcd_paths ∧ decode_voxelgrid w self path = Ok x)).

(** A subject the batch loop can only pass over: it has no dictionary
    entry, or its entry has no file of the selected modality. *)
Definition no_files (self : DataGenerator) (q : string) : Prop :=
  match qrcodes_dictionary self !! q with
  | None => True
  | Some e => known_selector self ∧ files_of self e = []
  end.

(** How the batch loop can stop, with accumulators [xs] and [ys]: a batch
    of [size] rows or more is yielded; or an exception escapes, which is
    the [IndexError] of a draw from an empty subset, an exception [E] of a
    failed image load, or the [NameError] of an unknown selector once a
    subject with an entry was drawn; or the tape ran out. *)
Definition stopped (self : DataGenerator) (size : Z) (subset : list string)
    (E : exn → Prop) (o : outcome) (xs : list ndarray) (ys : list (list json)) : Prop :=
  match o with
  | Yield a b => a = xs ∧ b = ys ∧ size ≤ Z.of_nat (length xs)
  | Raised e =>
      (subset = [] ∧ e = IndexError "Cannot choose from an empty sequence")
      ∨ (input_type self = "image" ∧ E e)
      ∨ (¬ known_selector self
         ∧ (∃ q, q ∈ subset ∧ is_Some (qrcodes_dictionary self !! q))
         ∧ e = NameError "input_type")
  | Starved => True
  end.

(** The subject ids [generate_dataset] appends for a subject: one per
    file of the selected modality, none for a subject without dictionary
    entry. *)
Definition subject_labels (self : DataGenerator) (q : string) : list string :=
  match qrcodes_dictionary self !! q with
  | Some e => replicate (length (files_of self e)) q
  | None => []
  end.

(** A call of one of the two public methods that load files. *)
Definition public (c : call) : Prop :=
  match c with
  | Call_generate _ _ _ | Call_generate_dataset _ => True
  | _ => False
  end.

(** The files [generate_dataset] loads for a subject, in order. *)
Definition subject_files (self : DataGenerator) (q : string) : list string :=
  match qrcodes_dictionary self !! q with
  | Some e => files_of self e
  | None => []
  end.
(** * Verification *)

(** ** Strings *)

Lemma append_String (c : ascii) (a b : string) : String c a +:+ b = String c (a +:+ b).
Proof. reflexivity. Qed.

Lemma append_empty (b : string) : "" +:+ b = b.
Proof. reflexivity. Qed.

Lemma prefix_true_iff (a b : string) :
  String.prefix a b = true ↔ ∃ post : string, b = a +:+ post.
Proof.
  revert b. induction a as [|c a IH]; intros [|c' b]; simpl.
  - split; [intros _; by exists "" | done].
  - split; [intros _; by exists (String c' b) | done].
  - split; [done | intros [post H]; discriminate H].
  - setoid_rewrite append_String.
    destruct (Ascii.ascii_dec c c') as [Heq|Hne].
    + subst c'. rewrite IH. split; intros [post H]; exists post; congruence.
    + split; [done | intros [post H]; congruence].
Qed.

Lemma str_in_empty (a : string) : str_in a "" = String.prefix a "".
Proof. destruct a; reflexivity. Qed.

Lemma str_in_String (a : string) (c : ascii) (b : string) :
  str_in a (String c b) = String.prefix a (String c b) || str_in a b.
Proof. reflexivity. Qed.

Lemma str_in_true_iff (a b : string) : str_in a b = true ↔ substring_of a b.
Proof.
  unfold substring_of. induction b as [|c b IH].
  - rewrite str_in_empty, prefix_true_iff. split.
    + intros [post H]. by exists "", post.
    + intros [[|c pre] [post H]]; [by exists post | discriminate H].
  - rewrite str_in_String, orb_true_iff, prefix_true_iff, IH. split.
    + intros [[post H]|(pre & post & H)].
      * by exists "", post.
      * exists (String c pre), post. by rewrite append_String, H.
    + intros [[|c' pre] [post H]].
      * left. by exists post.
      * right. exists pre, post. rewrite append_String in H. congruence.
Qed.

Lemma str_in_Is_true (a b : string) : Is_true (str_in a b) ↔ substring_of a b.
Proof. rewrite Is_true_true. apply str_in_true_iff. Qed.

Lemma filter_none {A} (P : A → Prop) `{∀ x, Decision (P x)} (l : list A) :
  (∀ x, x ∈ l → ¬ P x) → filter P l = [].
Proof.
  induction l as [|x l IH]; intros Hl; [done|].
  rewrite filter_cons_False by (apply Hl; left).
  apply IH. intros y Hy. apply Hl. by right.
Qed.

(** ** The QR-code index *)

Section Index.
Variable w : World.

Lemma extract_qrcode_filter personal m :
  _extract_qrcode w personal m =
  match filter (λ p, str_in (personId_value m) p) personal with
  | [p] => Ok (qrcode_value (json_load_personal w p))
  | _ => Raise (AssertionError "")
  end.
Proof.
  unfold _extract_qrcode.
  destruct (filter _ personal) as [|p [|p' l]]; reflexivity.
Qed.

(** C6.  Subject extraction reads [personId.value] and keeps the
    personal-record paths in which it occurs.  With exactly one such path
    (one position of the list) it returns that record's [qrcode.value];
    with none, or with two or more, it fails with an assertion error. *)
Theorem extract_qrcode_exactly_one (personal : list string) (m : MeasurementRecord) :
  (∀ l1 p l2,
      personal = l1 ++ p :: l2 →
      substring_of (personId_value m) p →
      (∀ x, x ∈ l1 ++ l2 → ¬ substring_of (personId_value m) x) →
      _extract_qrcode w personal m = Ok (qrcode_value (json_load_personal w p)))
  ∧ ((∀ x, x ∈ personal → ¬ substring_of (personId_value m) x) →
      _extract_qrcode w personal m = Raise (AssertionError ""))
  ∧ (∀ l1 p l2 p' l3,
      personal = l1 ++ p :: l2 ++ p' :: l3 →
      substring_of (personId_value m) p →
      substring_of (personId_value m) p' →
      _extract_qrcode w personal m = Raise (AssertionError "")).
Proof.
  split; [|split].
  - intros l1 p l2 -> Hp Hno. rewrite extract_qrcode_filter.
    rewrite filter_app, filter_cons_True by by apply str_in_Is_true.
    rewrite !filter_none; [done | |].
    + intros x Hx. rewrite str_in_Is_true. apply Hno. set_solver.
    + intros x Hx. rewrite str_in_Is_true. apply Hno. set_solver.
  - intros Hno. rewrite extract_qrcode_filter, filter_none; [done|].
    intros x Hx. rewrite str_in_Is_true. by apply Hno.
  - intros l1 p l2 p' l3 -> Hp Hp'. rewrite extract_qrcode_filter.
    rewrite filter_app, filter_cons_True by by apply str_in_Is_true.
    rewrite filter_app, filter_cons_True by by apply str_in_Is_true.
    destruct (filter _ l1) as [|y [|y' l1']]; simpl; try done;
      by destruct (filter _ l2).
Qed.

End Index.

(** On the disk: one, no and two personal-record paths that hold P1. *)
Lemma extract_qrcode_exactly_one_witness :
  _extract_qrcode disk [personal1] (json_load_measure disk measure1) = Ok "ABC123"
  ∧ _extract_qrcode disk [] (json_load_measure disk measure1) = Raise (AssertionError "")
  ∧ _extract_qrcode disk [personal1; jpg1; personal1] (json_load_measure disk measure1)
    = Raise (AssertionError "").
Proof.
  destruct (extract_qrcode_exactly_one disk [personal1] (json_load_measure disk measure1))
    as (Hone & _ & _).
  destruct (extract_qrcode_exactly_one disk [] (json_load_measure disk measure1))
    as (_ & Hnone & _).
  destruct (extract_qrcode_exactly_one disk [personal1; jpg1; personal1]
              (json_load_measure disk measure1)) as (_ & _ & Htwo).
  assert (substring_of "P1" personal1) as Hsub by by apply str_in_true_iff.
  split; [|split].
  - apply (Hone [] personal1 []); [done | done |]. by intros x ?%elem_of_nil.
  - apply Hnone. by intros x ?%elem_of_nil.
  - by apply (Htwo [] personal1 [jpg1] personal1 []).
Defined.

(** ** Inversion of [let*] and [assert] *)

Lemma bind_Ok {A B} (r : result A) (k : A → result B) (b : B) :
  bind r k = Ok b ↔ ∃ a, r = Ok a ∧ k a = Ok b.
Proof.
  destruct r as [a|e]; simpl; split.
  - intros H. by exists a.
  - by intros (a' & [= ->] & H).
  - done.
  - by intros (a' & [=] & _).
Qed.

Lemma assert_Ok (b : bool) (msg : string) (u : unit) : assert_ b msg = Ok u ↔ b = true.
Proof. destruct b, u; simpl; split; done. Qed.

Ltac inv_bind H :=
  repeat match type of H with
         | bind _ _ = Ok _ =>
             let a := fresh "a" in
             let Ha := fresh "Ha" in
             apply bind_Ok in H as (a & Ha & H);
             try (apply assert_Ok in Ha)
         end.

Lemma mapM_Ok_length {A B} (f : A → result B) (l : list A) (l' : list B) :
  mapM f l = Ok l' → length l' = length l.
Proof.
  revert l'. induction l as [|x l IH]; intros l' H; simpl in H.
  - by injection H as <-.
  - inv_bind H. injection H as <-. simpl. f_equal. by apply IH.
Qed.

Lemma mapM_Ok_elem_of {A B} (f : A → result B) (l : list A) (l' : list B) :
  mapM f l = Ok l' → ∀ y, y ∈ l' ↔ ∃ x, x ∈ l ∧ f x = Ok y.
Proof.
  revert l'. induction l as [|x l IH]; intros l' H y; simpl in H.
  - injection H as <-. split.
    + by intros ?%elem_of_nil.
    + by intros (x & ?%elem_of_nil & _).
  - inv_bind H. injection H as <-. rewrite elem_of_cons, (IH _ Ha0). split.
    + intros [->|(x' & Hx' & Hy)].
      * exists x. split; [left | done].
      * exists x'. split; [by right | done].
    + intros (x' & [->|Hx']%elem_of_cons & Hy); [left; congruence | right; eauto].
Qed.

(** ** [sorted(list(set(...)))] *)

Lemma sorted_set_elem_of (l : list string) (q : string) : q ∈ sorted_set l ↔ q ∈ l.
Proof.
  unfold sorted_set. rewrite merge_sort_Permutation, elem_of_elements.
  apply elem_of_list_to_set.
Qed.

Lemma sorted_set_NoDup (l : list string) : NoDup (sorted_set l).
Proof.
  unfold sorted_set. rewrite merge_sort_Permutation. apply NoDup_elements.
Qed.

Lemma sorted_set_sorted (l : list string) : StronglySorted String.le (sorted_set l).
Proof. unfold sorted_set. apply StronglySorted_merge_sort; apply _. Qed.

Lemma sorted_set_unique (l l' : list string) :
  StronglySorted String.le l' → NoDup l' → (∀ q, q ∈ l' ↔ q ∈ l) → l' = sorted_set l.
Proof.
  intros Hs Hn He. eapply (StronglySorted_unique String.le); [done | apply sorted_set_sorted |].
  apply NoDup_Permutation; [done | apply sorted_set_NoDup |].
  intros q. by rewrite He, sorted_set_elem_of.
Qed.

Lemma sorted_set_nil (l : list string) : sorted_set l = [] ↔ l = [].
Proof.
  split; [|by intros ->].
  intros H. destruct l as [|x l]; [done|].
  assert (x ∈ sorted_set (x :: l)) as Hx by (apply sorted_set_elem_of; left).
  rewrite H in Hx. by apply elem_of_nil in Hx.
Qed.

Section Subjects.
Variable w : World.
Variables (root ity : string) (ots : list string) (its vts : list Z) (pts : Z).

(** What a successful construction has established. *)
Lemma init_Ok (g : DataGenerator) :
  __init__ w root ity ots its vts pts = Ok g →
  let paths := _get_paths w root in
  os_path_exists w root = true
  ∧ length its = 2%nat
  ∧ length vts = 3%nat
  ∧ _find_qrcodes w (p_personal paths) (p_measures paths) = Ok (qrcodes g)
  ∧ qrcodes g ≠ []
  ∧ _create_qrcodes_dictionary w ots (p_jpg paths) (p_pcd paths)
      (p_personal paths) (p_measures paths) = Ok (qrcodes_dictionary g).
Proof.
  unfold __init__. intros H. inv_bind H. injection H as <-. simpl.
  repeat split; try done.
  - by apply Nat.eqb_eq.
  - by apply Nat.eqb_eq.
  - apply negb_true_iff, bool_decide_eq_false in Ha3. done.
Qed.

(** The configuration and the path lists are stored as given. *)
Lemma init_fields (g : DataGenerator) :
  __init__ w root ity ots its vts pts = Ok g →
  let paths := _get_paths w root in
  dataset_path g = root ∧ input_type g = ity ∧ output_targets g = ots
  ∧ image_target_shape g = its ∧ voxelgrid_target_shape g = vts
  ∧ pointcloud_target_size g = pts
  ∧ jpg_paths g = p_jpg paths ∧ pcd_paths g = p_pcd paths
  ∧ json_paths_personal g = p_personal paths
  ∧ json_paths_measures g = p_measures paths.
Proof.
  unfold __init__. intros H. inv_bind H. injection H as <-. simpl. done.
Qed.
End Subjects.

(** C8.  In a constructed index the subject list is sorted in
    lexicographic order, has no duplicates and holds exactly the subject
    ids extracted from the measurement records; it is the only such list.
    When every extraction succeeds and the set of ids is empty,
    construction fails with the assertion error "No QR-codes found!". *)
Theorem qrcodes_sorted_deduplicated (w : World) (root ity : string) (ots : list string)
    (its vts : list Z) (pts : Z) :
  (∀ g, __init__ w root ity ots its vts pts = Ok g →
     ∃ ids,
       mapM (λ p, _extract_qrcode w (json_paths_personal g) (json_load_measure w p))
            (json_paths_measures g) = Ok ids
       ∧ StronglySorted String.le (qrcodes g)
       ∧ NoDup (qrcodes g)
       ∧ (∀ q, q ∈ qrcodes g ↔ q ∈ ids)
       ∧ (∀ l, StronglySorted String.le l → NoDup l → (∀ q, q ∈ l ↔ q ∈ ids) →
               l = qrcodes g))
  ∧ (∀ ids,
       os_path_exists w root = true →
       length its = 2%nat →
       length vts = 3%nat →
       mapM (λ p, _extract_qrcode w (p_personal (_get_paths w root)) (json_load_measure w p))
            (p_measures (_get_paths w root)) = Ok ids →
       (∀ q, q ∉ ids) →
       __init__ w root ity ots its vts pts = Raise (AssertionError "No QR-codes found!")).
Proof.
  split.
  - intros g Hg.
    destruct (init_Ok _ _ _ _ _ _ _ _ Hg) as (_ & _ & _ & Hq & _ & _).
    destruct (init_fields _ _ _ _ _ _ _ _ Hg) as (_ & _ & _ & _ & _ & _ & _ & _ & -> & ->).
    unfold _find_qrcodes in Hq. inv_bind Hq. injection Hq as Hq.
    exists a. rewrite <- Hq. split; [done|].
    split; [apply sorted_set_sorted|]. split; [apply sorted_set_NoDup|].
    split; [apply sorted_set_elem_of|]. apply sorted_set_unique.
  - intros ids Hroot Hits Hvts Hids Hempty.
    assert (ids = []) as ->.
    { destruct ids as [|q ids]; [done|]. exfalso. apply (Hempty q). left. }
    unfold __init__, _find_qrcodes. rewrite Hroot, Hits, Hvts, Hids.
    cbn [assert_ bind Nat.eqb]. by rewrite (proj2 (sorted_set_nil [])).
Qed.

(** On the disk the subject list is [ABC123]; on the bare root,
    construction fails. *)
Lemma qrcodes_sorted_deduplicated_witness :
  (∃ g, on_disk "image" [160; 90] [32; 32; 32] 32000 = Ok g ∧ qrcodes g = ["ABC123"])
  ∧ __init__ bare_disk "data" "image" ["height"; "weight"] [160; 90] [32; 32; 32] 32000
    = Raise (AssertionError "No QR-codes found!").
Proof.
  split.
  - destruct (on_disk "image" [160; 90] [32; 32; 32] 32000) as [g|e] eqn:Hg;
      [|by vm_compute in Hg].
    destruct (qrcodes_sorted_deduplicated disk "data" "image" ["height"; "weight"]
                [160; 90] [32; 32; 32] 32000) as [H _].
    destruct (H g Hg) as (ids & Hids & _ & _ & _ & Huniq).
    destruct (init_fields _ _ _ _ _ _ _ _ Hg) as (_ & _ & _ & _ & _ & _ & _ & _ & Hp & Hm).
    rewrite Hp, Hm in Hids. vm_compute in Hids. injection Hids as <-.
    exists g. split; [done|]. symmetry. apply Huniq; [|apply NoDup_singleton|done].
    repeat constructor.
  - destruct (qrcodes_sorted_deduplicated bare_disk "data" "image" ["height"; "weight"]
                [160; 90] [32; 32; 32] 32000) as [_ H].
    apply (H []); try done. by intros q ?%elem_of_nil.
Defined.

Example sorted_set_example : sorted_set ["B"; "ABD"; "ABC"; "B"; ""] = [""; "ABC"; "ABD"; "B"].
Proof. by vm_compute. Qed.

(** ** The sample dictionary *)

Section Dictionary.
Variable w : World.
Variables (ots jpg pcd personal : list string).

Local Abbreviation loop := (dictionary_loop w ots jpg pcd personal).
Local Abbreviation manual := (manual w).
Local Abbreviation subject := (subject w personal).
Local Abbreviation entry_of := (entry_of w ots jpg pcd).

Lemma loop_cons_skip p rest d : ¬ manual p → loop (p :: rest) d = loop rest d.
Proof.
  unfold manual. intros Hp. cbn [dictionary_loop].
  by destruct (String.eqb_spec (type_value (json_load_measure w p)) "manual").
Qed.

Lemma loop_cons_manual p rest d :
  manual p →
  loop (p :: rest) d =
  let* q := subject p in
  if bool_decide (q ∈ dom d) then
    Raise (Exception_ ("Multiple manual measurements for QR-code: " +:+ q))
  else
    let* e := entry_of p q in
    loop rest (<[q := e]> d).
Proof.
  unfold manual, subject, entry_of. intros Hp. cbn [dictionary_loop].
  destruct (String.eqb_spec (type_value (json_load_measure w p)) "manual"); [|done].
  cbn [negb]. destruct (_extract_qrcode _ _ _) as [q|?]; [|done]. cbn [bind].
  destruct (bool_decide _); [done|].
  by destruct (_extract_targets _ _).
Qed.

Lemma loop_skips_non_manual paths d : loop paths d = loop (filter manual paths) d.
Proof.
  revert d. induction paths as [|p rest IH]; intros d; [done|].
  destruct (decide (manual p)) as [Hp|Hp].
  - rewrite filter_cons_True, !loop_cons_manual by done.
    destruct (subject p) as [q|?]; [|done]. cbn [bind].
    destruct (bool_decide _); [done|].
    destruct (entry_of p q) as [e|?]; [|done]. apply IH.
  - rewrite filter_cons_False, loop_cons_skip by done. apply IH.
Qed.

Lemma loop_app l1 l2 d : loop (l1 ++ l2) d = let* d1 := loop l1 d in loop l2 d1.
Proof.
  revert d. induction l1 as [|p l1 IH]; intros d; [done|].
  rewrite <- app_comm_cons. destruct (decide (manual p)) as [Hp|Hp].
  - rewrite !loop_cons_manual by done.
    destruct (subject p) as [q|?]; [|done]. cbn [bind].
    destruct (bool_decide _); [done|].
    destruct (entry_of p q) as [e|?]; [|done]. apply IH.
  - rewrite !loop_cons_skip by done. apply IH.
Qed.

Lemma loop_second_manual p rest d q :
  manual p → subject p = Ok q → q ∈ dom d →
  loop (p :: rest) d =
  Raise (Exception_ ("Multiple manual measurements for QR-code: " +:+ q)).
Proof.
  intros Hp Hq Hd. rewrite loop_cons_manual, Hq by done. cbn [bind].
  by rewrite bool_decide_eq_true_2.
Qed.

(** What a loop that ran to its end has built. *)
Lemma loop_Ok paths d d' :
  loop paths d = Ok d' →
  d ⊆ d'
  ∧ ∃ ids,
      mapM subject (filter manual paths) = Ok ids
      ∧ NoDup ids
      ∧ (∀ q, q ∈ ids → q ∉ dom d)
      ∧ dom d' = dom d ∪ list_to_set ids
      ∧ (∀ p q, p ∈ paths → manual p → subject p = Ok q →
                ∃ e, entry_of p q = Ok e ∧ d' !! q = Some e).
Proof.
  revert d. induction paths as [|p rest IH]; intros d H.
  - injection H as <-. split; [done|]. exists []. repeat split.
    + constructor.
    + by intros q ?%elem_of_nil.
    + set_solver.
    + by intros p q ?%elem_of_nil.
  - destruct (decide (manual p)) as [Hp|Hp].
    + rewrite loop_cons_manual in H by done.
      destruct (subject p) as [q|?] eqn:Hq; [|done]. cbn [bind] in H.
      destruct (bool_decide (q ∈ dom d)) eqn:Hin; [done|].
      apply bool_decide_eq_false in Hin.
      destruct (entry_of p q) as [e|?] eqn:He; [|done]. cbn [bind] in H.
      destruct (IH _ H) as (Hsub & ids & Hids & Hnd & Hfresh & Hdom & Hent).
      assert (d !! q = None) as Hnone by by apply not_elem_of_dom.
      split; [etrans; [by apply insert_subseteq | done]|].
      exists (q :: ids). rewrite filter_cons_True by done. cbn [mapM].
      rewrite Hq, Hids. cbn [bind]. split; [done|]. split; [|split; [|split]].
      * constructor; [|done]. intros Hq'. apply (Hfresh _ Hq'). set_solver.
      * intros q' [->|Hq']%elem_of_cons; [done|]. apply Hfresh in Hq'. set_solver.
      * rewrite Hdom. set_solver.
      * intros p' q' [->|Hp']%elem_of_cons Hm Hs.
        -- assert (q' = q) as -> by congruence. exists e. split; [done|].
           eapply lookup_weaken; [|done]. apply lookup_insert_eq.
        -- by apply Hent.
    + rewrite loop_cons_skip in H by done.
      destruct (IH _ H) as (Hsub & ids & Hids & Hnd & Hfresh & Hdom & Hent).
      split; [done|]. exists ids. rewrite filter_cons_False by done.
      repeat split; try done.
      intros p' q' [->|Hp']%elem_of_cons Hm Hs; [done|]. by apply Hent.
Qed.

End Dictionary.

(** C7.  In a constructed index the dictionary is the one built from the
    manual measurement records alone (the others are skipped); the manual
    records have pairwise distinct subjects, which are exactly the keys of
    the dictionary, each key holding the entry of its one manual record.
    A manual record whose subject already has an entry makes the
    construction of the dictionary raise the fatal error. *)
Theorem one_manual_record_per_subject (w : World) (root ity : string) (ots : list string)
    (its vts : list Z) (pts : Z) (g : DataGenerator) :
  __init__ w root ity ots its vts pts = Ok g →
  _create_qrcodes_dictionary w (output_targets g) (jpg_paths g) (pcd_paths g)
      (json_paths_personal g) (filter (manual w) (json_paths_measures g))
    = Ok (qrcodes_dictionary g)
  ∧ (∃ ids,
       mapM (subject w (json_paths_personal g)) (filter (manual w) (json_paths_measures g))
         = Ok ids
       ∧ NoDup ids
       ∧ dom (qrcodes_dictionary g) = list_to_set ids)
  ∧ (∀ p q,
       p ∈ json_paths_measures g → manual w p →
       subject w (json_paths_personal g) p = Ok q →
       ∃ e, entry_of w (output_targets g) (jpg_paths g) (pcd_paths g) p q = Ok e
            ∧ qrcodes_dictionary g !! q = Some e)
  ∧ (∀ before p rest d q,
       _create_qrcodes_dictionary w (output_targets g) (jpg_paths g) (pcd_paths g)
           (json_paths_personal g) before = Ok d →
       manual w p →
       subject w (json_paths_personal g) p = Ok q →
       q ∈ dom d →
       _create_qrcodes_dictionary w (output_targets g) (jpg_paths g) (pcd_paths g)
           (json_paths_personal g) (before ++ p :: rest)
         = Raise (Exception_ ("Multiple manual measurements for QR-code: " +:+ q))).
Proof.
  intros Hg.
  destruct (init_Ok _ _ _ _ _ _ _ _ Hg) as (_ & _ & _ & _ & _ & Hd).
  destruct (init_fields _ _ _ _ _ _ _ _ Hg)
    as (_ & _ & -> & _ & _ & _ & -> & -> & -> & ->).
  unfold _create_qrcodes_dictionary in *.
  destruct (loop_Ok _ _ _ _ _ _ _ _ Hd) as (_ & ids & Hids & Hnd & _ & Hdom & Hent).
  split; [by rewrite <- loop_skips_non_manual|].
  split; [exists ids; repeat split; [done..|set_solver]|].
  split; [done|].
  intros before p rest d q Hb Hp Hq Hin.
  rewrite loop_app, Hb. cbn [bind]. by apply loop_second_manual.
Qed.

(** On the disk: the one entry of the dictionary, that of ABC123. *)
Lemma one_manual_record_per_subject_witness :
  ∃ g, on_disk "image" [160; 90] [32; 32; 32] 32000 = Ok g
       ∧ dom (qrcodes_dictionary g) = {["ABC123"]}
       ∧ qrcodes_dictionary g !! "ABC123"
         = Some ([JInt 150; JInt 45], [jpg1], [pcd1; pcd2]).
Proof.
  destruct (on_disk "image" [160; 90] [32; 32; 32] 32000) as [g|e] eqn:Hg;
    [|by vm_compute in Hg].
  exists g. split; [done|].
  destruct (one_manual_record_per_subject disk "data" "image" ["height"; "weight"]
              [160; 90] [32; 32; 32] 32000 g Hg) as (_ & (ids & Hids & _ & Hdom) & Hent & _).
  destruct (init_fields _ _ _ _ _ _ _ _ Hg)
    as (_ & _ & Hots & _ & _ & _ & Hjpg & Hpcd & Hpers & Hmeas).
  rewrite Hpers, Hmeas in Hids. vm_compute in Hids. injection Hids as <-.
  split; [rewrite Hdom; set_solver|].
  destruct (Hent measure1 "ABC123") as (e & He & Hl).
  - rewrite Hmeas. vm_compute. by left.
  - done.
  - rewrite Hpers. by vm_compute.
  - rewrite Hots, Hjpg, Hpcd in He. vm_compute in He. injection He as <-. exact Hl.
Defined.

(** On the disk with a second manual record of the same person, construction
    stops at that record. *)
Example second_manual_record_is_fatal :
  __init__ disk2 "data" "image" ["height"; "weight"] [160; 90] [32; 32; 32] 32000
  = Raise (Exception_ "Multiple manual measurements for QR-code: ABC123").
Proof. by vm_compute. Qed.

(** ** The loaders *)

Section Loaders.
Variable w : World.
Variable self : DataGenerator.

Lemma load_img_shape path target image :
  load_img w path target = Ok image →
  ∃ height width, target = [height; width]
                  ∧ im_width image = width ∧ im_height image = height.
Proof.
  unfold load_img. intros H.
  destruct target as [|height [|width [|? ?]]]; try done.
  destruct (picture w path); [|done].
  destruct (_ && _); [|done]. injection H as <-. by exists height, width.
Qed.

(** A call of [_load_image]: a hit in the image cache, a failed decode or
    a decode stored in the voxel-grid cache. *)
Lemma load_image_cases path m :
  (∃ a, image_cache m !! path = Some a ∧ _load_image w self path m = (Ok a, m))
  ∨ (image_cache m !! path = None
     ∧ ((∃ e, _load_image w self path m = (Raise e, emit (LoadImg path) m))
        ∨ (∃ a, shape a = image_shape self
                ∧ _load_image w self path m
                  = (Ok a, store_voxelgrid_cache path a (emit (LoadImg path) m))))).
Proof.
  unfold _load_image. destruct (image_cache m !! path) as [a|]; [left; by exists a|].
  right. split; [done|].
  destruct (load_img w path (image_target_shape self)) as [image|e] eqn:Himg.
  - right. eexists. split; [|done].
    apply load_img_shape in Himg as (height & width & Ht & Hw & Hh).
    unfold image_shape. rewrite Ht. simpl. by rewrite Hw, Hh.
  - left. by exists e.
Qed.

Lemma load_voxelgrid_cases path m :
  (∃ a, voxelgrid_cache m !! path = Some a ∧ _load_voxelgrid w self path m = (Ok a, m))
  ∨ (voxelgrid_cache m !! path = None
     ∧ ((∃ e, _load_voxelgrid w self path m = (Raise e, emit (FromFile path) m))
        ∨ (∃ a, shape a = voxelgrid_shape self
                ∧ _load_voxelgrid w self path m
                  = (Ok a, store_voxelgrid_cache path a (emit (FromFile path) m))))).
Proof.
  unfold _load_voxelgrid.
  destruct (voxelgrid_cache m !! path) as [a|]; [left; by exists a|].
  right. split; [done|].
  destruct (from_file w path) as [points|e]; [|left; by exists e]. cbn [bind].
  unfold tuple_get, voxelgrid_shape.
  destruct (voxelgrid_target_shape self) as [|n_x [|n_y [|n_z t]]];
    try (left; by eexists).
  simpl. unfold voxelgrid_density.
  destruct (density w points n_x n_y n_z) as [cells|]; [|left; by eexists].
  right. eexists. split; [|done]. done.
Qed.

(** A call of [_load_pointcloud] past an empty cache entry raises, and
    stores nothing. *)
Lemma load_pointcloud_cases path m :
  (∃ a, pointcloud_cache m !! path = Some a ∧ _load_pointcloud w self path m = (Ok a, m))
  ∨ (pointcloud_cache m !! path = None
     ∧ ∃ e, _load_pointcloud w self path m = (Raise e, emit (FromFile path) m)
            ∧ (e = NameError "pointcloud_target_size" ∨ e = LibraryError "from_file")).
Proof.
  unfold _load_pointcloud.
  destruct (pointcloud_cache m !! path) as [a|]; [left; by exists a|].
  right. split; [done|]. unfold from_file.
  destruct (pcd w path); eexists; (split; [reflexivity|]); eauto.
Qed.

Lemma caches_ok_fresh : caches_ok self fresh.
Proof. repeat split. apply map_Forall_empty. Qed.

Lemma caches_ok_emit ev m : caches_ok self m → caches_ok self (emit ev m).
Proof. done. Qed.

Lemma caches_ok_store path a m :
  shape a = image_shape self ∨ shape a = voxelgrid_shape self →
  caches_ok self m → caches_ok self (store_voxelgrid_cache path a m).
Proof.
  intros Ha (Hi & Hp & Hv). repeat split; [done..|]. simpl.
  by apply map_Forall_insert_2.
Qed.

Lemma load_image_ok path m :
  caches_ok self m →
  caches_ok self (snd (_load_image w self path m))
  ∧ ∀ a, fst (_load_image w self path m) = Ok a → shape a = image_shape self.
Proof.
  intros Hm. destruct (load_image_cases path m)
    as [(a & Ha & _)|(_ & [(e & ->)|(a & Ha & ->)])]; simpl.
  - destruct Hm as (Hi & _). rewrite Hi in Ha. by rewrite lookup_empty in Ha.
  - split; [by apply caches_ok_emit | done].
  - split; [apply caches_ok_store; [by left|by apply caches_ok_emit]|].
    by intros ? [= <-].
Qed.

Lemma load_voxelgrid_ok path m :
  caches_ok self m →
  caches_ok self (snd (_load_voxelgrid w self path m))
  ∧ ∀ a, fst (_load_voxelgrid w self path m) = Ok a →
         shape a = image_shape self ∨ shape a = voxelgrid_shape self.
Proof.
  intros Hm. destruct (load_voxelgrid_cases path m)
    as [(a & Ha & ->)|(_ & [(e & ->)|(a & Ha & ->)])]; simpl.
  - split; [done|]. intros ? [= <-]. destruct Hm as (_ & _ & Hv). by apply (Hv path).
  - split; [by apply caches_ok_emit | done].
  - split; [apply caches_ok_store; [by right|by apply caches_ok_emit]|].
    intros ? [= <-]. by right.
Qed.

Lemma load_pointcloud_ok path m :
  caches_ok self m →
  caches_ok self (snd (_load_pointcloud w self path m))
  ∧ is_ok (fst (_load_pointcloud w self path m)) = false.
Proof.
  intros Hm. destruct (load_pointcloud_cases path m)
    as [(a & Ha & _)|(_ & e & -> & _)]; simpl.
  - destruct Hm as (_ & Hp & _). rewrite Hp in Ha. by rewrite lookup_empty in Ha.
  - split; [by apply caches_ok_emit | done].
Qed.

End Loaders.

(** ** The batch loop *)

Section BatchLoop.
Variable w : World.
Variable self : DataGenerator.
Variable size : Z.
Variable subset : list string.

(** An invariant of the accumulators and the caches. *)
Variable J : list ndarray → list (list json) → Mem → Prop.

Hypothesis step_image :
  input_type self = "image" →
  ∀ xs ys m path t, J xs ys m → Z.of_nat (length xs) < size →
    match _load_image w self path m with
    | (Ok a, m') => J (xs ++ [a]) (ys ++ [t]) m'
    | (Raise _, m') => J xs ys m'
    end.
Hypothesis step_voxelgrid :
  input_type self = "voxelgrid" →
  ∀ xs ys m path t, J xs ys m → Z.of_nat (length xs) < size →
    match _load_voxelgrid w self path m with
    | (Ok a, m') => J (xs ++ [a]) (ys ++ [t]) m'
    | (Raise _, m') => J xs ys m'
    end.
Hypothesis step_pointcloud :
  input_type self = "pointcloud" →
  ∀ xs ys m path t, J xs ys m → Z.of_nat (length xs) < size →
    match _load_pointcloud w self path m with
    | (Ok a, m') => J (xs ++ [a]) (ys ++ [t]) m'
    | (Raise _, m') => J xs ys m'
    end.

(** The invariant holds where the loop stops; a batch is yielded only
    once it has [size] rows. *)
Lemma generate_loop_rule (n : nat) :
  ∀ tape xs ys m,
    (length tape ≤ n)%nat → J xs ys m →
    ∃ xs' ys',
      J xs' ys' (snd (fst (generate_loop w self size subset tape xs ys m)))
      ∧ ∀ a b, fst (fst (generate_loop w self size subset tape xs ys m)) = Yield a b →
               a = xs' ∧ b = ys' ∧ size ≤ Z.of_nat (length xs').
Proof.
  induction n as [|n IH]; intros tape xs ys m Hn HJ.
  - destruct tape; [|simpl in Hn; lia]. simpl.
    destruct (Z.ltb_spec (Z.of_nat (length xs)) size); simpl.
    + exists xs, ys. split; [done|]. intros ?? [=].
    + exists xs, ys. split; [done|]. by intros ?? [= <- <-].
  - destruct tape as [|r tape1]; [apply IH; [simpl; lia|done]|].
    simpl in Hn. simpl.
    destruct (Z.ltb_spec (Z.of_nat (length xs)) size) as [Hlt|Hge]; simpl;
      [|exists xs, ys; split; [done|]; by intros ?? [= <- <-]].
    destruct (random_choice r subset) as [qrcode|e]; simpl;
      [|exists xs, ys; split; [done|]; intros ?? [=]].
    destruct (qrcodes_dictionary self !! qrcode) as [[[targets jpgs] pcds]|];
      [|apply IH; [lia|done]].
    destruct (String.eqb_spec (input_type self) "image") as [Hi|_].
    { destruct (length jpgs =? 0)%nat; [apply IH; [lia|done]|].
      destruct tape1 as [|r' tape2]; simpl;
        [exists xs, ys; split; [done|]; intros ?? [=]|].
      destruct (random_choice r' jpgs) as [path|e]; simpl;
        [|exists xs, ys; split; [done|]; intros ?? [=]].
      specialize (step_image Hi xs ys m path targets HJ Hlt).
      destruct (_load_image w self path m) as [[a|e] m']; simpl.
      - apply IH; [simpl in Hn; lia|done].
      - exists xs, ys. split; [done|]. intros ?? [=]. }
    destruct (String.eqb_spec (input_type self) "voxelgrid") as [Hv|_].
    { destruct (length pcds =? 0)%nat; [apply IH; [lia|done]|].
      destruct tape1 as [|r' tape2]; simpl;
        [exists xs, ys; split; [done|]; intros ?? [=]|].
      destruct (random_choice r' pcds) as [path|e]; simpl;
        [|exists xs, ys; split; [done|]; intros ?? [=]].
      specialize (step_voxelgrid Hv xs ys m path targets HJ Hlt).
      destruct (_load_voxelgrid w self path m) as [[a|e] m']; simpl;
        (apply IH; [simpl in Hn; lia|done]). }
    destruct (String.eqb_spec (input_type self) "pointcloud") as [Hp|_].
    { destruct (length pcds =? 0)%nat; [apply IH; [lia|done]|].
      destruct tape1 as [|r' tape2]; simpl;
        [exists xs, ys; split; [done|]; intros ?? [=]|].
      destruct (random_choice r' pcds) as [path|e]; simpl;
        [|exists xs, ys; split; [done|]; intros ?? [=]].
      specialize (step_pointcloud Hp xs ys m path targets HJ Hlt).
      destruct (_load_pointcloud w self path m) as [[a|e] m']; simpl;
        (apply IH; [simpl in Hn; lia|done]). }
    simpl. exists xs, ys. split; [done|]. intros ?? [=].
Qed.

End BatchLoop.

Section Lifetime.
Variable w : World.
Variable self : DataGenerator.

(** A batch and the caches it leaves: rows of the shape of the modality. *)
Lemma generate_caches_ok size subset tape m :
  caches_ok self m →
  caches_ok self (snd (fst (generate w self size subset tape m)))
  ∧ ∀ xs ys, fst (fst (generate w self size subset tape m)) = Yield xs ys →
             Forall (row_ok self) xs.
Proof.
  intros Hm. unfold generate.
  destruct (generate_loop_rule w self size (default_qrcodes self subset)
              (λ xs _ m, caches_ok self m ∧ Forall (row_ok self) xs)) with
    (n := length tape) (tape := tape) (xs := @nil ndarray) (ys := @nil (list json)) (m := m)
    as (xs' & ys' & [Hc Hr] & Hy); try done.
  - intros Hi xs ys m0 path t [Hc Hr] _.
    destruct (load_image_ok w self path m0 Hc) as [Hc' Ha].
    destruct (_load_image w self path m0) as [[a|e] m']; simpl in *; [|done].
    split; [done|]. apply Forall_app. split; [done|]. apply Forall_singleton.
    unfold row_ok. rewrite Hi. simpl. by apply Ha.
  - intros Hv xs ys m0 path t [Hc Hr] _.
    destruct (load_voxelgrid_ok w self path m0 Hc) as [Hc' Ha].
    destruct (_load_voxelgrid w self path m0) as [[a|e] m']; simpl in *; [|done].
    split; [done|]. apply Forall_app. split; [done|]. apply Forall_singleton.
    unfold row_ok. rewrite Hv. simpl. by apply Ha.
  - intros Hp xs ys m0 path t [Hc Hr] _.
    destruct (load_pointcloud_ok w self path m0 Hc) as [Hc' Ha].
    by destruct (_load_pointcloud w self path m0) as [[a|e] m'].
  - split; [done|]. intros xs ys Hxy. by destruct (Hy _ _ Hxy) as (-> & _).
Qed.

(** A yielded batch has as many inputs as targets, [size] of them (none
    when [size] is negative). *)
Theorem yielded_batch_has_size_rows size subset tape m xs ys :
  fst (fst (generate w self size subset tape m)) = Yield xs ys →
  length xs = length ys ∧ Z.of_nat (length xs) = Z.max 0 size.
Proof.
  intros Hxy. unfold generate in Hxy.
  destruct (generate_loop_rule w self size (default_qrcodes self subset)
              (λ xs ys _, length xs = length ys ∧ Z.of_nat (length xs) ≤ Z.max 0 size)) with
    (n := length tape) (tape := tape) (xs := @nil ndarray) (ys := @nil (list json)) (m := m)
    as (xs' & ys' & [Hl Hle] & Hy); try done.
  - intros _ xs0 ys0 m0 path t [Hl Hle] Hlt.
    destruct (_load_image w self path m0) as [[a|e] m']; [|done].
    rewrite !length_app. simpl. split; lia.
  - intros _ xs0 ys0 m0 path t [Hl Hle] Hlt.
    destruct (_load_voxelgrid w self path m0) as [[a|e] m']; [|done].
    rewrite !length_app. simpl. split; lia.
  - intros _ xs0 ys0 m0 path t [Hl Hle] Hlt.
    destruct (_load_pointcloud w self path m0) as [[a|e] m']; [|done].
    rewrite !length_app. simpl. split; lia.
  - simpl. lia.
  - destruct (Hy _ _ Hxy) as (-> & -> & Hge). split; [done | lia].
Qed.

(** With the point-cloud modality no batch of one row or more is ever
    yielded: every load raises and the loop goes round. *)
Lemma generate_pointcloud_no_batch size subset tape m :
  input_type self = "pointcloud" → 0 < size → caches_ok self m →
  yields (fst (fst (generate w self size subset tape m))) = false.
Proof.
  intros Hp Hsize Hm. unfold generate.
  destruct (generate_loop_rule w self size (default_qrcodes self subset)
              (λ xs _ m, caches_ok self m ∧ xs = [])) with
    (n := length tape) (tape := tape) (xs := @nil ndarray) (ys := @nil (list json)) (m := m)
    as (xs' & ys' & [Hc ->] & Hy); try done.
  - intros Hi. rewrite Hp in Hi. discriminate Hi.
  - intros Hv. rewrite Hp in Hv. discriminate Hv.
  - intros _ xs ys m0 path t [Hc ->] _.
    destruct (load_pointcloud_ok w self path m0 Hc) as [Hc' Ha].
    by destruct (_load_pointcloud w self path m0) as [[a|e] m'].
  - destruct (fst (fst (generate_loop _ _ _ _ _ _ _ _))) as [xs ys| |]; [|done..].
    destruct (Hy xs ys eq_refl) as (_ & _ & Hge). simpl in Hge. lia.
Qed.

(** With a selector that is none of the three no batch of one row or
    more is yielded either: the loop retries or raises. *)
Lemma generate_unknown_no_batch size subset tape m :
  input_type self ≠ "image" → input_type self ≠ "voxelgrid" →
  input_type self ≠ "pointcloud" → 0 < size →
  yields (fst (fst (generate w self size subset tape m))) = false.
Proof.
  intros Hi Hv Hp Hsize. unfold generate.
  destruct (generate_loop_rule w self size (default_qrcodes self subset)
              (λ xs _ _, xs = [])) with
    (n := length tape) (tape := tape) (xs := @nil ndarray) (ys := @nil (list json)) (m := m)
    as (xs' & ys' & -> & Hy); try done.
  destruct (fst (fst (generate_loop _ _ _ _ _ _ _ _))) as [xs ys| |]; [|done..].
  destruct (Hy xs ys eq_refl) as (_ & _ & Hge). simpl in Hge. lia.
Qed.

Lemma dataset_images_ok qrcode targets paths acc m :
  caches_ok self m →
  caches_ok self (snd (dataset_images w self qrcode targets paths acc m)).
Proof.
  revert acc m. induction paths as [|path rest IH]; intros acc m Hm; [done|]. simpl.
  destruct (load_image_ok w self path m Hm) as [Hm' _].
  destruct (_load_image w self path m) as [[a|e] m']; [by apply IH | done].
Qed.

Lemma dataset_voxelgrids_ok qrcode targets paths voxelgrid acc m :
  caches_ok self m →
  caches_ok self (snd (dataset_voxelgrids w self qrcode targets paths voxelgrid acc m)).
Proof.
  revert voxelgrid acc m.
  induction paths as [|path rest IH]; intros voxelgrid acc m Hm; [done|]. simpl.
  destruct (load_voxelgrid_ok w self path m Hm) as [Hm' _].
  destruct (_load_voxelgrid w self path m) as [[a|e] m']; [by apply IH|].
  destruct voxelgrid as [v|]; [apply IH|]; by repeat apply caches_ok_emit.
Qed.

Lemma dataset_pointclouds_ok qrcode targets paths acc m :
  caches_ok self m →
  caches_ok self (snd (dataset_pointclouds w self qrcode targets paths acc m)).
Proof.
  revert acc m. induction paths as [|path rest IH]; intros acc m Hm; [done|]. simpl.
  destruct (load_pointcloud_ok w self path m Hm) as [Hm' _].
  destruct (_load_pointcloud w self path m) as [[a|e] m'];
    apply IH; [done | by repeat apply caches_ok_emit].
Qed.

Lemma dataset_loop_ok subset voxelgrid acc m :
  caches_ok self m →
  caches_ok self (snd (dataset_loop w self subset voxelgrid acc m)).
Proof.
  revert voxelgrid acc m.
  induction subset as [|qrcode rest IH]; intros voxelgrid acc m Hm; [done|]. simpl.
  destruct (qrcodes_dictionary self !! qrcode) as [[[targets jpgs] pcds]|];
    [|apply IH; by repeat apply caches_ok_emit].
  set (m1 := emit (PrintTargets targets) (emit (PrintProcessing qrcode) m)).
  assert (caches_ok self m1) as Hm1 by by repeat apply caches_ok_emit.
  destruct (String.eqb (input_type self) "image").
  { pose proof (dataset_images_ok qrcode targets jpgs acc m1 Hm1) as H.
    destruct (dataset_images _ _ _ _ _ _ _) as [[acc'|e] m']; [by apply IH | done]. }
  destruct (String.eqb (input_type self) "voxelgrid").
  { pose proof (dataset_voxelgrids_ok qrcode targets pcds voxelgrid acc m1 Hm1) as H.
    destruct (dataset_voxelgrids _ _ _ _ _ _ _ _) as [[[v acc']|e] m'];
      [by apply IH | done]. }
  destruct (String.eqb (input_type self) "pointcloud"); [|done].
  pose proof (dataset_pointclouds_ok qrcode targets pcds acc m1 Hm1) as H.
  destruct (dataset_pointclouds _ _ _ _ _ _ _) as [[acc'|e] m']; [by apply IH | done].
Qed.

Lemma after_ok m c : caches_ok self m → caches_ok self (after w self m c).
Proof.
  intros Hm. destruct c as [path|path|path|size subset tape|subset]; simpl.
  - by apply load_image_ok.
  - by apply load_voxelgrid_ok.
  - by apply load_pointcloud_ok.
  - by apply generate_caches_ok.
  - by apply dataset_loop_ok.
Qed.

(** The caches of an instance, whatever was called on it. *)
Lemma lifetime_ok calls : caches_ok self (lifetime w self calls).
Proof.
  unfold lifetime. generalize (caches_ok_fresh self).
  generalize fresh. induction calls as [|c calls IH]; intros m Hm; [done|].
  simpl. apply IH. by apply after_ok.
Qed.

End Lifetime.

(** ** The image loader and its cache *)

(** C9.  [_load_image] never writes the image cache.  Past an empty entry
    of it, the decoder is called and, when it returns a picture, the
    loader returns the rotated picture as an array and stores that array
    in the voxel-grid cache under the image path, the other caches being
    left as they were.  Hence, whatever is called on an instance, its image
    cache is empty, and each call of [_load_image] calls the decoder: one
    more [load_img] in the trace. *)
Theorem image_cache_never_filled (w : World) (self : DataGenerator) :
  (∀ m path, image_cache (snd (_load_image w self path m)) = image_cache m)
  ∧ (∀ m path image,
       image_cache m !! path = None →
       load_img w path (image_target_shape self) = Ok image →
       _load_image w self path m
       = (Ok (np_array_of_image (rotate_m90_expand w image)),
          store_voxelgrid_cache path (np_array_of_image (rotate_m90_expand w image))
                                (emit (LoadImg path) m)))
  ∧ (∀ m path a,
       image_cache m !! path = None →
       fst (_load_image w self path m) = Ok a →
       voxelgrid_cache (snd (_load_image w self path m))
         = <[path := a]> (voxelgrid_cache m)
       ∧ pointcloud_cache (snd (_load_image w self path m)) = pointcloud_cache m)
  ∧ (∀ calls, image_cache (lifetime w self calls) = ∅)
  ∧ (∀ calls path,
       trace (snd (_load_image w self path (lifetime w self calls)))
         = trace (lifetime w self calls) ++ [LoadImg path]).
Proof.
  split; [|split; [|split; [|split]]].
  - intros m path. destruct (load_image_cases w self path m)
      as [(a & _ & ->)|(_ & [(e & ->)|(a & _ & ->)])]; done.
  - intros m path image Hnone Himage. unfold _load_image.
    rewrite Hnone. cbv zeta. by rewrite Himage.
  - intros m path a Hnone Ha. destruct (load_image_cases w self path m)
      as [(a' & Hsome & _)|(_ & [(e & He)|(a' & _ & Ha')])].
    + congruence.
    + rewrite He in Ha. discriminate Ha.
    + rewrite Ha' in Ha |- *. by injection Ha as ->.
  - intros calls. apply (lifetime_ok w self calls).
  - intros calls path. destruct (lifetime_ok w self calls) as (Hi & _).
    destruct (load_image_cases w self path (lifetime w self calls))
      as [(a & Ha & _)|(_ & [(e & ->)|(a & _ & ->)])]; [|done..].
    rewrite Hi in Ha. by rewrite lookup_empty in Ha.
Qed.

(** On the disk: the first load of the picture decodes it to a 90 x 160
    array of three channels (the target is 160 x 90, rotated) and stores
    that array in the voxel-grid cache, which holds nothing else; the image
    cache and the point-cloud cache are still empty. *)
Lemma image_cache_never_filled_witness :
  ∃ g a m1,
    on_disk "image" [160; 90] [32; 32; 32] 32000 = Ok g
    ∧ _load_image disk g jpg1 fresh = (Ok a, m1)
    ∧ a = {| shape := [90; 160; 3]; buffer := [160; 90] |}
    ∧ image_cache m1 = ∅
    ∧ voxelgrid_cache m1 = <[jpg1 := a]> ∅
    ∧ pointcloud_cache m1 = ∅
    ∧ trace m1 = [LoadImg jpg1].
Proof.
  destruct (on_disk "image" [160; 90] [32; 32; 32] 32000) as [g|e] eqn:Hg;
    [|by vm_compute in Hg].
  destruct (init_fields _ _ _ _ _ _ _ _ Hg) as (_ & _ & _ & Hits & _).
  destruct (image_cache_never_filled disk g) as (Hkeep & Hstore & Hinto & _ & _).
  assert (load_img disk jpg1 (image_target_shape g)
          = Ok {| im_width := 90; im_height := 160; im_raster := [90; 160] |}) as Himage.
  { rewrite Hits. reflexivity. }
  pose proof (Hstore fresh jpg1 _ eq_refl Himage) as Hload.
  pose proof (Hkeep fresh jpg1) as Hi.
  destruct (Hinto fresh jpg1 _ eq_refl (f_equal fst Hload)) as [Hv Hp].
  rewrite Hload in Hi, Hv, Hp.
  exists g, {| shape := [90; 160; 3]; buffer := [160; 90] |},
    (store_voxelgrid_cache jpg1 {| shape := [90; 160; 3]; buffer := [160; 90] |}
       (emit (LoadImg jpg1) fresh)).
  split; [reflexivity|]. split; [exact Hload|]. split; [reflexivity|].
  split; [exact Hi|]. split; [exact Hv|]. split; [exact Hp|]. reflexivity.
Defined.

(** C2, on the disk: the picture is loaded twice through [_load_image].
    Both calls return the same array, but the second is no cache hit: the
    decoder is called again and the image cache is still empty; the array
    was stored in the voxel-grid cache. *)
Theorem load_image_twice_decodes_twice :
  ∃ g a m1 m2,
    on_disk "image" [160; 90] [32; 32; 32] 32000 = Ok g
    ∧ _load_image disk g jpg1 fresh = (Ok a, m1)
    ∧ _load_image disk g jpg1 m1 = (Ok a, m2)
    ∧ trace m2 = [LoadImg jpg1; LoadImg jpg1]
    ∧ image_cache m2 = ∅
    ∧ voxelgrid_cache m2 !! jpg1 = Some a.
Proof.
  destruct (on_disk "image" [160; 90] [32; 32; 32] 32000) as [g|e] eqn:Hg;
    [|by vm_compute in Hg].
  destruct (init_fields _ _ _ _ _ _ _ _ Hg) as (_ & _ & _ & Hits & _).
  assert (∀ m, image_cache m = ∅ →
               _load_image disk g jpg1 m
               = (Ok {| shape := [90; 160; 3]; buffer := [160; 90] |},
                  store_voxelgrid_cache jpg1 {| shape := [90; 160; 3]; buffer := [160; 90] |}
                    (emit (LoadImg jpg1) m))) as Hload.
  { intros m Hm. unfold _load_image. rewrite Hm, lookup_empty, Hits. reflexivity. }
  eexists g, _, _, _. split; [done|].
  split; [by apply Hload|]. split; [by apply Hload|].
  split; [done|]. split; [done|]. simpl. apply lookup_insert_eq.
Qed.

(** ** The raw point-cloud loader *)

(** C1, on the disk: the stored cloud has three points of four columns,
    the target size is two.  The loader raises [NameError] where the claim
    has it return an array of shape (2, 4); nothing is cached. *)
Theorem load_pointcloud_raises_NameError :
  ∃ g,
    on_disk "pointcloud" [160; 90] [32; 32; 32] 2 = Ok g
    ∧ from_file disk pcd1 = Ok cloud1
    ∧ shape (np_array_of_rows (length (columns cloud1))
               (slice_to (values cloud1) (pointcloud_target_size g))) = [2; 4]
    ∧ _load_pointcloud disk g pcd1 fresh
      = (Raise (NameError "pointcloud_target_size"), emit (FromFile pcd1) fresh).
Proof.
  destruct (on_disk "pointcloud" [160; 90] [32; 32; 32] 2) as [g|e] eqn:Hg;
    [|by vm_compute in Hg].
  destruct (init_fields _ _ _ _ _ _ _ _ Hg) as (_ & _ & _ & _ & _ & Hpts & _).
  exists g. split; [done|]. split; [done|]. rewrite Hpts. split; [done|].
  unfold _load_pointcloud. cbn [pointcloud_cache fresh]. by rewrite lookup_empty.
Qed.

(** ** The input shape *)

Lemma get_input_shape_unknown (self : DataGenerator) :
  input_type self ≠ "image" → input_type self ≠ "voxelgrid" →
  input_type self ≠ "pointcloud" →
  get_input_shape self = Raise (NameError "input_type").
Proof.
  intros H1 H2 H3. unfold get_input_shape.
  destruct (String.eqb_spec (input_type self) "image"); [done|].
  destruct (String.eqb_spec (input_type self) "voxelgrid"); [done|].
  by destruct (String.eqb_spec (input_type self) "pointcloud").
Qed.

(** C4, on the disk, with the selector "foo": construction succeeds;
    [get_input_shape] and [generate_dataset] abort with [NameError], whose
    message does not name the selector, where the claim has the fatal error
    "Unknown input_type: foo"; so does [generate] once it has drawn a
    subject with a dictionary entry, and it yields no batch. *)
Theorem unknown_selector_raises_NameError :
  ∃ g,
    on_disk "foo" [160; 90] [32; 32; 32] 32000 = Ok g
    ∧ get_input_shape g = Raise (NameError "input_type")
    ∧ fst (generate_dataset disk g None fresh) = Raise (NameError "input_type")
    ∧ fst (fst (generate disk g 1 None [0%nat] fresh)) = Raised (NameError "input_type")
    ∧ ∀ calls tape,
        yields (fst (fst (generate disk g 1 None tape (lifetime disk g calls)))) = false.
Proof.
  destruct (on_disk "foo" [160; 90] [32; 32; 32] 32000) as [g|e] eqn:Hg;
    [|by vm_compute in Hg].
  destruct (init_fields _ _ _ _ _ _ _ _ Hg) as (_ & Hity & _).
  exists g. split; [reflexivity|].
  split; [apply get_input_shape_unknown; by rewrite Hity|].
  split; [vm_compute in Hg; injection Hg as <-; by vm_compute|].
  split; [vm_compute in Hg; injection Hg as <-; by vm_compute|].
  intros calls tape. apply generate_unknown_no_batch; rewrite ?Hity; (done || lia).
Qed.

(** ** The full-dataset materializer *)

(** C3, on the disk, voxel grids: the first scan of ABC123 decodes, the
    second raises.  The failure is printed, but the row is not skipped:
    two rows come back, the second holding the first scan's array. *)
Theorem failed_voxelgrid_still_appends_row :
  ∃ g v m,
    on_disk "voxelgrid" [160; 90] [32; 32; 32] 32000 = Ok g
    ∧ qrcodes_dictionary g !! "ABC123"
      = Some ([JInt 150; JInt 45], [jpg1], [pcd1; pcd2])
    ∧ fst (_load_voxelgrid disk g pcd1 fresh) = Ok v
    ∧ fst (_load_voxelgrid disk g pcd2 fresh) = Raise (LibraryError "from_file")
    ∧ generate_dataset disk g (Some ["ABC123"]) fresh
      = (Ok {| x_qrcodes := ["ABC123"; "ABC123"];
               x_inputs := [v; v];
               y_outputs := [[JInt 150; JInt 45]; [JInt 150; JInt 45]] |},
         m)
    ∧ trace m = [PrintProcessing "ABC123"; PrintTargets [JInt 150; JInt 45];
                 FromFile pcd1; FromFile pcd2;
                 PrintExn (LibraryError "from_file"); PrintError pcd2].
Proof.
  destruct (on_disk "voxelgrid" [160; 90] [32; 32; 32] 32000) as [g|e] eqn:Hg;
    [|by vm_compute in Hg].
  vm_compute in Hg. injection Hg as <-.
  eexists _, _, _. split; [done|].
  split; [by vm_compute|]. split; [by vm_compute|]. split; [by vm_compute|].
  split; by vm_compute.
Qed.

(** With the scan that cannot be parsed first, the appends read the local
    [voxelgrid] before any assignment to it. *)
Example failed_first_voxelgrid_is_unbound :
  ∃ g,
    __init__ reversed_disk "data" "voxelgrid" ["height"; "weight"]
             [160; 90] [32; 32; 32] 32000 = Ok g
    ∧ fst (generate_dataset reversed_disk g None fresh)
      = Raise (UnboundLocalError "voxelgrid").
Proof.
  destruct (__init__ reversed_disk "data" "voxelgrid" ["height"; "weight"]
              [160; 90] [32; 32; 32] 32000) as [g|e] eqn:Hg; [|by vm_compute in Hg].
  exists g. split; [reflexivity|]. vm_compute in Hg. injection Hg as <-. by vm_compute.
Qed.

(** The sibling loop of the raw point clouds does skip the row. *)
Lemma failed_pointcloud_row_skipped :
  ∃ g m,
    on_disk "pointcloud" [160; 90] [32; 32; 32] 2 = Ok g
    ∧ generate_dataset disk g (Some ["ABC123"]) fresh = (Ok no_rows, m).
Proof.
  destruct (on_disk "pointcloud" [160; 90] [32; 32; 32] 2) as [g|e] eqn:Hg;
    [|by vm_compute in Hg].
  vm_compute in Hg. injection Hg as <-.
  eexists _, _. split; [done|]. by vm_compute.
Qed.

(** ** The batch generator *)

(** C5, on the disk without the broken scan, raw point clouds, target size
    two: ABC123 has a dictionary entry with one scan, whose three points
    decode and are cut to an array of shape (2, 4).  Yet whatever was
    called on the instance before and whatever the draws, [generate] with
    batch size one yields no batch. *)
Theorem pointcloud_generator_never_yields :
  ∃ g,
    __init__ clean_disk "data" "pointcloud" ["height"; "weight"] [160; 90] [32; 32; 32] 2
      = Ok g
    ∧ qrcodes g = ["ABC123"]
    ∧ qrcodes_dictionary g !! "ABC123"
      = Some ([JInt 150; JInt 45], [jpg1], [pcd1])
    ∧ from_file clean_disk pcd1 = Ok cloud1
    ∧ shape (np_array_of_rows (length (columns cloud1))
               (slice_to (values cloud1) (pointcloud_target_size g))) = [2; 4]
    ∧ ∀ calls tape,
        yields (fst (fst (generate clean_disk g 1 None tape
                            (lifetime clean_disk g calls)))) = false.
Proof.
  destruct (__init__ clean_disk "data" "pointcloud" ["height"; "weight"]
              [160; 90] [32; 32; 32] 2) as [g|e] eqn:Hg; [|by vm_compute in Hg].
  destruct (init_fields _ _ _ _ _ _ _ _ Hg) as (_ & Hity & _ & _ & _ & Hpts & _).
  exists g. split; [done|].
  split; [vm_compute in Hg; by injection Hg as <-|].
  split; [vm_compute in Hg; by injection Hg as <-|].
  split; [done|]. split; [by rewrite Hpts|].
  intros calls tape. apply generate_pointcloud_no_batch; [done | lia | apply lifetime_ok].
Qed.

(** C10.  [get_input_shape] of a constructed index returns (90, 160, 3),
    (32, 32, 32) or (32000, 4) by modality, whatever target shapes and
    size the index was constructed with; and when the target of the
    selected modality is not the default one, no row of any batch the
    generator yields has the reported shape. *)
Theorem input_shape_ignores_target_shapes (w : World) (root ity : string)
    (ots : list string) (its vts : list Z) (pts : Z) (g : DataGenerator) :
  __init__ w root ity ots its vts pts = Ok g →
  (ity = "image" → get_input_shape g = Ok [90; 160; 3])
  ∧ (ity = "voxelgrid" → get_input_shape g = Ok [32; 32; 32])
  ∧ (ity = "pointcloud" → get_input_shape g = Ok [32000; 4])
  ∧ (∀ calls size subset tape xs ys a,
       fst (fst (generate w g size subset tape (lifetime w g calls))) = Yield xs ys →
       a ∈ xs → ¬ default_target g → get_input_shape g ≠ Ok (shape a)).
Proof.
  intros Hg.
  destruct (init_Ok _ _ _ _ _ _ _ _ Hg) as (_ & Hl2 & Hl3 & _).
  destruct (init_fields _ _ _ _ _ _ _ _ Hg) as (_ & Hity & _ & Hits & Hvts & _).
  unfold get_input_shape. rewrite Hity.
  split; [by intros ->|]. split; [by intros ->|]. split; [by intros ->|].
  intros calls size subset tape xs ys a Hy Ha Hnd.
  destruct (generate_caches_ok w g size subset tape _ (lifetime_ok w g calls)) as [_ Hrows].
  specialize (Hrows _ _ Hy). rewrite Forall_forall in Hrows. specialize (Hrows _ Ha).
  unfold row_ok, default_target, image_shape, voxelgrid_shape in *.
  rewrite Hity, ?Hits, ?Hvts in *.
  destruct its as [|height [|width [|? ?]]]; try done.
  destruct vts as [|n_x [|n_y [|n_z [|? ?]]]]; try done. simpl in Hrows.
  destruct (String.eqb ity "image").
  { rewrite Hrows. intros [= <- <-]. by apply Hnd. }
  destruct (String.eqb ity "voxelgrid"); [|done].
  destruct Hrows as [-> | ->]; [by intros [=] | intros [= <- <- <-]; by apply Hnd].
Qed.

(** On the disk, with image target (20, 20): the batch row has shape
    (20, 20, 3), the reported shape is (90, 160, 3). *)
Lemma input_shape_ignores_target_shapes_witness :
  ∃ g a,
    on_disk "image" [20; 20] [32; 32; 32] 32000 = Ok g
    ∧ fst (fst (generate disk g 1 None [0; 0]%nat fresh))
      = Yield [a] [[JInt 150; JInt 45]]
    ∧ shape a = [20; 20; 3]
    ∧ get_input_shape g = Ok [90; 160; 3]
    ∧ get_input_shape g ≠ Ok (shape a).
Proof.
  destruct (on_disk "image" [20; 20] [32; 32; 32] 32000) as [g|e] eqn:Hg;
    [|by vm_compute in Hg].
  destruct (input_shape_ignores_target_shapes disk "data" "image" ["height"; "weight"]
              [20; 20] [32; 32; 32] 32000 g Hg) as (Hshape & _ & _ & Hrows).
  assert (fst (fst (generate disk g 1 None [0; 0]%nat fresh))
          = Yield [{| shape := [20; 20; 3]; buffer := [20; 20] |}]
                  [[JInt 150; JInt 45]]) as Hy.
  { vm_compute in Hg. injection Hg as <-. by vm_compute. }
  eexists g, _. split; [done|]. split; [exact Hy|]. split; [done|].
  split; [by apply Hshape|].
  apply (Hrows [] 1 None [0; 0]%nat _ _ _ Hy); [by left|].
  unfold default_target. vm_compute in Hg. injection Hg as <-. by vm_compute.
Defined.

(** ** Batches of images and voxel grids *)

Lemma random_choice_lookup {A} (l : list A) (i : nat) (x : A) :
  l !! i = Some x → random_choice i l = Ok x.
Proof.
  intros H. unfold random_choice.
  rewrite Nat.mod_small by by eapply lookup_lt_Some. by rewrite H.
Qed.

Lemma length_nonzero_lookup {A} (l : list A) (i : nat) (x : A) :
  l !! i = Some x → (length l =? 0)%nat = false.
Proof. intros H. apply lookup_lt_Some in H. apply Nat.eqb_neq. lia. Qed.

Section Liveness.
Variable w : World.
Variable self : DataGenerator.
Variables (size : Z) (subset : list string).
Variables (i j : nat) (q path : string) (targets : list json) (jpgs pcds : list string).
Hypothesis subject_drawn : subset !! i = Some q.
Hypothesis subject_entry : qrcodes_dictionary self !! q = Some (targets, jpgs, pcds).

Lemma image_loop_yields (k : nat) :
  input_type self = "image" →
  jpgs !! j = Some path →
  (∀ m, is_ok (fst (_load_image w self path m)) = true) →
  ∀ xs ys m,
    Z.of_nat (length xs) + Z.of_nat k = size →
    ∃ xs' ys' m',
      generate_loop w self size subset (draws i j k) xs ys m = (Yield xs' ys', m', [])
      ∧ length xs' = (length xs + k)%nat ∧ length ys' = (length ys + k)%nat.
Proof.
  intros Hity Hpath Hdec. induction k as [|k IH]; intros xs ys m Hk; simpl.
  - rewrite (proj2 (Z.ltb_ge _ _)) by lia. exists xs, ys, m. split; [done|]. lia.
  - rewrite (proj2 (Z.ltb_lt _ _)) by lia.
    rewrite (random_choice_lookup _ _ _ subject_drawn), subject_entry, Hity. simpl.
    rewrite (length_nonzero_lookup _ _ _ Hpath), (random_choice_lookup _ _ _ Hpath).
    specialize (Hdec m).
    destruct (_load_image w self path m) as [[a|e] m1]; [|done].
    destruct (IH (xs ++ [a]) (ys ++ [targets]) m1) as (xs' & ys' & m' & -> & Hx & Hy).
    { rewrite length_app. simpl. lia. }
    exists xs', ys', m'. rewrite !length_app in *. simpl in *. split; [done|]. lia.
Qed.

Lemma voxelgrid_loop_yields (k : nat) :
  input_type self = "voxelgrid" →
  pcds !! j = Some path →
  (∀ m, is_ok (fst (_load_voxelgrid w self path m)) = true) →
  ∀ xs ys m,
    Z.of_nat (length xs) + Z.of_nat k = size →
    ∃ xs' ys' m',
      generate_loop w self size subset (draws i j k) xs ys m = (Yield xs' ys', m', [])
      ∧ length xs' = (length xs + k)%nat ∧ length ys' = (length ys + k)%nat.
Proof.
  intros Hity Hpath Hdec. induction k as [|k IH]; intros xs ys m Hk; simpl.
  - rewrite (proj2 (Z.ltb_ge _ _)) by lia. exists xs, ys, m. split; [done|]. lia.
  - rewrite (proj2 (Z.ltb_lt _ _)) by lia.
    rewrite (random_choice_lookup _ _ _ subject_drawn), subject_entry, Hity. simpl.
    rewrite (length_nonzero_lookup _ _ _ Hpath), (random_choice_lookup _ _ _ Hpath).
    specialize (Hdec m).
    destruct (_load_voxelgrid w self path m) as [[a|e] m1]; [|done].
    destruct (IH (xs ++ [a]) (ys ++ [targets]) m1) as (xs' & ys' & m' & -> & Hx & Hy).
    { rewrite length_app. simpl. lia. }
    exists xs', ys', m'. rewrite !length_app in *. simpl in *. split; [done|]. lia.
Qed.

(** With images, a subject of the subset that has an entry with a picture
    that decodes: some draws make [generate] yield a batch of [size]
    inputs and [size] targets. *)
Theorem image_generator_yields (m : Mem) :
  input_type self = "image" →
  jpgs !! j = Some path →
  (∀ m, is_ok (fst (_load_image w self path m)) = true) →
  0 ≤ size →
  ∃ tape xs ys m',
    generate w self size (Some subset) tape m = (Yield xs ys, m', [])
    ∧ Z.of_nat (length xs) = size ∧ Z.of_nat (length ys) = size.
Proof.
  intros Hity Hpath Hdec Hsize.
  destruct (image_loop_yields (Z.to_nat size) Hity Hpath Hdec [] [] m)
    as (xs & ys & m' & H & Hx & Hy); [simpl; lia|].
  exists (draws i j (Z.to_nat size)), xs, ys, m'. split; [done|]. simpl in *. lia.
Qed.

(** The same with voxel grids. *)
Theorem voxelgrid_generator_yields (m : Mem) :
  input_type self = "voxelgrid" →
  pcds !! j = Some path →
  (∀ m, is_ok (fst (_load_voxelgrid w self path m)) = true) →
  0 ≤ size →
  ∃ tape xs ys m',
    generate w self size (Some subset) tape m = (Yield xs ys, m', [])
    ∧ Z.of_nat (length xs) = size ∧ Z.of_nat (length ys) = size.
Proof.
  intros Hity Hpath Hdec Hsize.
  destruct (voxelgrid_loop_yields (Z.to_nat size) Hity Hpath Hdec [] [] m)
    as (xs & ys & m' & H & Hx & Hy); [simpl; lia|].
  exists (draws i j (Z.to_nat size)), xs, ys, m'. split; [done|]. simpl in *. lia.
Qed.

End Liveness.

(** On the disk: three draws of ABC123 and its picture make a batch of
    three. *)
Lemma image_generator_yields_witness :
  ∃ g tape xs ys m',
    on_disk "image" [160; 90] [32; 32; 32] 32000 = Ok g
    ∧ generate disk g 3 (Some ["ABC123"]) tape fresh = (Yield xs ys, m', [])
    ∧ Z.of_nat (length xs) = 3 ∧ Z.of_nat (length ys) = 3.
Proof.
  destruct (on_disk "image" [160; 90] [32; 32; 32] 32000) as [g|e] eqn:Hg;
    [|by vm_compute in Hg].
  assert (input_type g = "image") as Hity.
  { vm_compute in Hg. by injection Hg as <-. }
  assert (qrcodes_dictionary g !! "ABC123"
          = Some ([JInt 150; JInt 45], [jpg1], [pcd1; pcd2])) as Hentry.
  { vm_compute in Hg. injection Hg as <-. by vm_compute. }
  assert (∀ m, is_ok (fst (_load_image disk g jpg1 m)) = true) as Hdec.
  { intros m. unfold _load_image. destruct (image_cache m !! jpg1); [done|].
    vm_compute in Hg. injection Hg as <-. by vm_compute. }
  destruct (image_generator_yields disk g 3 ["ABC123"] 0 0 "ABC123" jpg1
              [JInt 150; JInt 45] [jpg1] [pcd1; pcd2]
              eq_refl Hentry fresh Hity eq_refl Hdec)
    as (tape & xs & ys & m' & H); [lia|].
  exists g, tape, xs, ys, m'. split; [reflexivity | exact H].
Defined.

(** On the disk: two draws of ABC123 and its first scan make a batch of
    two. *)
Lemma voxelgrid_generator_yields_witness :
  ∃ g tape xs ys m',
    on_disk "voxelgrid" [160; 90] [32; 32; 32] 32000 = Ok g
    ∧ generate disk g 2 (Some ["ABC123"]) tape fresh = (Yield xs ys, m', [])
    ∧ Z.of_nat (length xs) = 2 ∧ Z.of_nat (length ys) = 2.
Proof.
  destruct (on_disk "voxelgrid" [160; 90] [32; 32; 32] 32000) as [g|e] eqn:Hg;
    [|by vm_compute in Hg].
  assert (input_type g = "voxelgrid") as Hity.
  { vm_compute in Hg. by injection Hg as <-. }
  assert (qrcodes_dictionary g !! "ABC123"
          = Some ([JInt 150; JInt 45], [jpg1], [pcd1; pcd2])) as Hentry.
  { vm_compute in Hg. injection Hg as <-. by vm_compute. }
  assert (∀ m, is_ok (fst (_load_voxelgrid disk g pcd1 m)) = true) as Hdec.
  { intros m. unfold _load_voxelgrid. destruct (voxelgrid_cache m !! pcd1); [done|].
    vm_compute in Hg. injection Hg as <-. by vm_compute. }
  destruct (voxelgrid_generator_yields disk g 2 ["ABC123"] 0 0 "ABC123" pcd1
              [JInt 150; JInt 45] [jpg1] [pcd1; pcd2]
              eq_refl Hentry fresh Hity eq_refl Hdec)
    as (tape & xs & ys & m' & H); [lia|].
  exists g, tape, xs, ys, m'. split; [reflexivity | exact H].
Defined.

(** ** The voxel-grid loader and its cache *)

(** A second call of [_load_voxelgrid] on a path is a cache hit: the array
    of the first call comes back, no library is called and the caches stay
    as the first call left them. *)
Theorem load_voxelgrid_twice_hits_cache (w : World) (self : DataGenerator)
    (path : string) (m m1 : Mem) (a : ndarray) :
  _load_voxelgrid w self path m = (Ok a, m1) →
  _load_voxelgrid w self path m1 = (Ok a, m1).
Proof.
  intros H. destruct (load_voxelgrid_cases w self path m)
    as [(a' & Hhit & H')|(_ & [(e & H')|(a' & _ & H')])];
    rewrite H' in H; [|done|]; injection H as -> <-.
  - done.
  - unfold _load_voxelgrid at 1. simpl. by rewrite lookup_insert_eq.
Qed.

(** On the disk: the first scan is decoded once and served from the cache
    afterwards. *)
Lemma load_voxelgrid_twice_hits_cache_witness :
  ∃ g a m1,
    on_disk "voxelgrid" [160; 90] [32; 32; 32] 32000 = Ok g
    ∧ _load_voxelgrid disk g pcd1 fresh = (Ok a, m1)
    ∧ _load_voxelgrid disk g pcd1 m1 = (Ok a, m1)
    ∧ trace m1 = [FromFile pcd1].
Proof.
  destruct (on_disk "voxelgrid" [160; 90] [32; 32; 32] 32000) as [g|e] eqn:Hg;
    [|by vm_compute in Hg].
  assert (∃ a m1, _load_voxelgrid disk g pcd1 fresh = (Ok a, m1)
                  ∧ trace m1 = [FromFile pcd1]) as (a & m1 & H1 & Ht).
  { vm_compute in Hg. injection Hg as <-. eexists _, _. split; by vm_compute. }
  exists g, a, m1. split; [reflexivity|]. split; [exact H1|]. split; [|exact Ht].
  exact (load_voxelgrid_twice_hits_cache disk g pcd1 fresh m1 a H1).
Defined.

(** On the disk: a batch of two voxel grids, one draw wasted on the scan
    that cannot be parsed. *)
Lemma yielded_batch_has_size_rows_witness :
  ∃ g xs ys,
    on_disk "voxelgrid" [160; 90] [32; 32; 32] 32000 = Ok g
    ∧ fst (fst (generate disk g 2 None [0; 1; 0; 0; 0; 0]%nat fresh)) = Yield xs ys
    ∧ length xs = length ys ∧ Z.of_nat (length xs) = 2.
Proof.
  destruct (on_disk "voxelgrid" [160; 90] [32; 32; 32] 32000) as [g|e] eqn:Hg;
    [|by vm_compute in Hg].
  assert (∃ xs ys, fst (fst (generate disk g 2 None [0; 1; 0; 0; 0; 0]%nat fresh))
                   = Yield xs ys) as (xs & ys & Hy).
  { vm_compute in Hg. injection Hg as <-. eexists _, _. by vm_compute. }
  exists g, xs, ys. split; [reflexivity|]. split; [exact Hy|].
  exact (yielded_batch_has_size_rows disk g 2 None [0; 1; 0; 0; 0; 0]%nat fresh xs ys Hy).
Defined.

(** * Further properties of the code *)

(** ** Path discovery *)

(** [_get_paths] splits the JSON paths in two: a path is a measurement path
    when "measures" occurs in it and a personal path otherwise, and no path
    is lost or repeated. *)
Theorem json_paths_split_by_measures (w : World) (root : string) :
  p_personal (_get_paths w root) ++ p_measures (_get_paths w root)
    ≡ₚ glob2_glob w (os_path_join root ["**/*.json"])
  ∧ (∀ p, p ∈ p_measures (_get_paths w root)
          ↔ p ∈ glob2_glob w (os_path_join root ["**/*.json"])
            ∧ substring_of "measures" p)
  ∧ (∀ p, p ∈ p_personal (_get_paths w root)
          ↔ p ∈ glob2_glob w (os_path_join root ["**/*.json"])
            ∧ ¬ substring_of "measures" p).
Proof.
  unfold _get_paths. cbn [p_personal p_measures].
  set (json_paths := glob2_glob w _).
  assert (filter (λ p, negb (str_in "measures" p)) json_paths
          = filter (λ p, ¬ str_in "measures" p) json_paths) as Hneg.
  { apply list_filter_iff. intros p. apply negb_True. }
  split; [|split].
  - rewrite Hneg, Permutation_app_comm. apply filter_app_complement.
  - intros p. rewrite list_elem_of_filter, str_in_Is_true. tauto.
  - intros p. rewrite Hneg, list_elem_of_filter, str_in_Is_true. tauto.
Qed.

(** ** Target extraction *)

Lemma getitem_missing (items : list (string * json)) (key : string) :
  key ∉ items.*1 → getitem items key = Raise (KeyError key).
Proof.
  induction items as [|[k v'] items IH]; simpl; [done|].
  intros Hk. destruct (String.eqb_spec k key) as [->|_].
  - exfalso. apply Hk. left.
  - apply IH. intros H. apply Hk. by right.
Qed.

Lemma extract_targets_in_requested_order_inv (ots : list string) (m : MeasurementRecord)
    (targets : list json) :
  _extract_targets ots m = Ok targets →
  Forall2 (λ name v, value_of m name = Ok v) ots targets.
Proof.
  unfold _extract_targets. revert targets.
  induction ots as [|name ots IH]; intros targets H; simpl in H.
  - injection H as <-. constructor.
  - destruct (value_of m name) as [v|e] eqn:Hv; [|done]. cbn [bind] in H.
    destruct (mapM _ ots) as [vs|e] eqn:Hvs; [|done]. cbn [bind] in H.
    injection H as <-. constructor; [done | by apply IH].
Qed.

(** [_extract_targets] returns one value per requested target, in the
    order requested: the [value] of the record's item of that name, which
    may be any item of the record, [type] and [personId] among them.  It
    raises what the first target without such a value raises; that is
    [KeyError] of the name when the record has no item of that name. *)
Theorem extract_targets_in_requested_order (ots : list string) (m : MeasurementRecord) :
  (∀ targets,
     _extract_targets ots m = Ok targets
     ↔ Forall2 (λ name v,
                  ∃ field, getitem (measure_items m) name = Ok field
                           ∧ subscript field "value" = Ok v)
               ots targets)
  ∧ (∀ before name rest e,
       ots = before ++ name :: rest →
       (∀ n, n ∈ before → is_ok (value_of m n) = true) →
       value_of m name = Raise e →
       _extract_targets ots m = Raise e)
  ∧ (∀ name, name ∉ (measure_items m).*1 → value_of m name = Raise (KeyError name))
  ∧ (∀ name items,
       getitem (measure_items m) name = Ok (JDict items) →
       "value" ∉ items.*1 →
       value_of m name = Raise (KeyError "value"))
  ∧ value_of m "type" = Ok (JStr (type_value m))
  ∧ value_of m "personId" = Ok (JStr (personId_value m)).
Proof.
  assert (∀ name v,
            value_of m name = Ok v
            ↔ ∃ field, getitem (measure_items m) name = Ok field
                       ∧ subscript field "value" = Ok v) as Hvalue.
  { intros name v. unfold value_of.
    destruct (getitem (measure_items m) name) as [field|e]; cbn [bind].
    - split; [by exists field | by intros (? & [= <-] & ?)].
    - split; [done | by intros (? & ? & _)]. }
  split; [|split; [|split; [|split; [|split]]]].
  - intros targets. split.
    + intros H%extract_targets_in_requested_order_inv.
      eapply Forall2_impl; [exact H|]. intros name v. apply Hvalue.
    + unfold _extract_targets. revert targets.
      induction ots as [|name ots IH]; intros targets; simpl.
      * by intros ->%Forall2_nil_inv_l.
      * intros (v & targets' & Hv%Hvalue & Hrest & ->)%Forall2_cons_inv_l.
        rewrite Hv. cbn [bind]. by rewrite (IH _ Hrest).
  - intros before name rest e -> Hbefore Hname. unfold _extract_targets.
    induction before as [|n before IH]; simpl.
    + by rewrite Hname.
    + pose proof (Hbefore n (list_elem_of_here _ _)) as Hn.
      destruct (value_of m n) as [v|?]; [|done]. cbn [bind].
      rewrite IH; [done|]. intros n' Hn'. apply Hbefore. by right.
  - intros name Hname. unfold value_of. by rewrite getitem_missing.
  - intros name items Hitems Hvalueless. unfold value_of. rewrite Hitems.
    cbn [bind subscript]. by apply getitem_missing.
  - reflexivity.
  - reflexivity.
Qed.

(** On the disk's record: weight and height are read in the order asked
    for, the type of the record can be asked for as well, and a name that
    the record lacks raises. *)
Lemma extract_targets_in_requested_order_witness :
  _extract_targets ["weight"; "height"] (json_load_measure disk measure1)
    = Ok [JInt 45; JInt 150]
  ∧ _extract_targets ["type"; "height"] (json_load_measure disk measure1)
    = Ok [JStr "manual"; JInt 150]
  ∧ _extract_targets ["height"; "age"; "weight"] (json_load_measure disk measure1)
    = Raise (KeyError "age").
Proof.
  split; [|split].
  - apply (extract_targets_in_requested_order ["weight"; "height"]
             (json_load_measure disk measure1)).
    repeat constructor; eexists; (split; [reflexivity|reflexivity]).
  - apply (extract_targets_in_requested_order ["type"; "height"]
             (json_load_measure disk measure1)).
    repeat constructor; eexists; (split; [reflexivity|reflexivity]).
  - apply (proj1 (proj2 (extract_targets_in_requested_order ["height"; "age"; "weight"]
                           (json_load_measure disk measure1)))
             ["height"] "age" ["weight"]).
    + reflexivity.
    + by intros n ->%list_elem_of_singleton.
    + reflexivity.
Defined.

(** ** The constructed index *)

Lemma mapM_Ok_each {A B} (f : A → result B) (l : list A) (l' : list B) :
  mapM f l = Ok l' → ∀ x, x ∈ l → ∃ y, f x = Ok y ∧ y ∈ l'.
Proof.
  revert l'. induction l as [|a l IH]; intros l' H x Hx; simpl in H.
  - by apply elem_of_nil in Hx.
  - inv_bind H. injection H as <-. apply elem_of_cons in Hx as [->|Hx].
    + exists a0. split; [done | left].
    + destruct (IH _ Ha0 x Hx) as (y & Hy & Hin). exists y. split; [done | by right].
Qed.

Lemma filter_singleton_inv {A} (P : A → Prop) `{∀ x, Decision (P x)} (l : list A) (x : A) :
  filter P l = [x] →
  ∃ l1 l2, l = l1 ++ x :: l2 ∧ P x ∧ ∀ y, y ∈ l1 ++ l2 → ¬ P y.
Proof.
  induction l as [|a l IH]; [done|].
  destruct (decide (P a)) as [Ha|Ha].
  - rewrite filter_cons_True by done. intros [= -> Hnil].
    exists [], l. split; [done|]. split; [done|].
    intros y Hy HP. by eapply filter_nil_not_elem_of.
  - rewrite filter_cons_False by done. intros Hx.
    destruct (IH Hx) as (l1 & l2 & -> & HP & Hno).
    exists (a :: l1), l2. split; [done|]. split; [done|].
    intros y [->|Hy]%elem_of_cons; [done | by apply Hno].
Qed.

(** A subject that was extracted comes from the one personal path that
    holds the person's id. *)
Lemma extract_qrcode_Ok_inv (w : World) (personal : list string) (m : MeasurementRecord)
    (q : string) :
  _extract_qrcode w personal m = Ok q →
  ∃ l1 pp l2,
    personal = l1 ++ pp :: l2
    ∧ substring_of (personId_value m) pp
    ∧ (∀ y, y ∈ l1 ++ l2 → ¬ substring_of (personId_value m) y)
    ∧ q = qrcode_value (json_load_personal w pp).
Proof.
  rewrite extract_qrcode_filter.
  destruct (filter _ personal) as [|pp [|? ?]] eqn:Hf; [done| |done].
  intros [= <-]. apply filter_singleton_inv in Hf as (l1 & l2 & -> & Hpp & Hno).
  exists l1, pp, l2. split; [done|]. split; [by apply str_in_Is_true|].
  split; [|done]. intros y Hy. rewrite <- str_in_Is_true. by apply Hno.
Qed.

Section Constructed.
Variable w : World.
Variables (root ity : string) (ots : list string) (its vts : list Z) (pts : Z).
Variable g : DataGenerator.
Hypothesis constructed : __init__ w root ity ots its vts pts = Ok g.

(** The subjects of all measurement records, as [_find_qrcodes] extracted
    them. *)
Lemma constructed_subjects :
  ∃ ids,
    mapM (subject w (json_paths_personal g)) (json_paths_measures g) = Ok ids
    ∧ qrcodes g = sorted_set ids.
Proof.
  destruct (init_Ok _ _ _ _ _ _ _ _ constructed) as (_ & _ & _ & Hq & _ & _).
  destruct (init_fields _ _ _ _ _ _ _ _ constructed)
    as (_ & _ & _ & _ & _ & _ & _ & _ & -> & ->).
  unfold _find_qrcodes in Hq. inv_bind Hq. injection Hq as Hq. by exists a.
Qed.

(** A dictionary entry was written for a manual measurement record. *)
Lemma entry_from_manual_record q e :
  qrcodes_dictionary g !! q = Some e →
  ∃ p, p ∈ json_paths_measures g ∧ manual w p
       ∧ subject w (json_paths_personal g) p = Ok q
       ∧ entry_of w (output_targets g) (jpg_paths g) (pcd_paths g) p q = Ok e.
Proof.
  intros He.
  destruct (init_Ok _ _ _ _ _ _ _ _ constructed) as (_ & _ & _ & _ & _ & Hd).
  destruct (init_fields _ _ _ _ _ _ _ _ constructed)
    as (_ & _ & -> & _ & _ & _ & -> & -> & -> & ->).
  unfold _create_qrcodes_dictionary in Hd.
  destruct (loop_Ok _ _ _ _ _ _ _ _ Hd) as (_ & ids & Hids & _ & _ & Hdom & Hent).
  assert (q ∈ ids) as Hq.
  { assert (q ∈ dom (qrcodes_dictionary g)) as Hin by (apply elem_of_dom; eauto).
    rewrite Hdom in Hin. set_solver. }
  apply (mapM_Ok_elem_of _ _ _ Hids) in Hq as (p & [Hm Hp]%list_elem_of_filter & Hs).
  exists p. split; [done|]. split; [done|]. split; [done|].
  destruct (Hent p q Hp Hm Hs) as (e' & He' & Hl). congruence.
Qed.

(** Every entry of the dictionary holds one target per requested output,
    [get_output_size] of them, read in the requested order from the
    fields of the subject's manual measurement record. *)
Theorem entry_targets_match_output_targets q targets jpgs pcds :
  qrcodes_dictionary g !! q = Some (targets, jpgs, pcds) →
  length targets = get_output_size g
  ∧ ∃ p, p ∈ json_paths_measures g ∧ manual w p
         ∧ subject w (json_paths_personal g) p = Ok q
         ∧ Forall2 (λ name v, value_of (json_load_measure w p) name = Ok v)
                   (output_targets g) targets.
Proof.
  intros (p & Hp & Hm & Hs & He)%entry_from_manual_record.
  unfold entry_of in He. inv_bind He. injection He as <- _ _.
  apply extract_targets_in_requested_order_inv in Ha.
  split; [symmetry; by eapply Forall2_length | by exists p].
Qed.

(** The pictures of an entry are the image paths that hold both the
    subject's QR-code and "measurements", and so for the scans. *)
Theorem entry_paths_hold_qrcode_and_measurements q targets jpgs pcds :
  qrcodes_dictionary g !! q = Some (targets, jpgs, pcds) →
  (∀ p, p ∈ jpgs ↔ p ∈ jpg_paths g ∧ substring_of q p ∧ substring_of "measurements" p)
  ∧ (∀ p, p ∈ pcds ↔ p ∈ pcd_paths g ∧ substring_of q p ∧ substring_of "measurements" p).
Proof.
  intros (p0 & _ & _ & _ & He)%entry_from_manual_record.
  unfold entry_of in He. inv_bind He. injection He as _ <- <-.
  split; intros p; rewrite list_elem_of_filter, andb_True, !str_in_Is_true; tauto.
Qed.

(** The keys of the dictionary are exactly the subjects of the manual
  measurement records, and every one of them is in the subject list (which
  also holds the subjects of the other measurement records). *)
Theorem dictionary_keys_are_subjects q :
(is_Some (qrcodes_dictionary g !! q)
 ↔ ∃ p, p ∈ json_paths_measures g ∧ manual w p
        ∧ subject w (json_paths_personal g) p = Ok q)
∧ (is_Some (qrcodes_dictionary g !! q) → q ∈ qrcodes g).
Proof.
assert (is_Some (qrcodes_dictionary g !! q) →
        ∃ p, p ∈ json_paths_measures g ∧ manual w p
             ∧ subject w (json_paths_personal g) p = Ok q) as Hkey.
{ intros [e (p & Hp & Hm & Hs & _)%entry_from_manual_record]. by exists p. }
split; [split; [exact Hkey|]|].
- intros (p & Hp & Hm & Hs).
  destruct (init_Ok _ _ _ _ _ _ _ _ constructed) as (_ & _ & _ & _ & _ & Hd).
  revert Hp Hs.
  destruct (init_fields _ _ _ _ _ _ _ _ constructed)
    as (_ & _ & _ & _ & _ & _ & _ & _ & -> & ->).
  intros Hp Hs. unfold _create_qrcodes_dictionary in Hd.
  destruct (loop_Ok _ _ _ _ _ _ _ _ Hd) as (_ & ids & _ & _ & _ & _ & Hent).
  destruct (Hent p q Hp Hm Hs) as (e & _ & Hl). by exists e.
- intros (p & Hp & _ & Hs)%Hkey.
  destruct constructed_subjects as (ids & Hids & ->).
  apply sorted_set_elem_of, (mapM_Ok_elem_of _ _ _ Hids). by exists p.
Qed.

(** Every measurement record, manual or not, is joined to exactly one
    personal record: one position of the personal paths holds its person
    id, and the QR-code of that record is a subject of the index. *)
Theorem every_measurement_joins_one_person p :
  p ∈ json_paths_measures g →
  ∃ l1 pp l2,
    json_paths_personal g = l1 ++ pp :: l2
    ∧ substring_of (personId_value (json_load_measure w p)) pp
    ∧ (∀ y, y ∈ l1 ++ l2 → ¬ substring_of (personId_value (json_load_measure w p)) y)
    ∧ qrcode_value (json_load_personal w pp) ∈ qrcodes g.
Proof.
  intros Hp. destruct constructed_subjects as (ids & Hids & ->).
  destruct (mapM_Ok_each _ _ _ Hids p Hp) as (q & Hq & Hin).
  apply extract_qrcode_Ok_inv in Hq as (l1 & pp & l2 & Hl & Hpp & Hno & ->).
  exists l1, pp, l2. split; [done|]. split; [done|]. split; [done|].
  by apply sorted_set_elem_of.
Qed.

(** Construction reads neither the selector nor the target shapes and
    size: with any other selector, and other shapes of the right lengths,
    it succeeds too, with the same paths, subjects and dictionary. *)
Theorem construction_ignores_selector ity' its' vts' pts' :
  length its' = 2%nat → length vts' = 3%nat →
  ∃ g', __init__ w root ity' ots its' vts' pts' = Ok g'
        ∧ input_type g' = ity'
        ∧ image_target_shape g' = its' ∧ voxelgrid_target_shape g' = vts'
        ∧ pointcloud_target_size g' = pts'
        ∧ qrcodes g' = qrcodes g
        ∧ qrcodes_dictionary g' = qrcodes_dictionary g
        ∧ jpg_paths g' = jpg_paths g ∧ pcd_paths g' = pcd_paths g
        ∧ json_paths_personal g' = json_paths_personal g
        ∧ json_paths_measures g' = json_paths_measures g.
Proof.
  intros Hits Hvts. pose proof constructed as H.
  unfold __init__ in H |- *. inv_bind H. injection H as <-.
  rewrite Ha, Hits, Hvts, Ha2, Ha4. cbn [assert_ bind Nat.eqb].
  rewrite Ha3. cbn [assert_ bind]. by eexists.
Qed.

End Constructed.

(** The index of the disk, images with the default shapes. *)
Lemma disk_image_index (g : DataGenerator) :
  on_disk "image" [160; 90] [32; 32; 32] 32000 = Ok g →
  qrcodes_dictionary g !! "ABC123"
    = Some ([JInt 150; JInt 45], [jpg1], [pcd1; pcd2])
  ∧ qrcodes g = ["ABC123"]
  ∧ json_paths_measures g = [measure1]
  ∧ json_paths_personal g = [personal1]
  ∧ output_targets g = ["height"; "weight"].
Proof. intros H. vm_compute in H. injection H as <-. by vm_compute. Qed.

(** On the disk, with the type of the record and the weight as targets:
    the entry of ABC123 holds the two values, in that order. *)
Lemma entry_targets_match_output_targets_witness :
  ∃ g p,
    __init__ disk "data" "image" ["type"; "weight"] [160; 90] [32; 32; 32] 32000 = Ok g
    ∧ qrcodes_dictionary g !! "ABC123"
      = Some ([JStr "manual"; JInt 45], [jpg1], [pcd1; pcd2])
    ∧ get_output_size g = 2%nat
    ∧ p ∈ json_paths_measures g
    ∧ Forall2 (λ name v, value_of (json_load_measure disk p) name = Ok v)
              (output_targets g) [JStr "manual"; JInt 45].
Proof.
  destruct (__init__ disk "data" "image" ["type"; "weight"] [160; 90] [32; 32; 32] 32000)
    as [g|e] eqn:Hg; [|by vm_compute in Hg].
  assert (qrcodes_dictionary g !! "ABC123"
          = Some ([JStr "manual"; JInt 45], [jpg1], [pcd1; pcd2])) as He.
  { vm_compute in Hg. injection Hg as <-. by vm_compute. }
  destruct (entry_targets_match_output_targets disk "data" "image" ["type"; "weight"]
              [160; 90] [32; 32; 32] 32000 g Hg "ABC123" _ _ _ He)
    as (Hn & p & Hp & _ & _ & Hts).
  exists g, p. split; [reflexivity|]. split; [exact He|].
  split; [symmetry; exact Hn|]. split; [exact Hp | exact Hts].
Defined.

(** On the disk: the picture of ABC123 holds "ABC123" and
    "measurements". *)
Lemma entry_paths_hold_qrcode_and_measurements_witness :
  ∃ g, on_disk "image" [160; 90] [32; 32; 32] 32000 = Ok g
       ∧ jpg1 ∈ jpg_paths g ∧ substring_of "ABC123" jpg1
       ∧ substring_of "measurements" jpg1.
Proof.
  destruct (on_disk "image" [160; 90] [32; 32; 32] 32000) as [g|e] eqn:Hg;
    [|by vm_compute in Hg].
  exists g. split; [reflexivity|].
  destruct (disk_image_index g Hg) as (He & _).
  destruct (entry_paths_hold_qrcode_and_measurements disk "data" "image"
              ["height"; "weight"] [160; 90] [32; 32; 32] 32000 g Hg "ABC123" _ _ _ He)
    as [Hjpg _].
  apply Hjpg. left.
Defined.

(** On the disk: ABC123 has an entry and is a subject. *)
Lemma dictionary_keys_are_subjects_witness :
  ∃ g, on_disk "image" [160; 90] [32; 32; 32] 32000 = Ok g ∧ "ABC123" ∈ qrcodes g.
Proof.
  destruct (on_disk "image" [160; 90] [32; 32; 32] 32000) as [g|e] eqn:Hg;
    [|by vm_compute in Hg].
  exists g. split; [reflexivity|].
  destruct (disk_image_index g Hg) as (He & _).
  apply (proj2 (dictionary_keys_are_subjects disk "data" "image" ["height"; "weight"]
                  [160; 90] [32; 32; 32] 32000 g Hg "ABC123")).
  eexists. exact He.
Defined.

(** On the disk: the measurement record of P1 is joined to the personal
    record of P1. *)
Lemma every_measurement_joins_one_person_witness :
  ∃ g l1 pp l2,
    on_disk "image" [160; 90] [32; 32; 32] 32000 = Ok g
    ∧ json_paths_personal g = l1 ++ pp :: l2
    ∧ substring_of "P1" pp
    ∧ qrcode_value (json_load_personal disk pp) ∈ qrcodes g.
Proof.
  destruct (on_disk "image" [160; 90] [32; 32; 32] 32000) as [g|e] eqn:Hg;
    [|by vm_compute in Hg].
  destruct (disk_image_index g Hg) as (_ & _ & Hm & _).
  destruct (every_measurement_joins_one_person disk "data" "image" ["height"; "weight"]
              [160; 90] [32; 32; 32] 32000 g Hg measure1)
    as (l1 & pp & l2 & Hl & Hpp & _ & Hq).
  { rewrite Hm. left. }
  exists g, l1, pp, l2. split; [reflexivity|]. split; [exact Hl|]. split; [exact Hpp|].
  exact Hq.
Defined.

(** On the disk: the index built for images is built for the selector
    "foo" and other shapes as well. *)
Lemma construction_ignores_selector_witness :
  ∃ g g',
    on_disk "image" [160; 90] [32; 32; 32] 32000 = Ok g
    ∧ on_disk "foo" [20; 20] [8; 8; 8] 16000 = Ok g'
    ∧ input_type g' = "foo"
    ∧ qrcodes_dictionary g' = qrcodes_dictionary g.
Proof.
  destruct (on_disk "image" [160; 90] [32; 32; 32] 32000) as [g|e] eqn:Hg;
    [|by vm_compute in Hg].
  destruct (construction_ignores_selector disk "data" "image" ["height"; "weight"]
              [160; 90] [32; 32; 32] 32000 g Hg "foo" [20; 20] [8; 8; 8] 16000
              eq_refl eq_refl)
    as (g' & Hg' & Hity & _ & _ & _ & _ & Hd & _).
  exists g, g'. split; [reflexivity|]. split; [exact Hg'|]. split; [exact Hity|]. exact Hd.
Defined.

(** ** The batch loop, entry by entry *)

Lemma random_choice_Ok_elem_of {A} (r : nat) (l : list A) (x : A) :
  random_choice r l = Ok x → x ∈ l.
Proof.
  unfold random_choice. destruct (l !! _) as [y|] eqn:Hy; [|done].
  intros [= <-]. by eapply list_elem_of_lookup_2.
Qed.

Lemma random_choice_Raise {A} (r : nat) (l : list A) (e : exn) :
  random_choice r l = Raise e →
  l = [] ∧ e = IndexError "Cannot choose from an empty sequence".
Proof.
  unfold random_choice. destruct (l !! _) as [y|] eqn:Hy; [done|].
  intros [= <-]. split; [|done]. destruct l as [|a l]; [done|].
  apply lookup_ge_None in Hy.
  pose proof (Nat.mod_upper_bound r (length (a :: l))) as Hlt.
  simpl in *. lia.
Qed.

Lemma random_choice_nonempty {A} (r : nat) (l : list A) :
  (length l =? 0)%nat = false → ∃ x, random_choice r l = Ok x ∧ x ∈ l.
Proof.
  intros Hl. destruct (random_choice r l) as [x|e] eqn:Hr.
  - exists x. split; [done|]. by eapply random_choice_Ok_elem_of.
  - apply random_choice_Raise in Hr as [-> _]. done.
Qed.

Lemma raise_unknown_input_type_eq : raise_unknown_input_type = NameError "input_type".
Proof. reflexivity. Qed.

Section BatchLoopEntries.
Variable w : World.
Variable self : DataGenerator.
Variable size : Z.
Variable subset : list string.

(** An invariant of the accumulators and the caches, and what a failed
    image load may raise. *)
Variable J : list ndarray → list (list json) → Mem → Prop.
Variable E : exn → Prop.

Hypothesis step_image :
  input_type self = "image" →
  ∀ xs ys m q t jpgs pcds path,
    J xs ys m → Z.of_nat (length xs) < size →
    q ∈ subset → qrcodes_dictionary self !! q = Some (t, jpgs, pcds) → path ∈ jpgs →
    match _load_image w self path m with
    | (Ok a, m') => J (xs ++ [a]) (ys ++ [t]) m'
    | (Raise e, m') => J xs ys m' ∧ E e
    end.
Hypothesis step_voxelgrid :
  input_type self = "voxelgrid" →
  ∀ xs ys m q t jpgs pcds path,
    J xs ys m → Z.of_nat (length xs) < size →
    q ∈ subset → qrcodes_dictionary self !! q = Some (t, jpgs, pcds) → path ∈ pcds →
    match _load_voxelgrid w self path m with
    | (Ok a, m') => J (xs ++ [a]) (ys ++ [t]) m'
    | (Raise _, m') => J xs ys m'
    end.
Hypothesis step_pointcloud :
  input_type self = "pointcloud" →
  ∀ xs ys m q t jpgs pcds path,
    J xs ys m → Z.of_nat (length xs) < size →
    q ∈ subset → qrcodes_dictionary self !! q = Some (t, jpgs, pcds) → path ∈ pcds →
    match _load_pointcloud w self path m with
    | (Ok a, m') => J (xs ++ [a]) (ys ++ [t]) m'
    | (Raise _, m') => J xs ys m'
    end.

Local Abbreviation stopped := (stopped self size subset E).

Lemma generate_loop_entries (n : nat) :
  ∀ tape xs ys m,
    (length tape ≤ n)%nat → J xs ys m →
    ∃ xs' ys',
      J xs' ys' (snd (fst (generate_loop w self size subset tape xs ys m)))
      ∧ stopped (fst (fst (generate_loop w self size subset tape xs ys m))) xs' ys'.
Proof.
  induction n as [|n IH]; intros tape xs ys m Hn HJ.
  - destruct tape; [|simpl in Hn; lia]. simpl.
    destruct (Z.ltb_spec (Z.of_nat (length xs)) size); simpl;
      exists xs, ys; (split; [done|]); simpl; [done | by repeat split].
  - destruct tape as [|r tape1]; [apply IH; [simpl; lia|done]|].
    simpl in Hn. simpl.
    destruct (Z.ltb_spec (Z.of_nat (length xs)) size) as [Hlt|Hge]; simpl;
      [|exists xs, ys; split; [done|]; by repeat split].
    destruct (random_choice r subset) as [qrcode|e] eqn:Hr; simpl;
      [|exists xs, ys; split; [done|]; left; by apply random_choice_Raise in Hr].
    apply random_choice_Ok_elem_of in Hr.
    destruct (qrcodes_dictionary self !! qrcode) as [[[targets jpgs] pcds]|] eqn:Hd;
      [|apply IH; [lia|done]].
    destruct (String.eqb_spec (input_type self) "image") as [Hi|Hni].
    { destruct (length jpgs =? 0)%nat eqn:Hl; [apply IH; [lia|done]|].
      destruct tape1 as [|r' tape2]; simpl; [by exists xs, ys|].
      destruct (random_choice_nonempty r' jpgs Hl) as (path & -> & Hpath).
      specialize (step_image Hi xs ys m qrcode targets jpgs pcds path HJ Hlt Hr Hd Hpath).
      destruct (_load_image w self path m) as [[a|e] m']; simpl.
      - apply IH; [simpl in Hn; lia|done].
      - destruct step_image as [HJ' He]. exists xs, ys. split; [done|]. right. by left. }
    destruct (String.eqb_spec (input_type self) "voxelgrid") as [Hv|Hnv].
    { destruct (length pcds =? 0)%nat eqn:Hl; [apply IH; [lia|done]|].
      destruct tape1 as [|r' tape2]; simpl; [by exists xs, ys|].
      destruct (random_choice_nonempty r' pcds Hl) as (path & -> & Hpath).
      specialize (step_voxelgrid Hv xs ys m qrcode targets jpgs pcds path
                    HJ Hlt Hr Hd Hpath).
      destruct (_load_voxelgrid w self path m) as [[a|e] m']; simpl;
        (apply IH; [simpl in Hn; lia|done]). }
    destruct (String.eqb_spec (input_type self) "pointcloud") as [Hp|Hnp].
    { destruct (length pcds =? 0)%nat eqn:Hl; [apply IH; [lia|done]|].
      destruct tape1 as [|r' tape2]; simpl; [by exists xs, ys|].
      destruct (random_choice_nonempty r' pcds Hl) as (path & -> & Hpath).
      specialize (step_pointcloud Hp xs ys m qrcode targets jpgs pcds path
                    HJ Hlt Hr Hd Hpath).
      destruct (_load_pointcloud w self path m) as [[a|e] m']; simpl;
        (apply IH; [simpl in Hn; lia|done]). }
    simpl. exists xs, ys. split; [done|]. right. right.
    split; [by intros [?|[?|?]]|]. split; [|done].
    exists qrcode. split; [done|]. eexists. exact Hd.
Qed.

End BatchLoopEntries.

Lemma load_image_Raise (w : World) (self : DataGenerator) (path : string) (m : Mem)
    (e : exn) :
  fst (_load_image w self path m) = Raise e → e = LibraryError "load_img".
Proof.
  unfold _load_image, load_img. destruct (image_cache m !! path); [done|].
  destruct (image_target_shape self) as [|height [|width [|? ?]]];
    try (by intros [= <-]).
  destruct (picture w path); [|by intros [= <-]].
  destruct (_ && _); [done | by intros [= <-]].
Qed.

(** The exceptions that escape [generate]: the [IndexError] of a draw from
    an empty subject list; with images, the error of a picture that does
    not decode; with a selector that is none of the three, the [NameError]
    met once a subject with a dictionary entry is drawn.  With voxel grids
    and raw point clouds over a subject list that is not empty, none. *)
Theorem generate_raises_only (w : World) (self : DataGenerator) (size : Z)
    (subset : option (list string)) (tape : list nat) (m : Mem) (e : exn) :
  fst (fst (generate w self size subset tape m)) = Raised e →
  (default_qrcodes self subset = []
   ∧ e = IndexError "Cannot choose from an empty sequence")
  ∨ (input_type self = "image" ∧ e = LibraryError "load_img")
  ∨ (¬ known_selector self
     ∧ (∃ q, q ∈ default_qrcodes self subset ∧ is_Some (qrcodes_dictionary self !! q))
     ∧ e = NameError "input_type").
Proof.
  intros He. unfold generate in He.
  destruct (generate_loop_entries w self size (default_qrcodes self subset)
              (λ _ _ _, True) (λ e, e = LibraryError "load_img")) with
    (n := length tape) (tape := tape) (xs := @nil ndarray) (ys := @nil (list json)) (m := m)
    as (xs' & ys' & _ & Hstop); try done.
  - intros _ xs ys m0 q t jpgs pcds path _ _ _ _ _.
    pose proof (load_image_Raise w self path m0) as Hr.
    destruct (_load_image w self path m0) as [[a|e0] m']; [done|].
    split; [done|]. by apply Hr.
  - intros _ xs ys m0 q t jpgs pcds path _ _ _ _ _.
    by destruct (_load_voxelgrid w self path m0) as [[a|e0] m'].
  - intros _ xs ys m0 q t jpgs pcds path _ _ _ _ _.
    by destruct (_load_pointcloud w self path m0) as [[a|e0] m'].
  - by rewrite He in Hstop.
Qed.

(** On the disk, images with the target shape (0, 0): the picture cannot
    be resized and the error of the loader escapes. *)
Lemma generate_raises_only_witness :
  ∃ g,
    on_disk "image" [0; 0] [32; 32; 32] 32000 = Ok g
    ∧ fst (fst (generate disk g 1 None [0; 0]%nat fresh)) = Raised (LibraryError "load_img")
    ∧ input_type g = "image".
Proof.
  destruct (on_disk "image" [0; 0] [32; 32; 32] 32000) as [g|e] eqn:Hg;
    [|by vm_compute in Hg].
  assert (fst (fst (generate disk g 1 None [0; 0]%nat fresh))
          = Raised (LibraryError "load_img")) as Hr.
  { vm_compute in Hg. injection Hg as <-. by vm_compute. }
  exists g. split; [reflexivity|]. split; [exact Hr|].
  destruct (generate_raises_only disk g 1 None [0; 0]%nat fresh _ Hr)
    as [[_ [=]]|[[Hi _]|(_ & _ & [=])]].
  exact Hi.
Defined.

(** When no subject of a non-empty subject list has a file of the selected
    modality (no dictionary entry, or an empty path list), [generate] with
    a positive batch size neither yields nor raises, whatever the draws:
    it keeps retrying, and touches neither caches nor libraries. *)
Theorem generate_starves_without_files (w : World) (self : DataGenerator) (size : Z)
    (subset : option (list string)) (tape : list nat) (m : Mem) :
  default_qrcodes self subset ≠ [] →
  (∀ q, q ∈ default_qrcodes self subset → no_files self q) →
  0 < size →
  fst (fst (generate w self size subset tape m)) = Starved
  ∧ snd (fst (generate w self size subset tape m)) = m.
Proof.
  intros Hne Hno Hsize. unfold generate.
  assert (∀ q t jpgs pcds,
            q ∈ default_qrcodes self subset →
            qrcodes_dictionary self !! q = Some (t, jpgs, pcds) →
            known_selector self
            ∧ (if String.eqb (input_type self) "image" then jpgs else pcds) = []) as Hfiles.
  { intros q t jpgs pcds Hq Hd. specialize (Hno q Hq). unfold no_files in Hno.
    destruct (qrcodes_dictionary self !! q) as [e|]; [|done].
    injection Hd as ->. exact Hno. }
  destruct (generate_loop_entries w self size (default_qrcodes self subset)
              (λ xs _ m', xs = [] ∧ m' = m) (λ _, False)) with
    (n := length tape) (tape := tape) (xs := @nil ndarray) (ys := @nil (list json)) (m := m)
    as (xs' & ys' & [-> Hm] & Hstop); try done.
  - intros Hi xs ys m0 q t jpgs pcds path _ _ Hq Hd Hpath.
    destruct (Hfiles q t jpgs pcds Hq Hd) as [_ Hnil]. rewrite Hi in Hnil. simpl in Hnil.
    subst jpgs. by apply elem_of_nil in Hpath.
  - intros Hv xs ys m0 q t jpgs pcds path _ _ Hq Hd Hpath.
    destruct (Hfiles q t jpgs pcds Hq Hd) as [_ Hnil]. rewrite Hv in Hnil. simpl in Hnil.
    subst pcds. by apply elem_of_nil in Hpath.
  - intros Hp xs ys m0 q t jpgs pcds path _ _ Hq Hd Hpath.
    destruct (Hfiles q t jpgs pcds Hq Hd) as [_ Hnil]. rewrite Hp in Hnil. simpl in Hnil.
    subst pcds. by apply elem_of_nil in Hpath.
  - split; [|done].
    destruct (fst (fst (generate_loop _ _ _ _ _ _ _ _))) as [a b|e|]; simpl in Hstop.
    + destruct Hstop as (_ & _ & Hge). simpl in Hge. lia.
    + destruct Hstop as [[? _]|[[_ []]|(Hunk & (q & Hq & [[[t jpgs] pcds] Hd]) & _)]];
        [done|]. by destruct (Hfiles q t jpgs pcds Hq Hd) as [? _].
    + done.
Qed.

(** On the disk whose measurement record is not manual: ABC123 is a
    subject without dictionary entry, and the generator starves. *)
Lemma generate_starves_without_files_witness :
  ∃ g,
    __init__ scanned_disk "data" "image" ["height"; "weight"] [160; 90] [32; 32; 32] 32000
      = Ok g
    ∧ qrcodes g = ["ABC123"]
    ∧ qrcodes_dictionary g = ∅
    ∧ fst (fst (generate scanned_disk g 4 None [0; 1; 2; 3]%nat fresh)) = Starved.
Proof.
  destruct (__init__ scanned_disk "data" "image" ["height"; "weight"]
              [160; 90] [32; 32; 32] 32000) as [g|e] eqn:Hg; [|by vm_compute in Hg].
  assert (qrcodes g = ["ABC123"] ∧ qrcodes_dictionary g = ∅) as [Hq Hd].
  { vm_compute in Hg. injection Hg as <-. by vm_compute. }
  exists g. split; [reflexivity|]. split; [exact Hq|]. split; [exact Hd|].
  apply (generate_starves_without_files scanned_disk g 4 None [0; 1; 2; 3]%nat fresh).
  - simpl. by rewrite Hq.
  - intros q _. unfold no_files. by rewrite Hd, lookup_empty.
  - lia.
Defined.

(** ** The rows of the full-dataset materializer *)

Section MaterializerRows.
Variable w : World.
Variable self : DataGenerator.

Lemma dataset_pointclouds_skips qrcode targets paths acc m :
  pointcloud_cache m = ∅ →
  ∃ m', dataset_pointclouds w self qrcode targets paths acc m = (Ok acc, m')
        ∧ pointcloud_cache m' = ∅.
Proof.
  revert m. induction paths as [|path rest IH]; intros m Hm; simpl; [by exists m|].
  destruct (load_pointcloud_cases w self path m)
    as [(a & Ha & _)|(_ & e & -> & _)].
  - rewrite Hm in Ha. by rewrite lookup_empty in Ha.
  - by apply IH.
Qed.

Lemma dataset_loop_pointcloud_skips subset voxelgrid acc m :
  input_type self = "pointcloud" → pointcloud_cache m = ∅ →
  ∃ m', dataset_loop w self subset voxelgrid acc m = (Ok acc, m')
        ∧ pointcloud_cache m' = ∅.
Proof.
  intros Hp. revert m. induction subset as [|q rest IH]; intros m Hm; simpl;
    [by exists m|].
  destruct (qrcodes_dictionary self !! q) as [[[targets jpgs] pcds]|]; [|by apply IH].
  rewrite Hp. simpl.
  destruct (dataset_pointclouds_skips q targets pcds acc
              (emit (PrintTargets targets) (emit (PrintProcessing q) m)) Hm)
    as (m' & -> & Hm').
  by apply IH.
Qed.

(** With raw point clouds the materializer returns no row at all,
    whatever the subjects and their files, and raises nothing: every load
    fails and is skipped. *)
Theorem pointcloud_dataset_is_empty subset m :
  input_type self = "pointcloud" → pointcloud_cache m = ∅ →
  fst (generate_dataset w self subset m) = Ok no_rows.
Proof.
  intros Hp Hm. unfold generate_dataset.
  by destruct (dataset_loop_pointcloud_skips (default_qrcodes self subset) None no_rows m
                 Hp Hm) as (m' & -> & _).
Qed.

Lemma dataset_images_rows qrcode targets paths acc m acc' m' :
  dataset_images w self qrcode targets paths acc m = (Ok acc', m') →
  x_qrcodes acc' = x_qrcodes acc ++ replicate (length paths) qrcode
  ∧ y_outputs acc' = y_outputs acc ++ replicate (length paths) targets
  ∧ length (x_inputs acc') = (length (x_inputs acc) + length paths)%nat.
Proof.
  revert acc m. induction paths as [|path rest IH]; intros acc m H; simpl in H.
  - injection H as <- <-. simpl. rewrite !app_nil_r. split; [done|]. split; [done|lia].
  - destruct (_load_image w self path m) as [[a|e] m1]; [|done].
    destruct (IH _ _ H) as (Hq & Hy & Hx). simpl in *.
    rewrite Hq, Hy, Hx, <- !app_assoc, length_app. simpl. split; [done|].
    split; [done|lia].
Qed.

Lemma dataset_voxelgrids_rows qrcode targets paths voxelgrid acc m voxelgrid' acc' m' :
  dataset_voxelgrids w self qrcode targets paths voxelgrid acc m
    = (Ok (voxelgrid', acc'), m') →
  x_qrcodes acc' = x_qrcodes acc ++ replicate (length paths) qrcode
  ∧ y_outputs acc' = y_outputs acc ++ replicate (length paths) targets
  ∧ length (x_inputs acc') = (length (x_inputs acc) + length paths)%nat.
Proof.
  revert voxelgrid acc m.
  induction paths as [|path rest IH]; intros voxelgrid acc m H; simpl in H.
  - injection H as <- <- <-. simpl. rewrite !app_nil_r. split; [done|].
    split; [done|lia].
  - destruct (_load_voxelgrid w self path m) as [[a|e] m1].
    + destruct (IH _ _ _ H) as (Hq & Hy & Hx). simpl in *.
      rewrite Hq, Hy, Hx, <- !app_assoc, length_app. simpl. split; [done|].
      split; [done|lia].
    + destruct voxelgrid as [v|]; [|done].
      destruct (IH _ _ _ H) as (Hq & Hy & Hx). simpl in *.
      rewrite Hq, Hy, Hx, <- !app_assoc, length_app. simpl. split; [done|].
      split; [done|lia].
Qed.

Lemma dataset_loop_rows subset voxelgrid acc m acc' m' :
  input_type self = "image" ∨ input_type self = "voxelgrid" →
  dataset_loop w self subset voxelgrid acc m = (Ok acc', m') →
  x_qrcodes acc' = x_qrcodes acc ++ concat (subject_labels self <$> subset)
  ∧ length (y_outputs acc')
    = (length (y_outputs acc) + length (concat (subject_labels self <$> subset)))%nat
  ∧ length (x_inputs acc')
    = (length (x_inputs acc) + length (concat (subject_labels self <$> subset)))%nat.
Proof.
  intros Hity. revert voxelgrid acc m.
  induction subset as [|q rest IH]; intros voxelgrid acc m H; simpl in H.
  - injection H as <- <-. simpl. rewrite !app_nil_r. split; [done|].
    split; lia.
  - rewrite !fmap_cons. cbn [concat]. unfold subject_labels at 1 3 5.
    unfold files_of.
    destruct (qrcodes_dictionary self !! q) as [[[targets jpgs] pcds]|]; simpl;
      [|by apply IH in H].
    destruct Hity as [Hi|Hv].
    + rewrite Hi in H |- *. simpl in H |- *.
      destruct (dataset_images w self q targets jpgs acc _) as [[acc1|e] m1] eqn:H1;
        [|done].
      apply dataset_images_rows in H1 as (Hq1 & Hy1 & Hx1).
      destruct (IH _ _ _ H) as (Hq & Hy & Hx).
      rewrite Hq, Hy, Hx, Hq1, Hy1, Hx1, <- !app_assoc, !length_app, !length_replicate.
      split; [done|]. split; lia.
    + rewrite Hv in H |- *. simpl in H |- *.
      destruct (dataset_voxelgrids w self q targets pcds voxelgrid acc _)
        as [[[v1 acc1]|e] m1] eqn:H1; [|done].
      apply dataset_voxelgrids_rows in H1 as (Hq1 & Hy1 & Hx1).
      destruct (IH _ _ _ H) as (Hq & Hy & Hx).
      rewrite Hq, Hy, Hx, Hq1, Hy1, Hx1, <- !app_assoc, !length_app, !length_replicate.
      split; [done|]. split; lia.
Qed.

(** With images or voxel grids, a materialization that returns has, for
    each subject of the list in order, one row per file in the subject's
    path list, labelled with the subject; subjects without dictionary
    entry contribute none.  The three arrays have one length, the number
    of those files.  (For voxel grids the files whose decode failed are
    counted too.) *)
Theorem dataset_has_one_row_per_file subset m rows :
  input_type self = "image" ∨ input_type self = "voxelgrid" →
  fst (generate_dataset w self subset m) = Ok rows →
  x_qrcodes rows = concat (subject_labels self <$> default_qrcodes self subset)
  ∧ length (x_qrcodes rows)
    = length (concat (subject_files self <$> default_qrcodes self subset))
  ∧ length (x_inputs rows) = length (x_qrcodes rows)
  ∧ length (y_outputs rows) = length (x_qrcodes rows).
Proof.
  intros Hity H. unfold generate_dataset in H.
  destruct (dataset_loop w self _ None no_rows m) as [[acc'|e] m'] eqn:Hl; [|done].
  injection H as ->.
  apply (dataset_loop_rows _ _ _ _ _ _ Hity) in Hl as (Hq & Hy & Hx). simpl in *.
  rewrite Hq, Hy, Hx. split; [done|]. split; [|done].
  rewrite !length_concat, <- !list_fmap_compose. f_equal.
  apply list_fmap_ext. intros _ q _. simpl.
  unfold subject_labels, subject_files.
  destruct (qrcodes_dictionary self !! q); [|done]. by rewrite length_replicate.
Qed.

End MaterializerRows.

(** On the disk, raw point clouds: both scans of ABC123 are skipped. *)
Lemma pointcloud_dataset_is_empty_witness :
  ∃ g, on_disk "pointcloud" [160; 90] [32; 32; 32] 32000 = Ok g
       ∧ fst (generate_dataset disk g None fresh) = Ok no_rows.
Proof.
  destruct (on_disk "pointcloud" [160; 90] [32; 32; 32] 32000) as [g|e] eqn:Hg;
    [|by vm_compute in Hg].
  destruct (init_fields _ _ _ _ _ _ _ _ Hg) as (_ & Hity & _).
  exists g. split; [reflexivity|].
  exact (pointcloud_dataset_is_empty disk g None fresh Hity eq_refl).
Defined.

(** On the disk, voxel grids: two rows for the two scans of ABC123, the
    second of which cannot be parsed. *)
Lemma dataset_has_one_row_per_file_witness :
  ∃ g rows,
    on_disk "voxelgrid" [160; 90] [32; 32; 32] 32000 = Ok g
    ∧ fst (generate_dataset disk g None fresh) = Ok rows
    ∧ concat (subject_files g <$> qrcodes g) = [pcd1; pcd2]
    ∧ x_qrcodes rows = concat (subject_labels g <$> qrcodes g)
    ∧ length (x_qrcodes rows) = 2%nat
    ∧ length (x_inputs rows) = length (x_qrcodes rows)
    ∧ length (y_outputs rows) = length (x_qrcodes rows).
Proof.
  destruct (on_disk "voxelgrid" [160; 90] [32; 32; 32] 32000) as [g|e] eqn:Hg;
    [|by vm_compute in Hg].
  destruct (init_fields _ _ _ _ _ _ _ _ Hg) as (_ & Hity & _).
  assert (∃ rows, fst (generate_dataset disk g None fresh) = Ok rows) as [rows Hr].
  { vm_compute in Hg. injection Hg as <-. eexists. by vm_compute. }
  assert (concat (subject_files g <$> qrcodes g) = [pcd1; pcd2]) as Hf.
  { vm_compute in Hg. injection Hg as <-. by vm_compute. }
  destruct (dataset_has_one_row_per_file disk g None fresh rows (or_intror Hity) Hr)
    as (Hq & Hn & Hx & Hy).
  exists g, rows. split; [reflexivity|]. split; [exact Hr|]. split; [exact Hf|].
  split; [exact Hq|]. split; [|split; [exact Hx | exact Hy]].
  rewrite Hn. simpl. rewrite Hf. reflexivity.
Defined.

(** ** Invariants of the caches *)

Section CacheInvariant.
Variable w : World.
Variable self : DataGenerator.

(** A property of the caches that printing keeps, and that the loader of
    the selected modality keeps. *)
Variable I : Mem → Prop.
Hypothesis I_emit : ∀ ev m, I m → I (emit ev m).
Hypothesis I_image :
  input_type self = "image" → ∀ path m, I m → I (snd (_load_image w self path m)).
Hypothesis I_voxelgrid :
  input_type self = "voxelgrid" →
  ∀ path m, I m → I (snd (_load_voxelgrid w self path m)).
Hypothesis I_pointcloud :
  input_type self = "pointcloud" →
  ∀ path m, I m → I (snd (_load_pointcloud w self path m)).

Lemma generate_keeps size subset tape m :
  I m → I (snd (fst (generate w self size subset tape m))).
Proof.
  intros Hm. unfold generate.
  destruct (generate_loop_rule w self size (default_qrcodes self subset)
              (λ _ _ m, I m)) with
    (n := length tape) (tape := tape) (xs := @nil ndarray) (ys := @nil (list json)) (m := m)
    as (xs' & ys' & HI & _); try done.
  - intros Hi xs ys m0 path t H0 _. specialize (I_image Hi path m0 H0).
    by destruct (_load_image w self path m0) as [[a|e] m'].
  - intros Hv xs ys m0 path t H0 _. specialize (I_voxelgrid Hv path m0 H0).
    by destruct (_load_voxelgrid w self path m0) as [[a|e] m'].
  - intros Hp xs ys m0 path t H0 _. specialize (I_pointcloud Hp path m0 H0).
    by destruct (_load_pointcloud w self path m0) as [[a|e] m'].
Qed.

Lemma dataset_images_keeps qrcode targets paths acc m :
  input_type self = "image" → I m →
  I (snd (dataset_images w self qrcode targets paths acc m)).
Proof.
  intros Hi. revert acc m. induction paths as [|path rest IH]; intros acc m Hm; [done|].
  simpl. specialize (I_image Hi path m Hm).
  destruct (_load_image w self path m) as [[a|e] m']; [by apply IH | done].
Qed.

Lemma dataset_voxelgrids_keeps qrcode targets paths voxelgrid acc m :
  input_type self = "voxelgrid" → I m →
  I (snd (dataset_voxelgrids w self qrcode targets paths voxelgrid acc m)).
Proof.
  intros Hv. revert voxelgrid acc m.
  induction paths as [|path rest IH]; intros voxelgrid acc m Hm; [done|].
  simpl. specialize (I_voxelgrid Hv path m Hm).
  destruct (_load_voxelgrid w self path m) as [[a|e] m']; [by apply IH|].
  destruct voxelgrid as [v|]; [apply IH|]; by repeat apply I_emit.
Qed.

Lemma dataset_pointclouds_keeps qrcode targets paths acc m :
  input_type self = "pointcloud" → I m →
  I (snd (dataset_pointclouds w self qrcode targets paths acc m)).
Proof.
  intros Hp. revert acc m. induction paths as [|path rest IH]; intros acc m Hm; [done|].
  simpl. specialize (I_pointcloud Hp path m Hm).
  destruct (_load_pointcloud w self path m) as [[a|e] m'];
    apply IH; [done | by repeat apply I_emit].
Qed.

Lemma generate_dataset_keeps subset m :
  I m → I (snd (generate_dataset w self subset m)).
Proof.
  unfold generate_dataset. generalize (default_qrcodes self subset) as qs.
  generalize (@None ndarray) as voxelgrid. generalize no_rows as acc.
  intros acc voxelgrid qs. revert voxelgrid acc m.
  induction qs as [|q rest IH]; intros voxelgrid acc m Hm; [done|]. simpl.
  destruct (qrcodes_dictionary self !! q) as [[[targets jpgs] pcds]|];
    [|apply IH; by repeat apply I_emit].
  set (m1 := emit (PrintTargets targets) (emit (PrintProcessing q) m)).
  assert (I m1) as Hm1 by by repeat apply I_emit.
  destruct (String.eqb_spec (input_type self) "image") as [Hi|_].
  { pose proof (dataset_images_keeps q targets jpgs acc m1 Hi Hm1) as H.
    destruct (dataset_images _ _ _ _ _ _ _) as [[acc'|e] m']; [by apply IH | done]. }
  destruct (String.eqb_spec (input_type self) "voxelgrid") as [Hv|_].
  { pose proof (dataset_voxelgrids_keeps q targets pcds voxelgrid acc m1 Hv Hm1) as H.
    destruct (dataset_voxelgrids _ _ _ _ _ _ _ _) as [[[v acc']|e] m'];
      [by apply IH | done]. }
  destruct (String.eqb_spec (input_type self) "pointcloud") as [Hp|_]; [|done].
  pose proof (dataset_pointclouds_keeps q targets pcds acc m1 Hp Hm1) as H.
  destruct (dataset_pointclouds _ _ _ _ _ _ _) as [[acc'|e] m']; [by apply IH | done].
Qed.

Lemma public_calls_keep calls m :
  Forall public calls → I m → I (fold_left (after w self) calls m).
Proof.
  intros Hpub. revert m. induction Hpub as [|c calls Hc _ IH]; intros m Hm; [done|].
  simpl. apply IH. destruct c; try done; simpl.
  - by apply generate_keeps.
  - by apply generate_dataset_keeps.
Qed.

End CacheInvariant.

Section CacheGrowth.
Variable w : World.
Variable self : DataGenerator.

Lemma load_image_keeps_keys path m :
  dom (voxelgrid_cache m) ⊆ dom (voxelgrid_cache (snd (_load_image w self path m))).
Proof.
  destruct (load_image_cases w self path m)
    as [(a & _ & ->)|(_ & [(e & ->)|(a & _ & ->)])]; simpl; [done..|].
  rewrite dom_insert_L. set_solver.
Qed.

Lemma load_voxelgrid_keeps_entries path m :
  voxelgrid_cache m ⊆ voxelgrid_cache (snd (_load_voxelgrid w self path m)).
Proof.
  destruct (load_voxelgrid_cases w self path m)
    as [(a & _ & ->)|(Hnone & [(e & ->)|(a & _ & ->)])]; simpl; [done..|].
  by apply insert_subseteq.
Qed.

Lemma load_pointcloud_keeps_voxelgrid_cache path m :
  voxelgrid_cache (snd (_load_pointcloud w self path m)) = voxelgrid_cache m.
Proof.
  by destruct (load_pointcloud_cases w self path m) as [(a & _ & ->)|(_ & e & -> & _)].
Qed.

Lemma after_keeps_keys m c :
  dom (voxelgrid_cache m) ⊆ dom (voxelgrid_cache (after w self m c)).
Proof.
  assert (∀ path m', dom (voxelgrid_cache m) ⊆ dom (voxelgrid_cache m') →
            dom (voxelgrid_cache m)
            ⊆ dom (voxelgrid_cache (snd (_load_image w self path m')))) as Himg.
  { intros path m' H. etrans; [done | apply load_image_keeps_keys]. }
  assert (∀ path m', dom (voxelgrid_cache m) ⊆ dom (voxelgrid_cache m') →
            dom (voxelgrid_cache m)
            ⊆ dom (voxelgrid_cache (snd (_load_voxelgrid w self path m')))) as Hvox.
  { intros path m' H. etrans; [done|]. apply subseteq_dom, load_voxelgrid_keeps_entries. }
  assert (∀ path m', dom (voxelgrid_cache m) ⊆ dom (voxelgrid_cache m') →
            dom (voxelgrid_cache m)
            ⊆ dom (voxelgrid_cache (snd (_load_pointcloud w self path m')))) as Hpc.
  { intros path m' H. by rewrite load_pointcloud_keeps_voxelgrid_cache. }
  destruct c as [path|path|path|size subset tape|subset]; simpl.
  - by apply Himg.
  - by apply Hvox.
  - by apply Hpc.
  - apply (generate_keeps w self
             (λ m', dom (voxelgrid_cache m) ⊆ dom (voxelgrid_cache m'))); auto.
  - apply (generate_dataset_keeps w self
             (λ m', dom (voxelgrid_cache m) ⊆ dom (voxelgrid_cache m'))); auto.
Qed.

(** Nothing is ever evicted: whatever is called on an instance, and
    whatever is called next, the paths that are keys of the voxel-grid
    cache stay keys of it. *)
Theorem cache_keys_are_never_dropped calls more :
  dom (voxelgrid_cache (lifetime w self calls))
  ⊆ dom (voxelgrid_cache (lifetime w self (calls ++ more))).
Proof.
  unfold lifetime. rewrite fold_left_app. generalize (fold_left (after w self) calls fresh).
  induction more as [|c more IH]; intros m; [done|].
  simpl. etrans; [apply after_keeps_keys | apply IH].
Qed.

(** With voxel grids, a scan that was loaded stays cached through every
    later batch and materialization, and a later load of it returns the
    very same array without calling a library. *)
Theorem cached_voxelgrid_is_stable path m a m1 calls :
  input_type self = "voxelgrid" →
  _load_voxelgrid w self path m = (Ok a, m1) →
  Forall public calls →
  _load_voxelgrid w self path (fold_left (after w self) calls m1)
  = (Ok a, fold_left (after w self) calls m1).
Proof.
  intros Hv Hload Hpub.
  assert (voxelgrid_cache m1 !! path = Some a) as Hcached.
  { destruct (load_voxelgrid_cases w self path m)
      as [(a' & Hhit & H')|(_ & [(e & H')|(a' & _ & H')])];
      rewrite H' in Hload; [|done|]; injection Hload as -> <-; [done|].
    simpl. apply lookup_insert_eq. }
  assert (voxelgrid_cache m1 ⊆ voxelgrid_cache (fold_left (after w self) calls m1)) as Hsub.
  { apply (public_calls_keep w self (λ m', voxelgrid_cache m1 ⊆ voxelgrid_cache m'));
      [ done
      | intros Hi; rewrite Hv in Hi; discriminate Hi
      | intros _ p m' H; etrans; [done | apply load_voxelgrid_keeps_entries]
      | intros _ p m' H; by rewrite load_pointcloud_keeps_voxelgrid_cache
      | exact Hpub
      | done ]. }
  unfold _load_voxelgrid. by rewrite (lookup_weaken _ _ _ _ Hcached Hsub).
Qed.

End CacheGrowth.

(** On the disk, voxel grids: the first scan, loaded once, is served from
    the cache after a batch and a materialization. *)
Lemma cached_voxelgrid_is_stable_witness :
  ∃ g a m1 m2,
    on_disk "voxelgrid" [160; 90] [32; 32; 32] 32000 = Ok g
    ∧ _load_voxelgrid disk g pcd1 fresh = (Ok a, m1)
    ∧ m2 = fold_left (after disk g)
             [Call_generate 2 None [0; 1; 0; 0; 0; 0]%nat; Call_generate_dataset None] m1
    ∧ _load_voxelgrid disk g pcd1 m2 = (Ok a, m2).
Proof.
  destruct (on_disk "voxelgrid" [160; 90] [32; 32; 32] 32000) as [g|e] eqn:Hg;
    [|by vm_compute in Hg].
  destruct (init_fields _ _ _ _ _ _ _ _ Hg) as (_ & Hity & _).
  assert (∃ a m1, _load_voxelgrid disk g pcd1 fresh = (Ok a, m1)) as (a & m1 & H1).
  { vm_compute in Hg. injection Hg as <-. eexists _, _. by vm_compute. }
  eexists g, a, m1, _. split; [reflexivity|]. split; [exact H1|]. split; [reflexivity|].
  apply (cached_voxelgrid_is_stable disk g pcd1 fresh a m1 _ Hity H1).
  by repeat constructor.
Defined.

(** ** What the inputs of a batch hold *)

Lemma load_image_miss (w : World) (self : DataGenerator) (path : string) (m : Mem) :
  image_cache m !! path = None →
  _load_image w self path m
  = match decode_image w self path with
    | Ok a => (Ok a, store_voxelgrid_cache path a (emit (LoadImg path) m))
    | Raise e => (Raise e, emit (LoadImg path) m)
    end.
Proof.
  intros H. unfold _load_image, decode_image. rewrite H.
  by destruct (load_img w path (image_target_shape self)).
Qed.

Lemma load_voxelgrid_miss (w : World) (self : DataGenerator) (path : string) (m : Mem) :
  voxelgrid_cache m !! path = None →
  _load_voxelgrid w self path m
  = match decode_voxelgrid w self path with
    | Ok a => (Ok a, store_voxelgrid_cache path a (emit (FromFile path) m))
    | Raise e => (Raise e, emit (FromFile path) m)
    end.
Proof. intros H. unfold _load_voxelgrid, decode_voxelgrid. by rewrite H. Qed.

(** The caches of an instance on which batches and materializations were
    run: the image cache and the point-cloud cache are empty, and for voxel
    grids every cached array is the one decoded from the file of its
    key. *)
Lemma public_calls_keep_decoded (w : World) (self : DataGenerator) (calls : list call) :
  Forall public calls →
  image_cache (lifetime w self calls) = ∅
  ∧ pointcloud_cache (lifetime w self calls) = ∅
  ∧ (input_type self = "voxelgrid" →
     map_Forall (λ path a, decode_voxelgrid w self path = Ok a)
                (voxelgrid_cache (lifetime w self calls))).
Proof.
  intros Hpub. destruct (lifetime_ok w self calls) as (Hi & Hp & _).
  split; [done|]. split; [done|]. intros Hv.
  apply (public_calls_keep w self
           (λ m, map_Forall (λ path a, decode_voxelgrid w self path = Ok a)
                            (voxelgrid_cache m)));
    [ done
    | intros Hity; rewrite Hv in Hity; discriminate Hity
    |
    | intros _ path m H; by rewrite load_pointcloud_keeps_voxelgrid_cache
    | exact Hpub
    | apply map_Forall_empty ].
  intros _ path m H.
  destruct (voxelgrid_cache m !! path) as [a|] eqn:Hc.
  - unfold _load_voxelgrid. by rewrite Hc.
  - rewrite (load_voxelgrid_miss w self path m Hc).
    destruct (decode_voxelgrid w self path) as [a|e] eqn:Hd; [|done].
    by apply map_Forall_insert_2.
Qed.

(** On an instance on which batches and materializations were run, every
    input of a yielded batch is the array decoded from a file in the
    dictionary entry of a subject of the subject list: for images from one
    of its pictures, decoded anew; for voxel grids from one of its scans,
    decoded now or cached from an earlier decode of that scan.  With any
    other selector a yielded batch has no input. *)
Theorem batch_inputs_decode_entry_files (w : World) (self : DataGenerator)
    (calls : list call) (size : Z) (subset : option (list string)) (tape : list nat)
    (xs : list ndarray) (ys : list (list json)) :
  Forall public calls →
  fst (fst (generate w self size subset tape (lifetime w self calls))) = Yield xs ys →
  Forall (from_entry_file w self (default_qrcodes self subset)) xs.
Proof.
  intros Hpub Hy. unfold generate in Hy.
  set (I := λ m : Mem,
         image_cache m = ∅ ∧ pointcloud_cache m = ∅
         ∧ (input_type self = "voxelgrid" →
            map_Forall (λ path a, decode_voxelgrid w self path = Ok a)
                       (voxelgrid_cache m))).
  destruct (generate_loop_entries w self size (default_qrcodes self subset)
              (λ xs _ m, I m ∧ Forall (from_entry_file w self (default_qrcodes self subset)) xs)
              (λ _, True)) with
    (n := length tape) (tape := tape) (xs := @nil ndarray) (ys := @nil (list json))
    (m := lifetime w self calls) as (xs' & ys' & [_ HJ] & Hstop).
  - intros Hi xs0 ys0 m0 q t jpgs pcds path [(Hic & Hpc & Hvc) Hrows] _ Hq Hd Hpath.
    rewrite (load_image_miss w self path m0) by (by rewrite Hic, lookup_empty).
    destruct (decode_image w self path) as [a|e] eqn:Hdec.
    + split.
      * split; [done|]. split; [done|]. intros Hv. rewrite Hv in Hi. discriminate Hi.
      * apply Forall_app. split; [done|]. apply Forall_singleton.
        exists q, t, jpgs, pcds. split; [done|]. split; [done|]. left.
        split; [done|]. by exists path.
    + by repeat split.
  - intros Hv xs0 ys0 m0 q t jpgs pcds path [(Hic & Hpc & Hvc) Hrows] _ Hq Hd Hpath.
    assert (∀ a, decode_voxelgrid w self path = Ok a →
                 from_entry_file w self (default_qrcodes self subset) a) as Hfrom.
    { intros a Ha. exists q, t, jpgs, pcds. split; [done|]. split; [done|]. right.
      split; [done|]. by exists path. }
    destruct (voxelgrid_cache m0 !! path) as [a|] eqn:Hc.
    + unfold _load_voxelgrid. rewrite Hc. split; [done|].
      apply Forall_app. split; [done|]. apply Forall_singleton.
      apply Hfrom. by apply (Hvc Hv path).
    + rewrite (load_voxelgrid_miss w self path m0 Hc).
      destruct (decode_voxelgrid w self path) as [a|e] eqn:Hdec.
      * split.
        -- split; [done|]. split; [done|]. intros _.
           apply map_Forall_insert_2; [done | by apply Hvc].
        -- apply Forall_app. split; [done|]. apply Forall_singleton. by apply Hfrom.
      * by repeat split.
  - intros Hp xs0 ys0 m0 q t jpgs pcds path [(Hic & Hpc & Hvc) Hrows] _ Hq Hd Hpath.
    destruct (load_pointcloud_cases w self path m0) as [(a & Ha & _)|(_ & e & -> & _)].
    + rewrite Hpc in Ha. by rewrite lookup_empty in Ha.
    + split; [|done]. split; [done|]. split; [done|].
      intros Hv. rewrite Hv in Hp. discriminate Hp.
  - reflexivity.
  - split; [by apply public_calls_keep_decoded | constructor].
  - rewrite Hy in Hstop. by destruct Hstop as (-> & _ & _).
Qed.

(** On the disk, voxel grids, after a materialization: the row of the
    batch is the decoded first scan of ABC123, taken from the cache. *)
Lemma batch_inputs_decode_entry_files_witness :
  ∃ g x ys,
    on_disk "voxelgrid" [160; 90] [32; 32; 32] 32000 = Ok g
    ∧ fst (fst (generate disk g 1 None [0; 0]%nat
                  (lifetime disk g [Call_generate_dataset None])))
      = Yield [x] ys
    ∧ decode_voxelgrid disk g pcd1 = Ok x
    ∧ from_entry_file disk g (qrcodes g) x.
Proof.
  destruct (on_disk "voxelgrid" [160; 90] [32; 32; 32] 32000) as [g|e] eqn:Hg;
    [|by vm_compute in Hg].
  assert (∃ x ys,
            fst (fst (generate disk g 1 None [0; 0]%nat
                        (lifetime disk g [Call_generate_dataset None])))
            = Yield [x] ys
            ∧ decode_voxelgrid disk g pcd1 = Ok x) as (x & ys & Hy & Hx).
  { vm_compute in Hg. injection Hg as <-. eexists _, _. by vm_compute. }
  exists g, x, ys. split; [reflexivity|]. split; [exact Hy|]. split; [exact Hx|].
  pose proof (batch_inputs_decode_entry_files disk g [Call_generate_dataset None] 1 None
                [0; 0]%nat [x] ys) as H.
  assert (Forall public [Call_generate_dataset None]) as Hpub by (by constructor).
  specialize (H Hpub Hy). apply Forall_cons in H as [H _]. exact H.
Defined.

(** ** The shape of the rows of a batch *)

Lemma voxelgrid_rows_have_voxelgrid_shape (w : World) (self : DataGenerator) (size : Z)
    (subset : option (list string)) (tape : list nat) (calls : list call)
    (xs : list ndarray) (ys : list (list json)) :
  input_type self = "voxelgrid" →
  Forall public calls →
  fst (fst (generate w self size subset tape (lifetime w self calls))) = Yield xs ys →
  Forall (λ x, shape x = voxelgrid_shape self) xs.
Proof.
  intros Hv Hpub Hy.
  set (I := λ m, map_Forall (λ _ a, shape a = voxelgrid_shape self) (voxelgrid_cache m)).
  assert (∀ path m, I m →
            I (snd (_load_voxelgrid w self path m))
            ∧ ∀ a, fst (_load_voxelgrid w self path m) = Ok a →
                   shape a = voxelgrid_shape self) as Hload.
  { intros path m Hm. destruct (load_voxelgrid_cases w self path m)
      as [(a & Ha & ->)|(_ & [(e & ->)|(a & Ha & ->)])]; simpl.
    - split; [done|]. intros ? [= <-]. by apply (Hm path).
    - done.
    - split; [by apply map_Forall_insert_2|]. by intros ? [= <-]. }
  assert (I (lifetime w self calls)) as Hm.
  { apply (public_calls_keep w self I);
      [ done
      | intros Hi; rewrite Hv in Hi; discriminate Hi
      | intros _ path m H; by apply Hload
      | intros _ path m H; unfold I; by rewrite load_pointcloud_keeps_voxelgrid_cache
      | exact Hpub
      | apply map_Forall_empty ]. }
  unfold generate in Hy.
  destruct (generate_loop_rule w self size (default_qrcodes self subset)
              (λ xs _ m, I m ∧ Forall (λ x, shape x = voxelgrid_shape self) xs)) with
    (n := length tape) (tape := tape) (xs := @nil ndarray) (ys := @nil (list json))
    (m := lifetime w self calls) as (xs' & ys' & [_ Hr] & Hstop).
  - intros Hi. rewrite Hv in Hi. discriminate Hi.
  - intros _ xs0 ys0 m0 path t [H0 Hr] _. destruct (Hload path m0 H0) as [H1 Ha].
    destruct (_load_voxelgrid w self path m0) as [[a|e] m']; simpl in *; [|done].
    split; [done|]. apply Forall_app. split; [done|]. apply Forall_singleton. by apply Ha.
  - intros Hp. rewrite Hv in Hp. discriminate Hp.
  - done.
  - split; [done | constructor].
  - by destruct (Hstop _ _ Hy) as (-> & _).
Qed.

(** In a constructed index, over any sequence of batches and
    materializations, every row of a yielded batch has the shape the index
    was constructed for: (width, height, 3) for images of target
    (height, width), the voxel-grid target shape for voxel grids. *)
Theorem batch_rows_have_target_shape (w : World) (root ity : string) (ots : list string)
    (its vts : list Z) (pts : Z) (g : DataGenerator) (calls : list call) (size : Z)
    (subset : option (list string)) (tape : list nat)
    (xs : list ndarray) (ys : list (list json)) (x : ndarray) :
  __init__ w root ity ots its vts pts = Ok g →
  Forall public calls →
  fst (fst (generate w g size subset tape (lifetime w g calls))) = Yield xs ys →
  x ∈ xs →
  (ity = "image" → ∃ height width, its = [height; width] ∧ shape x = [width; height; 3])
  ∧ (ity = "voxelgrid" → shape x = vts).
Proof.
  intros Hg Hpub Hy Hx.
  destruct (init_Ok _ _ _ _ _ _ _ _ Hg) as (_ & Hl2 & Hl3 & _).
  destruct (init_fields _ _ _ _ _ _ _ _ Hg) as (_ & Hity & _ & Hits & Hvts & _).
  split.
  - intros ->.
    destruct (generate_caches_ok w g size subset tape _ (lifetime_ok w g calls)) as [_ Hrows].
    specialize (Hrows _ _ Hy). rewrite Forall_forall in Hrows. specialize (Hrows _ Hx).
    unfold row_ok, image_shape in Hrows. rewrite Hity, Hits in Hrows. simpl in Hrows.
    destruct its as [|height [|width [|? ?]]]; try done. by exists height, width.
  - intros ->.
    pose proof (voxelgrid_rows_have_voxelgrid_shape w g size subset tape calls xs ys
                  Hity Hpub Hy) as Hrows.
    rewrite Forall_forall in Hrows. specialize (Hrows _ Hx).
    unfold voxelgrid_shape in Hrows. rewrite Hvts in Hrows.
    by destruct vts as [|n_x [|n_y [|n_z [|? ?]]]].
Qed.

(** On the disk, voxel grids of target (20, 20, 20), as [test_parameters]
    has it: the row of the batch has that shape. *)
Lemma batch_rows_have_target_shape_witness :
  ∃ g x ys,
    on_disk "voxelgrid" [160; 90] [20; 20; 20] 32000 = Ok g
    ∧ fst (fst (generate disk g 1 None [0; 0]%nat fresh)) = Yield [x] ys
    ∧ shape x = [20; 20; 20].
Proof.
  destruct (on_disk "voxelgrid" [160; 90] [20; 20; 20] 32000) as [g|e] eqn:Hg;
    [|by vm_compute in Hg].
  assert (∃ x ys, fst (fst (generate disk g 1 None [0; 0]%nat fresh)) = Yield [x] ys)
    as (x & ys & Hy).
  { vm_compute in Hg. injection Hg as <-. eexists _, _. by vm_compute. }
  exists g, x, ys. split; [reflexivity|]. split; [exact Hy|].
  apply (batch_rows_have_target_shape disk "data" "voxelgrid" ["height"; "weight"]
           [160; 90] [20; 20; 20] 32000 g [] 1 None [0; 0]%nat [x] ys x Hg);
    [constructor | exact Hy | left | reflexivity].
Defined.

(** ** What escapes the materializer, and what its image rows hold *)

Section MaterializerErrors.
Variable w : World.
Variable self : DataGenerator.

Lemma dataset_images_Raise qrcode targets paths acc m e :
  fst (dataset_images w self qrcode targets paths acc m) = Raise e →
  e = LibraryError "load_img".
Proof.
  revert acc m. induction paths as [|path rest IH]; intros acc m; simpl; [done|].
  pose proof (load_image_Raise w self path m) as Hr.
  destruct (_load_image w self path m) as [[a|e0] m']; [apply IH|].
  simpl. intros [= <-]. by apply Hr.
Qed.

Lemma dataset_voxelgrids_Raise qrcode targets paths voxelgrid acc m e :
  fst (dataset_voxelgrids w self qrcode targets paths voxelgrid acc m) = Raise e →
  e = UnboundLocalError "voxelgrid".
Proof.
  revert voxelgrid acc m.
  induction paths as [|path rest IH]; intros voxelgrid acc m; simpl; [done|].
  destruct (_load_voxelgrid w self path m) as [[a|e0] m']; [apply IH|].
  destruct voxelgrid as [v|]; [apply IH|]. simpl. by intros [= <-].
Qed.

Lemma dataset_pointclouds_Ok qrcode targets paths acc m :
  is_ok (fst (dataset_pointclouds w self qrcode targets paths acc m)) = true.
Proof.
  revert acc m. induction paths as [|path rest IH]; intros acc m; simpl; [done|].
  destruct (_load_pointcloud w self path m) as [[a|e0] m']; apply IH.
Qed.

(** The exceptions that escape [generate_dataset]: with images, the error
    of a picture that does not decode; with voxel grids, the
    [UnboundLocalError] of the local [voxelgrid]; with a selector that is
    none of the three, the [NameError]; with raw point clouds, none. *)
Theorem generate_dataset_raises_only subset m e :
  fst (generate_dataset w self subset m) = Raise e →
  (input_type self = "image" ∧ e = LibraryError "load_img")
  ∨ (input_type self = "voxelgrid" ∧ e = UnboundLocalError "voxelgrid")
  ∨ (¬ known_selector self ∧ e = NameError "input_type").
Proof.
  unfold generate_dataset. generalize (default_qrcodes self subset) as qs.
  generalize (@None ndarray) as voxelgrid. generalize no_rows as acc.
  intros acc voxelgrid qs. revert voxelgrid acc m.
  induction qs as [|q rest IH]; intros voxelgrid acc m; simpl; [done|].
  destruct (qrcodes_dictionary self !! q) as [[[targets jpgs] pcds]|]; [|apply IH].
  destruct (String.eqb_spec (input_type self) "image") as [Hi|Hni].
  { pose proof (dataset_images_Raise q targets jpgs acc
                  (emit (PrintTargets targets) (emit (PrintProcessing q) m))) as Hr.
    destruct (dataset_images _ _ _ _ _ _ _) as [[acc'|e0] m']; [apply IH|].
    simpl. intros [= <-]. left. split; [done|]. by apply Hr. }
  destruct (String.eqb_spec (input_type self) "voxelgrid") as [Hv|Hnv].
  { pose proof (dataset_voxelgrids_Raise q targets pcds voxelgrid acc
                  (emit (PrintTargets targets) (emit (PrintProcessing q) m))) as Hr.
    destruct (dataset_voxelgrids _ _ _ _ _ _ _ _) as [[[v acc']|e0] m']; [apply IH|].
    simpl. intros [= <-]. right. left. split; [done|]. by apply Hr. }
  destruct (String.eqb_spec (input_type self) "pointcloud") as [Hp|Hnp].
  { pose proof (dataset_pointclouds_Ok q targets pcds acc
                  (emit (PrintTargets targets) (emit (PrintProcessing q) m))) as Hr.
    destruct (dataset_pointclouds _ _ _ _ _ _ _) as [[acc'|e0] m']; [apply IH|done]. }
  simpl. intros [= <-]. right. right. split; [by intros [?|[?|?]] | done].
Qed.

Lemma dataset_images_inputs qrcode targets paths acc m acc' m' :
  image_cache m = ∅ →
  dataset_images w self qrcode targets paths acc m = (Ok acc', m') →
  image_cache m' = ∅
  ∧ ∃ new, x_inputs acc' = x_inputs acc ++ new
           ∧ Forall2 (λ x path, decode_image w self path = Ok x) new paths.
Proof.
  revert acc m. induction paths as [|path rest IH]; intros acc m Hm H; simpl in H.
  - injection H as <- <-. split; [done|]. exists []. by rewrite app_nil_r.
  - rewrite (load_image_miss w self path m) in H by (by rewrite Hm, lookup_empty).
    destruct (decode_image w self path) as [a|e] eqn:Hl; [|done].
    assert (image_cache (store_voxelgrid_cache path a (emit (LoadImg path) m)) = ∅)
      as Hm1 by done.
    destruct (IH _ _ Hm1 H) as (Hm' & new & Hx & Hnew). split; [done|].
    exists (a :: new). simpl in Hx.
    rewrite Hx, <- app_assoc. split; [done|]. by constructor.
Qed.

(** With images, every row of a materialization that returns holds the
    array decoded from its own file: the inputs are, in order, the
    decoded pictures of the listed subjects' path lists.  (The image
    cache is empty, as it is on every instance.) *)
Theorem image_dataset_rows_decode_their_file subset m rows :
  input_type self = "image" → image_cache m = ∅ →
  fst (generate_dataset w self subset m) = Ok rows →
  Forall2 (λ x path, decode_image w self path = Ok x)
          (x_inputs rows)
          (concat (subject_files self <$> default_qrcodes self subset)).
Proof.
  intros Hi Hm.
  assert (∀ qs v0 acc0 m0 acc1 m1,
            image_cache m0 = ∅ →
            dataset_loop w self qs v0 acc0 m0 = (Ok acc1, m1) →
            ∃ new, x_inputs acc1 = x_inputs acc0 ++ new
                   ∧ Forall2 (λ x path, decode_image w self path = Ok x)
                             new (concat (subject_files self <$> qs))) as Hloop.
  { intros qs. induction qs as [|q rest IH]; intros v0 acc0 m0 acc1 m1 Hm0 H; simpl in H.
    - injection H as <- <-. exists []. by rewrite app_nil_r.
    - rewrite fmap_cons. cbn [concat]. unfold subject_files at 1, files_of.
      destruct (qrcodes_dictionary self !! q) as [[[targets jpgs] pcds]|]; simpl;
        [|by apply IH in H].
      rewrite Hi in H |- *. simpl in H |- *.
      destruct (dataset_images w self q targets jpgs acc0 _) as [[acc2|e] m2] eqn:H1;
        [|done].
      apply dataset_images_inputs in H1 as (Hm2 & new1 & Hx1 & Hnew1); [|done].
      destruct (IH _ _ _ _ _ Hm2 H) as (new & Hx & Hnew).
      exists (new1 ++ new). rewrite Hx, Hx1, <- app_assoc. split; [done|].
      by apply Forall2_app. }
  unfold generate_dataset.
  destruct (dataset_loop w self _ None no_rows m) as [[acc'|e] m'] eqn:Hl; [|done].
  intros [= ->].
  destruct (Hloop _ _ _ _ _ _ Hm Hl) as (new & Hx & Hnew). simpl in Hx. by rewrite Hx.
Qed.

End MaterializerErrors.

(** With the scan that cannot be parsed first, voxel grids: the unbound
    local escapes the materializer. *)
Lemma generate_dataset_raises_only_witness :
  ∃ g,
    __init__ reversed_disk "data" "voxelgrid" ["height"; "weight"]
             [160; 90] [32; 32; 32] 32000 = Ok g
    ∧ fst (generate_dataset reversed_disk g None fresh)
      = Raise (UnboundLocalError "voxelgrid")
    ∧ input_type g = "voxelgrid".
Proof.
  destruct (__init__ reversed_disk "data" "voxelgrid" ["height"; "weight"]
              [160; 90] [32; 32; 32] 32000) as [g|e] eqn:Hg; [|by vm_compute in Hg].
  assert (fst (generate_dataset reversed_disk g None fresh)
          = Raise (UnboundLocalError "voxelgrid")) as Hr.
  { vm_compute in Hg. injection Hg as <-. by vm_compute. }
  exists g. split; [reflexivity|]. split; [exact Hr|].
  destruct (generate_dataset_raises_only reversed_disk g None fresh _ Hr)
    as [[_ [=]]|[[Hv _]|[_ [=]]]].
  exact Hv.
Defined.

(** On the disk, images: the one row holds the decoded picture of
    ABC123, a 90 x 160 array of three channels. *)
Lemma image_dataset_rows_decode_their_file_witness :
  ∃ g rows x,
    on_disk "image" [160; 90] [32; 32; 32] 32000 = Ok g
    ∧ fst (generate_dataset disk g None fresh) = Ok rows
    ∧ x_inputs rows = [x]
    ∧ decode_image disk g jpg1 = Ok x
    ∧ x = {| shape := [90; 160; 3]; buffer := [160; 90] |}.
Proof.
  destruct (on_disk "image" [160; 90] [32; 32; 32] 32000) as [g|e] eqn:Hg;
    [|by vm_compute in Hg].
  destruct (init_fields _ _ _ _ _ _ _ _ Hg) as (_ & Hity & _).
  assert (∃ rows, fst (generate_dataset disk g None fresh) = Ok rows
                  ∧ x_inputs rows = [{| shape := [90; 160; 3]; buffer := [160; 90] |}]
                  ∧ concat (subject_files g <$> default_qrcodes g None) = [jpg1])
    as (rows & Hr & Hx & Hf).
  { vm_compute in Hg. injection Hg as <-. eexists. by vm_compute. }
  pose proof (image_dataset_rows_decode_their_file disk g None fresh rows Hity eq_refl Hr)
    as H.
  rewrite Hx, Hf in H. apply Forall2_cons in H as [H _].
  exists g, rows, {| shape := [90; 160; 3]; buffer := [160; 90] |}.
  split; [reflexivity|]. split; [exact Hr|]. split; [exact Hx|]. split; [exact H|].
  reflexivity.
Defined.

(** ** Which instances yield batches *)

(** Only an index of images or of voxel grids ever yields a batch of one
    row or more: with raw point clouds and with any other selector
    [generate] yields none, whatever was called before and whatever the
    draws. *)
Theorem batches_need_image_or_voxelgrid (w : World) (self : DataGenerator)
    (calls : list call) (size : Z) (subset : option (list string)) (tape : list nat)
    (xs : list ndarray) (ys : list (list json)) :
  fst (fst (generate w self size subset tape (lifetime w self calls))) = Yield xs ys →
  0 < size →
  input_type self = "image" ∨ input_type self = "voxelgrid".
Proof.
  intros Hy Hsize.
  destruct (decide (input_type self = "image")) as [|Hni]; [by left|].
  destruct (decide (input_type self = "voxelgrid")) as [|Hnv]; [by right|].
  exfalso. destruct (decide (input_type self = "pointcloud")) as [Hp|Hnp].
  - pose proof (generate_pointcloud_no_batch w self size subset tape _ Hp Hsize
                  (lifetime_ok w self calls)) as H.
    by rewrite Hy in H.
  - pose proof (generate_unknown_no_batch w self size subset tape
                  (lifetime w self calls) Hni Hnv Hnp Hsize) as H.
    by rewrite Hy in H.
Qed.

(** On the disk, images: a batch of one row. *)
Lemma batches_need_image_or_voxelgrid_witness :
  ∃ g xs ys,
    on_disk "image" [160; 90] [32; 32; 32] 32000 = Ok g
    ∧ fst (fst (generate disk g 1 None [0; 0]%nat fresh)) = Yield xs ys
    ∧ (input_type g = "image" ∨ input_type g = "voxelgrid").
Proof.
  destruct (on_disk "image" [160; 90] [32; 32; 32] 32000) as [g|e] eqn:Hg;
    [|by vm_compute in Hg].
  assert (∃ xs ys, fst (fst (generate disk g 1 None [0; 0]%nat fresh)) = Yield xs ys)
    as (xs & ys & Hy).
  { vm_compute in Hg. injection Hg as <-. eexists _, _. by vm_compute. }
  exists g, xs, ys. split; [reflexivity|]. split; [exact Hy|].
  apply (batches_need_image_or_voxelgrid disk g [] 1 None [0; 0]%nat xs ys Hy). lia.
Defined.

(** ** Which datasets construct *)

Section Accepted.
Variable w : World.
Variables (ots jpg pcd personal : list string).

Local Abbreviation loop := (dictionary_loop w ots jpg pcd personal).
Local Abbreviation manual := (manual w).
Local Abbreviation subject := (subject w personal).

Lemma loop_Ok_intro paths :
  ∀ d ids,
    mapM subject (filter manual paths) = Ok ids →
    NoDup ids →
    (∀ q, q ∈ ids → q ∉ dom d) →
    (∀ p, p ∈ paths → manual p →
          is_ok (_extract_targets ots (json_load_measure w p)) = true) →
    ∃ d', loop paths d = Ok d'.
Proof.
  induction paths as [|p rest IH]; intros d ids Hids Hnd Hfresh Hts; [by exists d|].
  destruct (decide (manual p)) as [Hp|Hp].
  - rewrite filter_cons_True in Hids by done. simpl in Hids. inv_bind Hids.
    injection Hids as <-. apply NoDup_cons in Hnd as [Hnotin Hnd].
    rewrite loop_cons_manual by done. fold (subject p). rewrite Ha. cbn [bind].
    rewrite bool_decide_eq_false_2 by (apply Hfresh; left).
    unfold entry_of.
    destruct (_extract_targets ots (json_load_measure w p)) as [targets|e] eqn:Ht.
    + cbn [bind]. apply (IH _ a0); [done | done | |].
      * intros q Hq. rewrite dom_insert_L.
        assert (q ≠ a) by (intros ->; done).
        assert (q ∉ dom d) by (apply Hfresh; by right). set_solver.
      * intros p' Hp'. apply Hts. by right.
    + specialize (Hts p (list_elem_of_here _ _) Hp). by rewrite Ht in Hts.
  - rewrite filter_cons_False in Hids by done. rewrite loop_cons_skip by done.
    apply (IH _ ids); [done..|]. intros p' Hp'. apply Hts. by right.
Qed.

End Accepted.

(** On a dataset whose JSON files are records as [World] has them,
    construction succeeds exactly when the root exists, the two target
    shapes have two and three components, there is a measurement record,
    every measurement record is joined to one personal record, the manual
    records have pairwise distinct subjects, and every manual record has a
    value for each of the requested targets. *)
Theorem construction_succeeds_iff (w : World) (root ity : string) (ots : list string)
    (its vts : list Z) (pts : Z) :
  (∃ g, __init__ w root ity ots its vts pts = Ok g)
  ↔ os_path_exists w root = true
    ∧ length its = 2%nat ∧ length vts = 3%nat
    ∧ p_measures (_get_paths w root) ≠ []
    ∧ (∃ ids, mapM (subject w (p_personal (_get_paths w root)))
                   (p_measures (_get_paths w root)) = Ok ids)
    ∧ (∃ mids, mapM (subject w (p_personal (_get_paths w root)))
                    (filter (manual w) (p_measures (_get_paths w root))) = Ok mids
               ∧ NoDup mids)
    ∧ (∀ p, p ∈ p_measures (_get_paths w root) → manual w p →
            is_ok (_extract_targets ots (json_load_measure w p)) = true).
Proof.
  split.
  - intros [g Hg].
    destruct (init_Ok _ _ _ _ _ _ _ _ Hg) as (Hroot & Hl2 & Hl3 & Hq & Hne & Hd).
    unfold _find_qrcodes in Hq. inv_bind Hq. injection Hq as Hq.
    unfold _create_qrcodes_dictionary in Hd.
    destruct (loop_Ok _ _ _ _ _ _ _ _ Hd) as (_ & mids & Hmids & Hnd & _ & _ & Hent).
    split; [done|]. split; [done|]. split; [done|]. split; [|split; [|split]].
    + intros Hnil. rewrite Hnil in Ha. injection Ha as <-. apply Hne. by rewrite <- Hq.
    + by exists a.
    + by exists mids.
    + intros p Hp Hm.
      destruct (mapM_Ok_each _ _ _ Ha p Hp) as (q & Hs & _).
      destruct (Hent p q Hp Hm Hs) as (e & He & _).
      unfold entry_of in He. by destruct (_extract_targets ots (json_load_measure w p)).
  - intros (Hroot & Hl2 & Hl3 & Hne & [ids Hids] & (mids & Hmids & Hnd) & Hts).
    destruct (loop_Ok_intro w ots (p_jpg (_get_paths w root)) (p_pcd (_get_paths w root))
                (p_personal (_get_paths w root)) (p_measures (_get_paths w root))
                ∅ mids Hmids Hnd) as [d Hd]; [set_solver | done |].
    unfold __init__, _find_qrcodes, _create_qrcodes_dictionary.
    unfold subject in Hids. rewrite Hroot, Hl2, Hl3, Hids, Hd. cbn [assert_ bind Nat.eqb].
    rewrite bool_decide_eq_false_2; [by eexists|].
    rewrite sorted_set_nil. intros ->.
    apply mapM_Ok_length in Hids. destruct (p_measures (_get_paths w root)); done.
Qed.

(** On the disk, with the type of the record and the weight as targets:
    the conditions hold, and the index is constructed. *)
Lemma construction_succeeds_iff_witness :
  ∃ g, __init__ disk "data" "image" ["type"; "weight"] [160; 90] [32; 32; 32] 32000 = Ok g.
Proof.
  apply (construction_succeeds_iff disk "data" "image" ["type"; "weight"]
           [160; 90] [32; 32; 32] 32000).
  split; [reflexivity|]. split; [reflexivity|]. split; [reflexivity|].
  split; [discriminate|].
  split; [exists ["ABC123"]; reflexivity|].
  split; [exists ["ABC123"]; split; [reflexivity | apply NoDup_singleton]|].
  intros p _ _. reflexivity.
Defined.

(** ** Failed loads *)

(** A load that raises stores nothing: the three caches are as before, so
    the file is tried again by the next load of the same path. *)
Theorem failed_loads_cache_nothing (w : World) (self : DataGenerator) (path : string)
    (m : Mem) (e : exn) :
  (fst (_load_image w self path m) = Raise e →
   snd (_load_image w self path m) = emit (LoadImg path) m)
  ∧ (fst (_load_voxelgrid w self path m) = Raise e →
     snd (_load_voxelgrid w self path m) = emit (FromFile path) m)
  ∧ (fst (_load_pointcloud w self path m) = Raise e →
     snd (_load_pointcloud w self path m) = emit (FromFile path) m).
Proof.
  split; [|split].
  - destruct (load_image_cases w self path m)
      as [(a & _ & ->)|(_ & [(e' & ->)|(a & _ & ->)])]; done.
  - destruct (load_voxelgrid_cases w self path m)
      as [(a & _ & ->)|(_ & [(e' & ->)|(a & _ & ->)])]; done.
  - destruct (load_pointcloud_cases w self path m)
      as [(a & _ & ->)|(_ & e' & -> & _)]; done.
Qed.

(** On the disk, voxel grids: the scan that cannot be parsed is parsed
    again by a second load. *)
Lemma failed_loads_cache_nothing_witness :
  ∃ g m1 m2,
    on_disk "voxelgrid" [160; 90] [32; 32; 32] 32000 = Ok g
    ∧ _load_voxelgrid disk g pcd2 fresh = (Raise (LibraryError "from_file"), m1)
    ∧ _load_voxelgrid disk g pcd2 m1 = (Raise (LibraryError "from_file"), m2)
    ∧ m1 = emit (FromFile pcd2) fresh
    ∧ trace m2 = [FromFile pcd2; FromFile pcd2].
Proof.
  destruct (on_disk "voxelgrid" [160; 90] [32; 32; 32] 32000) as [g|e] eqn:Hg;
    [|by vm_compute in Hg].
  assert (∀ m, voxelgrid_cache m !! pcd2 = None →
               fst (_load_voxelgrid disk g pcd2 m) = Raise (LibraryError "from_file"))
    as Hfail.
  { intros m Hm. unfold _load_voxelgrid. by rewrite Hm. }
  pose proof (proj1 (proj2 (failed_loads_cache_nothing disk g pcd2 fresh _))
                (Hfail fresh eq_refl)) as H1.
  pose proof (proj1 (proj2 (failed_loads_cache_nothing disk g pcd2
                              (emit (FromFile pcd2) fresh) _))
                (Hfail (emit (FromFile pcd2) fresh) eq_refl)) as H2.
  exists g, (emit (FromFile pcd2) fresh),
         (emit (FromFile pcd2) (emit (FromFile pcd2) fresh)).
  split; [reflexivity|].
  split; [apply injective_projections; [apply (Hfail fresh eq_refl) | exact H1]|].
  split; [apply injective_projections;
            [apply (Hfail (emit (FromFile pcd2) fresh) eq_refl) | exact H2]|].
  split; reflexivity.
Defined.
